(** * MiGEMox: community model assembly and diet-constrained flux aggregation

    A shallow embedding of [migemox/pipeline/community_gem_builder.py] and
    [src/pipeline/simulation.py].  Python floats are binary64 values
    ([PrimFloat.float]); Python dictionaries keyed by reaction or metabolite
    id are [gmap string _]; raised exceptions are the [Raise] branch of
    [result]. *)

From Stdlib Require Import Floats Ascii String.
From stdpp Require Import gmap strings list.

Set Warnings "-inexact-float".
Open Scope string_scope.

(** ** Python strings *)

Module Str.

(** [s.startswith(p)] *)
Definition startswith (s p : string) : bool := String.prefix p s.

(** [sub in s] *)
Fixpoint contains (s sub : string) : bool :=
  String.prefix sub s ||
  match s with
  | EmptyString => false
  | String _ s' => contains s' sub
  end.

(** [s.replace(old, new)] for a non-empty [old] (every call of the pipeline
    passes a non-empty pattern): the occurrences of [old] are found left to
    right without overlap.  [skip] counts the characters of a matched
    occurrence that are still to be dropped. *)
Fixpoint replace_from (skip : nat) (s old new : string) : string :=
  match s with
  | EmptyString => EmptyString
  | String c s' =>
      match skip with
      | S k => replace_from k s' old new
      | O =>
          if String.prefix old s
          then new ++ replace_from (String.length old - 1) s' old new
          else String c (replace_from 0 s' old new)
      end
  end.

Definition replace (s old new : string) : string := replace_from 0 s old new.

(** [s.split(sep)[0]] for a one-character separator *)
Fixpoint split_head (s : string) (sep : ascii) : string :=
  match s with
  | EmptyString => EmptyString
  | String c s' => if Ascii.eqb c sep then EmptyString else String c (split_head s' sep)
  end.

End Str.

(** ** Exceptions *)

Inductive exn : Type :=
  | ValueError (msg : string)
  | KeyError (key : string)
  | UnboundLocalError (var : string)
  | AttributeError (msg : string)
  | OtherError (msg : string).

Inductive result (A : Type) : Type :=
  | Ok (a : A)
  | Raise (e : exn).
Arguments Ok {A} a.
Arguments Raise {A} e.

#[global] Instance result_ret : MRet result := fun A a => Ok a.
#[global] Instance result_bind : MBind result := fun A B k r =>
  match r with
  | Ok a => k a
  | Raise e => Raise e
  end.


Fixpoint foldlM {A B : Type} (f : A -> B -> result A) (a : A) (l : list B) : result A :=
  match l with
  | [] => Ok a
  | b :: l' => a' ← f a b; foldlM f a' l'
  end.

(** ** The network model: cobra's [Model], [Reaction] and [Metabolite]

    A reaction holds its metabolites in an insertion-ordered dictionary; the
    entries are keyed here by metabolite id, which is unique in a model, so a
    metabolite object shared by several reactions is renamed in all of them at
    once ([rename_metabolite]). *)

Module Cobra.

Record Metabolite : Type := mk_Metabolite
  { met_id : string;
    compartment : option string;
    met_name : string;
    formula : string }.

Definition stoichiometry : Type := list (string * float).

Record Reaction : Type := mk_Reaction
  { rxn_id : string;
    rxn_name : string;
    subsystem : string;
    lower_bound : float;
    upper_bound : float;
    rxn_metabolites : stoichiometry }.

Record Model : Type := mk_Model
  { reactions : list Reaction;
    metabolites : list Metabolite }.

Definition with_id (r : Reaction) (id : string) : Reaction :=
  mk_Reaction id (rxn_name r) (subsystem r) (lower_bound r) (upper_bound r) (rxn_metabolites r).
Definition with_name (r : Reaction) (n sub : string) : Reaction :=
  mk_Reaction (rxn_id r) n sub (lower_bound r) (upper_bound r) (rxn_metabolites r).
Definition with_bounds (r : Reaction) (lb ub : float) : Reaction :=
  mk_Reaction (rxn_id r) (rxn_name r) (subsystem r) lb ub (rxn_metabolites r).
Definition with_metabolites (r : Reaction) (s : stoichiometry) : Reaction :=
  mk_Reaction (rxn_id r) (rxn_name r) (subsystem r) (lower_bound r) (upper_bound r) s.
Definition with_reactions (m : Model) (rs : list Reaction) : Model :=
  mk_Model rs (metabolites m).
Definition with_model_metabolites (m : Model) (ms : list Metabolite) : Model :=
  mk_Model (reactions m) ms.

(** [Reaction(id)]: empty name and subsystem, bounds [(0.0, 1000.0)], no
    metabolite. *)
Definition new_reaction (id : string) : Reaction :=
  mk_Reaction id "" "" 0%float 1000%float [].

(** [Metabolite(id)] *)
Definition new_metabolite (id : string) : Metabolite :=
  mk_Metabolite id None "" "".

(** *** Bounds

    [r.bounds = (lb, ub)] refuses a lower bound above the upper bound. The
    single setters do not refuse: [r.lower_bound = v] with [v] above the upper
    bound first assigns [r.upper_bound = v], and [r.upper_bound = v] with [v]
    below the lower bound first assigns [r.lower_bound = v], each with a
    DeprecationWarning; the check that follows then passes. On a reaction
    whose lower bound is above its upper bound, a value strictly between the
    two sends each setter into the other without end. *)

Definition check_bounds (lb ub : float) : result unit :=
  if PrimFloat.ltb ub lb
  then Raise (ValueError "The lower bound must be less than or equal to the upper bound")
  else Ok tt.

Definition recursion : exn :=
  OtherError "RecursionError: maximum recursion depth exceeded".

Definition set_lower_bound (r : Reaction) (v : float) : result Reaction :=
  r ← (if PrimFloat.ltb (upper_bound r) v
       then (* self.upper_bound = value *)
         if PrimFloat.ltb v (lower_bound r) then Raise recursion
         else _ ← check_bounds (lower_bound r) v; Ok (with_bounds r (lower_bound r) v)
       else Ok r);
  _ ← check_bounds v (upper_bound r);
  Ok (with_bounds r v (upper_bound r)).

Definition set_upper_bound (r : Reaction) (v : float) : result Reaction :=
  r ← (if PrimFloat.ltb v (lower_bound r)
       then (* self.lower_bound = value *)
         if PrimFloat.ltb (upper_bound r) v then Raise recursion
         else _ ← check_bounds v (upper_bound r); Ok (with_bounds r v (upper_bound r))
       else Ok r);
  _ ← check_bounds (lower_bound r) v;
  Ok (with_bounds r (lower_bound r) v).

Definition set_bounds (r : Reaction) (b : float * float) : result Reaction :=
  _ ← check_bounds b.1 b.2; Ok (with_bounds r b.1 b.2).

(** *** Id-indexed lists ([DictList]) *)

Definition has_reaction (m : Model) (id : string) : bool :=
  existsb (fun r => String.eqb (rxn_id r) id) (reactions m).

Definition has_metabolite (m : Model) (id : string) : bool :=
  existsb (fun x => String.eqb (met_id x) id) (metabolites m).

Definition find_reaction (m : Model) (id : string) : option Reaction :=
  List.find (fun r => String.eqb (rxn_id r) id) (reactions m).

Definition find_metabolite (m : Model) (id : string) : option Metabolite :=
  List.find (fun x => String.eqb (met_id x) id) (metabolites m).

(** [model.reactions.get_by_id(id)] *)
Definition get_reaction (m : Model) (id : string) : result Reaction :=
  match find_reaction m id with
  | Some r => Ok r
  | None => Raise (KeyError id)
  end.

Definition get_metabolite (m : Model) (id : string) : result Metabolite :=
  match find_metabolite m id with
  | Some x => Ok x
  | None => Raise (KeyError id)
  end.

(** Position of the reaction of id [id] in [model.reactions] *)
Fixpoint index_of (rs : list Reaction) (id : string) : option nat :=
  match rs with
  | [] => None
  | r :: rs' => if String.eqb (rxn_id r) id then Some 0 else S <$> index_of rs' id
  end.

(** The reaction object of id [id] is replaced by its mutated state. *)
Fixpoint put_reaction (rs : list Reaction) (id : string) (r' : Reaction) : list Reaction :=
  match rs with
  | [] => []
  | r :: rs' => if String.eqb (rxn_id r) id then r' :: rs' else r :: put_reaction rs' id r'
  end.

(** [model.remove_reactions([r for r in model.reactions if sel r])]:
    metabolites stay in the model. *)
Definition remove_reactions (m : Model) (sel : Reaction -> bool) : Model :=
  with_reactions m (List.filter (fun r => negb (sel r)) (reactions m)).

(** [model.add_reactions([r])] for a reaction that has no metabolite yet: a
    reaction whose id is already in the model is ignored. *)
Definition add_reactions (m : Model) (r : Reaction) : Model :=
  if has_reaction m (rxn_id r) then m else with_reactions m (reactions m ++ [r])%list.

(** [model.add_metabolites(l)]: metabolites whose id is already in the model
    are ignored. *)
Definition add_metabolites (m : Model) (l : list Metabolite) : Model :=
  with_model_metabolites m
    (metabolites m ++ List.filter (fun x => negb (has_metabolite m (met_id x))) l)%list.

(** *** Stoichiometry dictionaries *)

Definition stoich_mem (s : stoichiometry) (k : string) : bool :=
  existsb (fun e => String.eqb e.1 k) s.

Fixpoint stoich_get (s : stoichiometry) (k : string) : option float :=
  match s with
  | [] => None
  | (k', c) :: s' => if String.eqb k' k then Some c else stoich_get s' k
  end.

(** [d[k] = c] *)
Fixpoint stoich_set (s : stoichiometry) (k : string) (c : float) : stoichiometry :=
  match s with
  | [] => [(k, c)]
  | (k', c') :: s' => if String.eqb k' k then (k', c) :: s' else (k', c') :: stoich_set s' k c
  end.

(** [d[k] += c] for a key of [d] *)
Fixpoint stoich_combine (s : stoichiometry) (k : string) (c : float) : stoichiometry :=
  match s with
  | [] => []
  | (k', c') :: s' =>
      if String.eqb k' k then (k', PrimFloat.add c' c) :: s' else (k', c') :: stoich_combine s' k c
  end.

Definition drop_zero (s : stoichiometry) : stoichiometry :=
  List.filter (fun e => negb (PrimFloat.eqb e.2 0%float)) s.

(** [rxn.reactants]: the metabolites of negative coefficient *)
Definition reactants (r : Reaction) : list string :=
  (List.filter (fun e => PrimFloat.ltb e.2 0%float) (rxn_metabolites r)).*1.

(** [sub in rxn.reaction]. The equation string joins the metabolite ids with
    coefficients, [" + "] and an arrow between blanks; for a pattern without a
    blank, as [[e]] and [[c]] are, an occurrence lies inside one id. *)
Definition reaction_mentions (r : Reaction) (sub : string) : bool :=
  existsb (fun e => Str.contains e.1 sub) (rxn_metabolites r).

(** *** [Reaction.add_metabolites(d, combine=True)] on a reaction of a model *)

Inductive met_key : Type :=
  | ById (id : string)
  | ByObject (met : Metabolite).

Definition key_id (k : met_key) : string :=
  match k with
  | ById id => id
  | ByObject met => met_id met
  end.

(** One entry of [d]. [s0] is the dictionary when the call started: an id
    found there has its coefficient summed; any other id must be, or become, a
    metabolite of the model. *)
Definition add_entry (m : Model) (s0 : stoichiometry)
    (st : stoichiometry * list Metabolite) (e : met_key * float)
    : result (stoichiometry * list Metabolite) :=
  let id := key_id e.1 in
  if stoich_mem s0 id then Ok (stoich_combine st.1 id e.2, st.2)
  else if has_metabolite m id then Ok (stoich_set st.1 id e.2, st.2)
  else match e.1 with
       | ByObject met => Ok (stoich_set st.1 id e.2, (st.2 ++ [met])%list)
       | ById _ => Raise (KeyError id)
       end.

Definition reaction_add_metabolites (m : Model) (rid : string)
    (d : list (met_key * float)) : result Model :=
  r ← get_reaction m rid;
  st ← foldlM (add_entry m (rxn_metabolites r)) (rxn_metabolites r, []) d;
  let m := add_metabolites m st.2 in
  Ok (with_reactions m (put_reaction (reactions m) rid (with_metabolites r (drop_zero st.1)))).

(** *** [rxn.reaction = "a --> b"] and [rxn.reaction = "a <=> b"]

    The arrow fixes the bounds, the old metabolites are subtracted, then the
    reactant enters with [-1] and the product with [+1]; an id unknown to the
    model becomes a new metabolite.  The ids are single terms of the equation
    grammar (no blank, no [+], no arrow). *)

Inductive arrow : Type := Forward | Reversible.

Definition arrow_bounds (a : arrow) : float * float :=
  match a with
  | Forward => (0%float, 1000%float)
  | Reversible => ((-1000)%float, 1000%float)
  end.

Definition term_metabolite (m : Model) (id : string) : Metabolite :=
  match find_metabolite m id with
  | Some x => x
  | None => new_metabolite id
  end.

Definition build_reaction_from_string (m : Model) (rid : string)
    (reactant : string) (a : arrow) (product : string) : result Model :=
  r ← get_reaction m rid;
  r ← set_bounds r (arrow_bounds a);
  let m := with_reactions m (put_reaction (reactions m) rid r) in
  m ← reaction_add_metabolites m rid
        ((fun e => (ById e.1, PrimFloat.opp e.2)) <$> rxn_metabolites r);
  m ← reaction_add_metabolites m rid [(ByObject (term_metabolite m reactant), (-1)%float)];
  reaction_add_metabolites m rid [(ByObject (term_metabolite m product), 1%float)].

(** *** Renaming *)

(** [rxn.id = new] for the reaction at position [i] of [model.reactions] *)
Definition set_reaction_id (m : Model) (i : nat) (new : string) : result Model :=
  match reactions m !! i with
  | None => Ok m
  | Some r =>
      if String.eqb new (rxn_id r) then Ok m
      else if has_reaction m new
      then Raise (ValueError "The model already contains a reaction with the id")
      else Ok (with_reactions m (<[i := with_id r new]> (reactions m)))
  end.

Definition rename_in (old new : string) (s : stoichiometry) : stoichiometry :=
  (fun e => (if String.eqb e.1 old then new else e.1, e.2)) <$> s.

(** [met.compartment = c; met.id = new] for the metabolite of id [old]; every
    reaction that holds the metabolite sees the new id. *)
Definition rename_metabolite (m : Model) (old new : string) (c : string) : result Model :=
  if String.eqb new old
  then Ok (with_model_metabolites m
             ((fun x => if String.eqb (met_id x) old
                        then mk_Metabolite old (Some c) (met_name x) (formula x) else x)
                <$> metabolites m))
  else if has_metabolite m new
  then Raise (ValueError "The model already contains a metabolite with the id")
  else Ok (mk_Model
             ((fun r => with_metabolites r (rename_in old new (rxn_metabolites r)))
                <$> reactions m)
             ((fun x => if String.eqb (met_id x) old
                        then mk_Metabolite new (Some c) (met_name x) (formula x) else x)
                <$> metabolites m)).

(** The reaction object of id [id] is mutated by [f]. *)
Definition update_reaction (m : Model) (id : string) (f : Reaction -> result Reaction)
    : result Model :=
  r ← get_reaction m id;
  r ← f r;
  Ok (with_reactions m (put_reaction (reactions m) id r)).

(** The body of a loop [for rxn in model.reactions] that mutates [rxn] by
    [f], for the reaction at position [i] *)
Definition at_reaction (f : Reaction -> result Reaction) (m : Model) (i : nat)
    : result Model :=
  match reactions m !! i with
  | None => Ok m
  | Some rxn => rxn ← f rxn; Ok (with_reactions m (<[i := rxn]> (reactions m)))
  end.

(** [model.remove_metabolites(l, destructive=True)] with
    [l = [x for x in model.metabolites if sel x]]: every reaction that holds a
    removed metabolite leaves the model too. *)
Definition remove_metabolites (m : Model) (sel : Metabolite -> bool) : Model :=
  let gone := met_id <$> List.filter sel (metabolites m) in
  mk_Model
    (List.filter
       (fun r => negb (existsb (fun e => existsb (String.eqb e.1) gone) (rxn_metabolites r)))
       (reactions m))
    (List.filter (fun x => negb (sel x)) (metabolites m)).

End Cobra.

(** ** [community_gem_builder.py] *)

Import Cobra.

Definition EXCHANGE_BOUNDS : float * float := ((-1000)%float, 10000%float).
Definition TRANSPORT_BOUNDS : float * float := (0%float, 10000%float).
Definition ABUNDANCE_THRESHOLD : float := 1e-7%float.

(** A reaction object that [add_reactions] left out of the model has no model;
    assigning its equation then fails on [model.metabolites]. *)
Definition detached : exn :=
  AttributeError "'NoneType' object has no attribute 'metabolites'".

Definition create_rxn (rxn_identifier name subsystem : string) (bounds : float * float)
    : result Reaction :=
  let rxn := with_name (new_reaction rxn_identifier) name subsystem in
  rxn ← set_lower_bound rxn bounds.1;
  set_upper_bound rxn bounds.2.

Definition _add_exchange_reaction (base_name : string) (existing_met_ids : gset string)
    (model : Model) (bounds : float * float) (compartment label : string) : result Model :=
  let met_id := base_name ++ "[" ++ compartment ++ "]" in
  if bool_decide (met_id ∈ existing_met_ids) then Ok model
  else
    let reac_id := "EX_" ++ met_id in
    reaction ← create_rxn reac_id (met_id ++ " " ++ label ++ " exchange") " " bounds;
    let model := add_reactions model reaction in
    let model := add_metabolites model [mk_Metabolite met_id (Some compartment) "" ""] in
    met ← get_metabolite model met_id;
    reaction_add_metabolites model reac_id [(ByObject met, (-1)%float)].

Definition _add_transport_reaction (rxn_id : string) (existing_rxn_ids : gset string)
    (model : Model) (reactant_id product_id : string) (bounds : float * float)
    (label : string) : result Model :=
  if bool_decide (rxn_id ∈ existing_rxn_ids) then Ok model
  else
    reaction ← create_rxn rxn_id (rxn_id ++ " " ++ label ++ " transport") " " bounds;
    if has_reaction model rxn_id then Raise detached
    else
      let model := add_reactions model reaction in
      model ← build_reaction_from_string model rxn_id reactant_id Forward product_id;
      update_reaction model rxn_id (fun r => set_bounds r bounds).

(** The general lumen metabolites: reactants of the [IEX] reactions whose id
    holds [[u]] *)
Definition general_mets (model : Model) : gset string :=
  list_to_set
    (flat_map
       (fun reac =>
          if Str.contains (rxn_id reac) "IEX"
          then List.filter (fun id => Str.contains id "[u]") (reactants reac)
          else [])
       (reactions model)).

Definition diet_fecal_step (existing_mets existing_rxns : gset string)
    (model : Model) (lumen_met : string) : result Model :=
  let base_name := Str.split_head lumen_met "[" in
  model ← _add_exchange_reaction base_name existing_mets model EXCHANGE_BOUNDS "d" "diet";
  model ← _add_transport_reaction ("DUt_" ++ base_name) existing_rxns model
             (base_name ++ "[d]") lumen_met TRANSPORT_BOUNDS "diet to lumen";
  model ← _add_exchange_reaction base_name existing_mets model EXCHANGE_BOUNDS "fe" "fecal";
  _add_transport_reaction ("UFEt_" ++ base_name) existing_rxns model
    lumen_met (base_name ++ "[fe]") TRANSPORT_BOUNDS "lumen to fecal".

Definition exchange_artifact (r : Reaction) : bool :=
  Str.contains (rxn_id r) "_EX_" || Str.contains (rxn_id r) "(e)".

Definition add_diet_fecal_compartments (model : Model) : result Model :=
  let model := remove_reactions model exchange_artifact in
  let general_mets := general_mets model in
  let existing_mets : gset string := list_to_set (met_id <$> metabolites model) in
  let existing_rxns : gset string := list_to_set (rxn_id <$> reactions model) in
  foldlM (diet_fecal_step existing_mets existing_rxns) model (elements general_mets).

(** One row of the abundance table read for a sample: the organism (column
    [X]) and its abundance in the sample's column. *)
Definition abundance_row : Type := string * float.

Definition biomass_term (model : Model) (d : stoichiometry) (row : abundance_row)
    : stoichiometry :=
  let microbe_name := row.1 in
  let abundance := row.2 in
  let biomass_met_id := microbe_name ++ "_biomass[c]" in
  if has_metabolite model biomass_met_id
  then stoich_set d biomass_met_id (PrimFloat.opp abundance)
  else d.

Definition com_biomass (model : Model) (abun : list abundance_row) : result Model :=
  let model := remove_reactions model (fun r => Str.contains (rxn_id r) "Biomass") in
  let abun_df := List.filter (fun row => PrimFloat.ltb ABUNDANCE_THRESHOLD row.2) abun in
  reaction ← create_rxn "communityBiomass" "communityBiomass" " " (0%float, 10000%float);
  let model := add_reactions model reaction in
  let biomass_stoichiometry := foldl (biomass_term model) [] abun_df in
  model ← reaction_add_metabolites model "communityBiomass"
             ((fun e => (ById e.1, e.2)) <$> biomass_stoichiometry);
  let model := add_metabolites model
                 [mk_Metabolite "microbeBiomass[u]" (Some "u") "product of community biomass" " "] in
  met ← get_metabolite model "microbeBiomass[u]";
  model ← reaction_add_metabolites model "communityBiomass" [(ByObject met, 1%float)];
  let reac_name := "EX_microbeBiomass[fe]" in
  reaction ← create_rxn reac_name reac_name " " ((-10000)%float, 10000%float);
  let model := add_reactions model reaction in
  let model := add_metabolites model
                 [mk_Metabolite "microbeBiomass[fe]" (Some "fe") "product of community biomass" " "] in
  met ← get_metabolite model "microbeBiomass[fe]";
  model ← reaction_add_metabolites model "EX_microbeBiomass[fe]" [(ByObject met, (-1)%float)];
  reaction ← create_rxn "UFEt_microbeBiomass" "UFEt_microbeBiomass" " " TRANSPORT_BOUNDS;
  if has_reaction model "UFEt_microbeBiomass" then Raise detached
  else
    let model := add_reactions model reaction in
    model ← build_reaction_from_string model "UFEt_microbeBiomass"
               "microbeBiomass[u]" Forward "microbeBiomass[fe]";
    update_reaction model "UFEt_microbeBiomass" (fun r => set_bounds r TRANSPORT_BOUNDS).

(** [os.path.basename(p)]: what follows the last [/] *)
Fixpoint basename (p : string) : string :=
  match p with
  | EmptyString => EmptyString
  | String c p' => if Str.contains p' "/" then basename p'
                   else if Ascii.eqb c "/" then p' else p
  end.

(** [os.path.splitext(p)[0]] for a name without [/]: the name up to its last
    dot, when some character before that dot is not a dot. *)
Fixpoint splitext_root (seen : bool) (p : string) : string :=
  match p with
  | EmptyString => EmptyString
  | String c p' =>
      if Ascii.eqb c "." && seen && negb (Str.contains p' ".") then EmptyString
      else String c (splitext_root (seen || negb (Ascii.eqb c ".")) p')
  end.

Definition short_name (microbe_model_name : string) : string :=
  splitext_root false (basename microbe_model_name).

Definition tag_metabolite (model : Model) (met : string) (microbe_name compartment : string)
    : result Model :=
  let no_c_name := Str.replace met ("[" ++ compartment ++ "]") "" in
  rename_metabolite model met
    (microbe_name ++ "_" ++ no_c_name ++ "[" ++ compartment ++ "]") compartment.

(** The body of [for met in rxn.metabolites] *)
Definition tag_reaction_metabolite (short_microbe_name : string) (model : Model)
    (met : string) : result Model :=
  if (Str.contains met "[c]" || Str.contains met "[p]")
     && negb (Str.contains met short_microbe_name)
  then
    let compartment := if Str.contains met "[c]" then "c" else "p" in
    tag_metabolite model met short_microbe_name compartment
  else if Str.contains met "[e]" && negb (Str.contains met short_microbe_name)
  then
    let no_c_name := Str.replace met "[e]" "" in
    rename_metabolite model met (short_microbe_name ++ "_" ++ no_c_name ++ "[u]") "u"
  else Ok model.

(** The body of [for rxn in model.reactions] in step 2, for the reaction at
    position [i] *)
Definition tag_reaction (short_microbe_name : string) (model : Model) (i : nat)
    : result Model :=
  match reactions model !! i with
  | None => Ok model
  | Some rxn =>
      if reaction_mentions rxn "[e]" || reaction_mentions rxn "[c]"
      then
        model ← set_reaction_id model i (short_microbe_name ++ "_" ++ rxn_id rxn);
        foldlM (tag_reaction_metabolite short_microbe_name) model (rxn_metabolites rxn).*1
      else Ok model
  end.

Definition iex_step (microbe_name : string) (model : Model) (microbe_met : string)
    : result Model :=
  let general_met_id := Str.replace microbe_met (microbe_name ++ "_") "" in
  let model :=
    if has_metabolite model general_met_id then model
    else add_metabolites model
           [mk_Metabolite general_met_id (Some "u") (Str.split_head general_met_id "[") ""] in
  let iex_rxn_id := microbe_name ++ "_IEX_" ++ general_met_id ++ "tr" in
  iex_rxn ← create_rxn iex_rxn_id (microbe_name ++ "_IEX") " " ((-1000)%float, 1000%float);
  if has_reaction model iex_rxn_id then Raise detached
  else
    let model := add_reactions model iex_rxn in
    model ← build_reaction_from_string model iex_rxn_id general_met_id Reversible microbe_met;
    update_reaction model iex_rxn_id (fun r => set_bounds r ((-1000)%float, 1000%float)).

Definition _create_inter_microbe_exchange (model : Model) (microbe_name : string)
    : result Model :=
  let microbe_lumen_metabolites :=
    List.filter (fun id => Str.contains id "[u]" && Str.contains id microbe_name)
      (met_id <$> metabolites model) in
  foldlM (iex_step microbe_name) model microbe_lumen_metabolites.

Definition finalize_reaction (microbe_name : string) (model : Model) (i : nat)
    : result Model :=
  match reactions model !! i with
  | None => Ok model
  | Some rxn =>
      if Str.startswith (rxn_id rxn) microbe_name then Ok model
      else set_reaction_id model i (microbe_name ++ "_" ++ rxn_id rxn)
  end.

Definition finalize_metabolite (microbe_name : string) (model : Model) (met : string)
    : result Model :=
  if (Str.contains met "[c]" || Str.contains met "[p]")
     && negb (Str.contains met microbe_name)
  then
    let compartment := if Str.contains met "[c]" then "c" else "p" in
    tag_metabolite model met microbe_name compartment
  else Ok model.

Definition _finalize_microbe_tagging (model : Model) (microbe_name : string)
    : result Model :=
  model ← foldlM (finalize_reaction microbe_name) model (seq 0 (length (reactions model)));
  foldlM (finalize_metabolite microbe_name) model (met_id <$> metabolites model).

Definition reformat_gem_for_community (model : Model) (microbe_model_name : string)
    : result Model :=
  let short_microbe_name := short_name microbe_model_name in
  let model := remove_reactions model
                 (fun rxn => Str.contains (rxn_id rxn) "EX_"
                             && negb (Str.contains (rxn_id rxn) "biomass")) in
  model ← foldlM (tag_reaction short_microbe_name) model (seq 0 (length (reactions model)));
  model ← _create_inter_microbe_exchange model short_microbe_name;
  _finalize_microbe_tagging model short_microbe_name.

Definition prune_zero_abundance_microbe (model : Model) (zero_abundance_microbe : list string)
    : Model :=
  remove_metabolites model
    (fun met => existsb (fun microbe => Str.startswith (met_id met) (microbe ++ "_"))
                  zero_abundance_microbe).

(** [build_sample_gem], from the copy of the global model to the model that is
    saved. [abundance] is the sample's column of the table, one row per
    organism; looking up a label that occurs twice yields a series, whose truth
    value raises. The pruning of the coupling system receives
    [present_microbe]. *)
Definition zero_microbe (abundance : list abundance_row) : list string :=
  (List.filter (fun row => PrimFloat.ltb row.2 1e-7%float) abundance).*1.

Definition present_microbe (abundance : list abundance_row) : list string :=
  (List.filter (fun row => PrimFloat.leb 1e-7%float row.2) abundance).*1.

Definition close_transport (reac : Reaction) : result Reaction :=
  if Str.contains (rxn_id reac) "DUt" || Str.contains (rxn_id reac) "UFEt"
  then set_lower_bound reac 0%float
  else Ok reac.

Definition build_sample_gem (global_model : Model) (abundance : list abundance_row)
    : result Model :=
  if bool_decide (NoDup abundance.*1) then
    let model := prune_zero_abundance_microbe global_model (zero_microbe abundance) in
    model ← com_biomass model abundance;
    foldlM (at_reaction close_transport) model (seq 0 (length (reactions model)))
  else Raise (ValueError "The truth value of a Series is ambiguous").

(** ** [simulation.py] *)

(** *** Flux aggregation ([_analyze_metabolite_fluxes], after the two FVA runs) *)

(** [d.get(k, 0)]: the integer default [0] meets floats only through [+] and
    [abs], where Python converts it to [0.0]. *)
Definition dict_get (d : gmap string float) (k : string) : float :=
  default 0%float (d !! k).

Record raw_fva : Type := mk_raw_fva
  { raw_min_flux_diet : float;
    raw_max_flux_diet : float;
    raw_min_flux_fecal : float;
    raw_max_flux_fecal : float }.

Record net_fluxes : Type := mk_net_fluxes
  { net_production_samp : gmap string float;
    net_uptake_samp : gmap string float;
    min_net_fecal_excretion : gmap string float;
    raw_fva_results : gmap string raw_fva }.

Definition tol : float := 1e-07%float.

Definition diet_var_of (rxn : string) : string :=
  Str.replace (Str.replace rxn "EX_" "Diet_EX_") "[fe]" "[d]".

Section Aggregation.

Variables min_flux_fecal max_flux_fecal min_flux_diet max_flux_diet : gmap string float.

  (** One iteration of [for rxn in exchanges]. The statement guarded by the
      tolerance test is the comparison [max_flux_fecal.get(fecal_var, 0) == 0];
      its value is discarded. *)
Definition flux_step (acc : net_fluxes) (rxn : string) : net_fluxes :=
    let fecal_var := rxn in
    let diet_var := diet_var_of rxn in
    let _ := if PrimFloat.ltb (PrimFloat.abs (dict_get max_flux_fecal fecal_var)) tol
             then Some (PrimFloat.eqb (dict_get max_flux_fecal fecal_var) 0%float)
             else None in
    let prod := PrimFloat.abs (PrimFloat.add (dict_get min_flux_diet diet_var)
                                            (dict_get max_flux_fecal fecal_var)) in
    let uptk := PrimFloat.abs (PrimFloat.add (dict_get max_flux_diet diet_var)
                                            (dict_get min_flux_fecal fecal_var)) in
    let min_net_fe_ex := PrimFloat.add (dict_get min_flux_fecal fecal_var)
                                       (dict_get min_flux_diet diet_var) in
    {| net_production_samp := <[rxn := prod]> (net_production_samp acc);
       net_uptake_samp := <[rxn := uptk]> (net_uptake_samp acc);
       min_net_fecal_excretion := <[rxn := min_net_fe_ex]> (min_net_fecal_excretion acc);
       raw_fva_results :=
         <[rxn := {| raw_min_flux_diet := dict_get min_flux_diet diet_var;
                     raw_max_flux_diet := dict_get max_flux_diet diet_var;
                     raw_min_flux_fecal := dict_get min_flux_fecal fecal_var;
                     raw_max_flux_fecal := dict_get max_flux_fecal fecal_var |}]>
           (raw_fva_results acc) |}.

  (** [fecal_rxns] are the ids of [model.exchanges]; [exchanges] is the
      universe handed down by [simulate_microbiota_models]. *)
Definition aggregate_net_fluxes (fecal_rxns exchanges : list string) : net_fluxes :=
    let exchanges : gset string := list_to_set fecal_rxns ∩ list_to_set exchanges in
    foldl flux_step (mk_net_fluxes ∅ ∅ ∅ ∅) (elements exchanges).

End Aggregation.

(** [exchanges] of [simulate_microbiota_models] *)
Definition exchange_universe (ex_mets : list string) : list string :=
  (fun m => "EX_" ++ Str.replace m "[e]" "[fe]") <$>
    filter (fun m => m ≠ "biomass[e]") ex_mets.


(** *** Diet adaptation *)

(** A row of the diet table; a missing upper bound is a NaN cell. *)
Record diet_row : Type := mk_diet_row
  { row_rxn_id : string;
    row_lower_bound : float;
    row_upper_bound : float }.

Definition rename_diet_exchange (model : Model) (rxn_id : string) : result Model :=
  let new_id := Str.replace rxn_id "EX_" "Diet_EX_" in
  if has_reaction model new_id then Ok model
  else match index_of (reactions model) rxn_id with
       | Some i => set_reaction_id model i new_id
       | None => Raise (KeyError rxn_id)
       end.

Definition close_diet_exchange (rxn : Reaction) : result Reaction :=
  if Str.startswith (rxn_id rxn) "Diet_EX_"
  then set_lower_bound rxn 0%float
  else Ok rxn.

Definition apply_diet_row (model : Model) (row : diet_row) : result Model :=
  let rxn := row_rxn_id row in
  if has_reaction model rxn
  then
    model ← update_reaction model rxn (fun r => set_lower_bound r (row_lower_bound row));
    if negb (PrimFloat.is_nan (row_upper_bound row))
    then update_reaction model rxn (fun r => set_upper_bound r (row_upper_bound row))
    else Ok model
  else Ok model.

Definition _apply_dietary_constraints (model : Model) (diet_constraints : list diet_row)
    : result Model :=
  let diet_rxns :=
    List.filter (fun id => Str.contains id "[d]" && Str.startswith id "EX_")
      (rxn_id <$> reactions model) in
  model ← foldlM rename_diet_exchange model diet_rxns;
  model ← foldlM (at_reaction close_diet_exchange) model (seq 0 (length (reactions model)));
  foldlM apply_diet_row model diet_constraints.

(** *** Physiological bounds *)

Definition HUMAN_METS : list (string * float) :=
  [ ("gchola", (-10)%float); ("tdchola", (-10)%float); ("tchola", (-10)%float);
    ("dgchol", (-10)%float); ("34dhphe", (-10)%float); ("5htrp", (-10)%float);
    ("Lkynr", (-10)%float); ("f1a", (-1)%float); ("gncore1", (-1)%float);
    ("gncore2", (-1)%float); ("dsT_antigen", (-1)%float); ("sTn_antigen", (-1)%float);
    ("core8", (-1)%float); ("core7", (-1)%float); ("core5", (-1)%float);
    ("core4", (-1)%float); ("ha", (-1)%float); ("cspg_a", (-1)%float);
    ("cspg_b", (-1)%float); ("cspg_c", (-1)%float); ("cspg_d", (-1)%float);
    ("cspg_e", (-1)%float); ("hspg", (-1)%float) ].

Definition open_transport (rxn : Reaction) : result Reaction :=
  if Str.startswith (rxn_id rxn) "UFEt_" || Str.startswith (rxn_id rxn) "DUt_"
     || Str.startswith (rxn_id rxn) "EX_"
  then set_upper_bound rxn 1e6%float
  else Ok rxn.

Definition host_supply (diet_constraints : list diet_row) (model : Model)
    (e : string * float) : result Model :=
  let rxn_id := "Diet_EX_" ++ e.1 ++ "[d]" in
  if negb (existsb (fun row => String.eqb (row_rxn_id row) rxn_id) diet_constraints)
     && has_reaction model rxn_id
  then update_reaction model rxn_id (fun r => set_bounds r (e.2, 10000%float))
  else Ok model.

Definition demand_sink (rxn : Reaction) : result Reaction :=
  if Str.contains (rxn_id rxn) "_DM_" then set_lower_bound rxn 0%float
  else if Str.contains (rxn_id rxn) "_sink_" then set_lower_bound rxn (-1)%float
  else Ok rxn.

Definition _configure_physiological_bounds (model : Model) (biomass_bounds : float * float)
    (humanMets : list (string * float)) (diet_constraints : list diet_row) : result Model :=
  model ← (if has_reaction model "communityBiomass"
           then update_reaction model "communityBiomass" (fun r => set_bounds r biomass_bounds)
           else Ok model);
  model ← foldlM (at_reaction open_transport) model (seq 0 (length (reactions model)));
  model ← foldlM (host_supply diet_constraints) model humanMets;
  foldlM (at_reaction demand_sink) model (seq 0 (length (reactions model))).

(** *** Tuples: a returned tuple is the list of its components *)

Inductive pyobj : Type :=
  | PyStr (s : string)
  | PyFluxes (d : gmap string float)
  | PyRawFva (d : gmap string raw_fva).

Definition unpack2 (t : list pyobj) : result (pyobj * pyobj) :=
  match t with
  | [a; b] => Ok (a, b)
  | _ :: _ :: _ :: _ => Raise (ValueError "too many values to unpack (expected 2)")
  | _ => Raise (ValueError "not enough values to unpack (expected 2)")
  end.

Definition unpack5 (t : list pyobj) : result (pyobj * pyobj * pyobj * pyobj * pyobj) :=
  match t with
  | [a; b; c; d; e] => Ok (a, b, c, d, e)
  | _ :: _ :: _ :: _ :: _ :: _ :: _ => Raise (ValueError "too many values to unpack (expected 5)")
  | _ => Raise (ValueError "not enough values to unpack (expected 5)")
  end.

(** [os.path.join(a, b)] *)
Definition path_join (a b : string) : string :=
  if Str.startswith b "/" then b
  else if String.eqb a "" || Str.contains (String.substring (String.length a - 1) 1 a) "/"
  then a ++ b else a ++ "/" ++ b.

Section Simulation.

  (** The collaborators: the model files, the solver, the coupling
      constraints and cobra's classification of exchange reactions. *)
Variable load_matlab_model : string -> result Model.
Variable optimize_and_save : Model -> string -> result unit.
Variable apply_couple_constraints : Model -> string -> result Model.
Variable model_exchanges : Model -> list string.
  (** [(minimum, maximum)] of an FVA at [fraction_of_optimum = 0.9999] *)
Variable flux_variability_analysis :
    Model -> list string -> result (gmap string float * gmap string float).

Definition _optimize_and_save_model (model : Model) (sample_name results_path : string)
      : result string :=
    let diet_model_dir := path_join results_path "Diet" in
    let save_path :=
      path_join diet_model_dir ("microbiota_model_diet_" ++ sample_name ++ ".mat") in
    _ ← optimize_and_save model save_path;
    Ok save_path.

Definition _analyze_metabolite_fluxes (model : Model) (exchanges : list string)
      (sample_name diet_model_path : string) : result (list pyobj) :=
    model ← apply_couple_constraints model diet_model_path;
    fecal_result ← flux_variability_analysis model (model_exchanges model);
    diet_result ← flux_variability_analysis model
                    (List.filter (fun id => Str.contains id "Diet_EX_")
                       (rxn_id <$> reactions model));
    let r := aggregate_net_fluxes fecal_result.1 fecal_result.2 diet_result.1 diet_result.2
               (model_exchanges model) exchanges in
    Ok [ PyFluxes (net_production_samp r); PyFluxes (net_uptake_samp r);
         PyFluxes (min_net_fecal_excretion r); PyRawFva (raw_fva_results r) ].

  (** The [except] clause prints and raises the exception again. *)
Definition simulate_single_sample (sample_name : string) (ex_mets : list string)
      (model_dir : string) (diet_constraints : list diet_row) (res_path : string)
      (biomass_bounds : float * float) (humanMets : list (string * float))
      : result (list pyobj) :=
    let model_path := path_join model_dir ("microbiota_model_samp_" ++ sample_name ++ ".mat") in
    model ← load_matlab_model model_path;
    model ← _apply_dietary_constraints model diet_constraints;
    model ← _configure_physiological_bounds model biomass_bounds humanMets diet_constraints;
    diet_model_path ← _optimize_and_save_model model sample_name res_path;
    t ← _analyze_metabolite_fluxes model ex_mets sample_name diet_model_path;
    p ← unpack2 t;
    Ok [PyStr sample_name; p.1; p.2].

  (** The locals of the collecting loop of [simulate_microbiota_models];
      [sample_name] is unbound until a first result has been unpacked. *)
Record collected : Type := mk_collected
    { sample_name : option pyobj;
      net_production : gmap string pyobj;
      net_uptake : gmap string pyobj;
      all_min_net_fecal_excretion : gmap string pyobj;
      all_raw_fva_results : gmap string pyobj }.

  (** The [try] block for one completed future *)
Definition store_result (st : collected) (outcome : result (list pyobj))
      : collected * result unit :=
    match outcome ≫= unpack5 with
    | Raise e => (st, Raise e)
    | Ok (name, net_production_samp, net_uptake_samp, min_net_fe_ex, raw_fva) =>
        match name with
        | PyStr s =>
            (mk_collected (Some name)
               (<[s := net_production_samp]> (net_production st))
               (<[s := net_uptake_samp]> (net_uptake st))
               (<[s := min_net_fe_ex]> (all_min_net_fecal_excretion st))
               (<[s := raw_fva]> (all_raw_fva_results st)), Ok tt)
        | _ =>
            (mk_collected (Some name) (net_production st) (net_uptake st)
               (all_min_net_fecal_excretion st) (all_raw_fva_results st),
             Raise (OtherError "TypeError: unhashable type: 'dict'"))
        end
    end.

  (** One iteration: the handler formats its message with [sample_name]. *)
Definition collect_step (st : collected) (outcome : result (list pyobj))
      : result collected :=
    match store_result st outcome with
    | (st, Ok _) => Ok st
    | (st, Raise _) =>
        match sample_name st with
        | Some _ => Ok st
        | None => Raise (UnboundLocalError "sample_name")
        end
    end.

  (** [completed] lists the samples in the order in which their tasks
      complete. *)
Definition simulate_microbiota_models (completed : list string) (ex_mets : list string)
      (model_dir : string) (diet_constraints : list diet_row) (res_path : string)
      (biomass_bounds : float * float) : result (list string * collected) :=
    let exchanges := exchange_universe ex_mets in
    let futures :=
      (fun samp => simulate_single_sample samp exchanges model_dir diet_constraints
                     res_path biomass_bounds HUMAN_METS) <$> completed in
    st ← foldlM collect_step (mk_collected None ∅ ∅ ∅ ∅) futures;
    Ok (exchanges, st).

End Simulation.

(** ** Vocabulary of the statements *)

(** No reaction of [rs] has the id [id]. *)
Definition fresh (id : string) (rs : list Reaction) : Prop :=
  Forall (fun r => rxn_id r ≠ id) rs.

(** The ids of the four reactions that [add_diet_fecal_compartments] makes
    for a base name *)
Definition diet_fecal_ids (base_name : string) : list string :=
  ["EX_" ++ base_name ++ "[d]"; "DUt_" ++ base_name;
   "EX_" ++ base_name ++ "[fe]"; "UFEt_" ++ base_name].

(** A metabolite id is settled for an organism when the tagging guards skip
    it: it mentions none of [[c]], [[p]], [[e]], or it contains the organism
    name.  A network is tagged when every metabolite id, in the model or in a
    reaction, is settled. *)
Definition settled (name id : string) : Prop :=
  (Str.contains id "[c]" || Str.contains id "[p]" || Str.contains id "[e]")
  && negb (Str.contains id name) = false.

Definition tagged (name : string) (m : Model) : Prop :=
  Forall (fun x => settled name (met_id x)) (metabolites m)
  ∧ Forall (fun r => Forall (fun e => settled name e.1) (rxn_metabolites r)) (reactions m).

(** Every metabolite that a reaction of the model mentions is a metabolite of
    the model. *)
Definition closed (m : Model) : Prop :=
  ∀ r e, r ∈ reactions m -> e ∈ rxn_metabolites r -> e.1 ∈ met_id <$> metabolites m.

(** The lower bound of a reaction is not above its upper bound. *)
Definition ordered (r : Reaction) : Prop :=
  PrimFloat.ltb (upper_bound r) (lower_bound r) = false.

(** What the loop over the host metabolites does to a reaction *)
Definition supplied (diet_constraints : list diet_row) (humanMets : list (string * float))
    (x x' : Reaction) : Prop :=
  x' = x
  ∨ ∃ e, e ∈ humanMets ∧ rxn_id x = "Diet_EX_" ++ e.1 ++ "[d]"
         ∧ existsb (fun row => String.eqb (row_rxn_id row) (rxn_id x)) diet_constraints = false
         ∧ x' = with_bounds x e.2 10000%float.

(** * Properties *)

(** ** Flux aggregation *)

Section AggregationFacts.

Variables min_flux_fecal max_flux_fecal min_flux_diet max_flux_diet : gmap string float.

Let step := flux_step min_flux_fecal max_flux_fecal min_flux_diet max_flux_diet.

Lemma fold_production (l : list string) (acc : net_fluxes) (k : string) :
  net_production_samp (foldl step acc l) !! k =
    if bool_decide (k ∈ l)
    then Some (PrimFloat.abs (PrimFloat.add (dict_get min_flux_diet (diet_var_of k))
                                            (dict_get max_flux_fecal k)))
    else net_production_samp acc !! k.
Proof.
  revert acc. induction l as [|x l IH]; intros acc.
  - case_bool_decide as Hin; [by apply elem_of_nil in Hin | done].
  - cbn [foldl]. rewrite IH. subst step. unfold flux_step. cbn.
    destruct (bool_decide_reflect (k ∈ l)) as [Hl|Hl];
      destruct (bool_decide_reflect (k ∈ x :: l)) as [Hxl|Hxl]; try done.
    + exfalso. set_solver.
    + apply elem_of_cons in Hxl as [->|Hxl]; [| done]. by rewrite lookup_insert_eq.
    + rewrite lookup_insert_ne; [done | set_solver].
Qed.

Lemma fold_uptake (l : list string) (acc : net_fluxes) (k : string) :
  net_uptake_samp (foldl step acc l) !! k =
    if bool_decide (k ∈ l)
    then Some (PrimFloat.abs (PrimFloat.add (dict_get max_flux_diet (diet_var_of k))
                                            (dict_get min_flux_fecal k)))
    else net_uptake_samp acc !! k.
Proof.
  revert acc. induction l as [|x l IH]; intros acc.
  - case_bool_decide as Hin; [by apply elem_of_nil in Hin | done].
  - cbn [foldl]. rewrite IH. subst step. unfold flux_step. cbn.
    destruct (bool_decide_reflect (k ∈ l)) as [Hl|Hl];
      destruct (bool_decide_reflect (k ∈ x :: l)) as [Hxl|Hxl]; try done.
    + exfalso. set_solver.
    + apply elem_of_cons in Hxl as [->|Hxl]; [| done]. by rewrite lookup_insert_eq.
    + rewrite lookup_insert_ne; [done | set_solver].
Qed.

End AggregationFacts.

Lemma universe_elements (fecal_rxns exchanges : list string) (k : string) :
  k ∈ elements (list_to_set fecal_rxns ∩ list_to_set exchanges : gset string)
  ↔ k ∈ fecal_rxns ∧ k ∈ exchanges.
Proof. rewrite elem_of_elements. set_solver. Qed.

(** C1. For every exchanged metabolite of the aggregation universe (the
    exchange ids of the sample that are also in the global list), the net
    production is [|min_flux_diet[diet_var] + max_flux_fecal[fecal_var]|] and
    the net uptake is [|max_flux_diet[diet_var] + min_flux_fecal[fecal_var]|],
    with [diet_var] obtained from [fecal_var] by the two replacements and a
    missing entry read as 0; ids outside the universe get no entry. *)
Theorem net_flux_formula
    (min_flux_fecal max_flux_fecal min_flux_diet max_flux_diet : gmap string float)
    (fecal_rxns exchanges : list string) (fecal_var : string) :
  let r := aggregate_net_fluxes min_flux_fecal max_flux_fecal min_flux_diet max_flux_diet
             fecal_rxns exchanges in
  let diet_var := Str.replace (Str.replace fecal_var "EX_" "Diet_EX_") "[fe]" "[d]" in
  let in_universe := bool_decide (fecal_var ∈ fecal_rxns ∧ fecal_var ∈ exchanges) in
  net_production_samp r !! fecal_var =
    (if in_universe
     then Some (PrimFloat.abs (PrimFloat.add (default 0%float (min_flux_diet !! diet_var))
                                            (default 0%float (max_flux_fecal !! fecal_var))))
     else None)
  ∧ net_uptake_samp r !! fecal_var =
    (if in_universe
     then Some (PrimFloat.abs (PrimFloat.add (default 0%float (max_flux_diet !! diet_var))
                                            (default 0%float (min_flux_fecal !! fecal_var))))
     else None).
Proof.
  intros r diet_var in_universe. subst r. unfold aggregate_net_fluxes.
  rewrite fold_production, fold_uptake. simpl.
  assert (bool_decide
            (fecal_var ∈ elements (list_to_set fecal_rxns ∩ list_to_set exchanges : gset string))
          = in_universe) as ->.
  { apply bool_decide_ext, universe_elements. }
  destruct in_universe; split; reflexivity.
Qed.

(** C7 (evaluation). A maximal fecal flux of [1e-9], below the tolerance,
    reaches the aggregation unchanged: the guarded statement compares and
    assigns nothing. *)
Theorem flux_noise_not_floored :
  let r := aggregate_net_fluxes ∅ {["EX_ac[fe]" := 1e-9%float]} ∅ ∅
             ["EX_ac[fe]"] ["EX_ac[fe]"] in
  PrimFloat.ltb (PrimFloat.abs 1e-9%float) tol = true
  ∧ net_production_samp r !! "EX_ac[fe]" = Some 1e-9%float
  ∧ raw_max_flux_fecal <$> raw_fva_results r !! "EX_ac[fe]" = Some 1e-9%float.
Proof. vm_compute. done. Qed.

(** ** Python strings *)

Lemma str_app_nil (t : string) : "" ++ t = t.
Proof. reflexivity. Qed.

Lemma str_app_cons (a : ascii) (s t : string) : String a s ++ t = String a (s ++ t).
Proof. reflexivity. Qed.

Lemma prefix_nil (s : string) : String.prefix "" s = true.
Proof. by destruct s. Qed.

Lemma prefix_cons (a b : ascii) (p s : string) :
  String.prefix (String a p) (String b s) = (if ascii_dec a b then String.prefix p s else false).
Proof. reflexivity. Qed.

Lemma str_prefix_app (p t : string) : String.prefix p (p ++ t) = true.
Proof.
  induction p as [|a p IH]; [apply prefix_nil |].
  rewrite str_app_cons, prefix_cons. by destruct (ascii_dec a a).
Qed.

Lemma prefix_inv (p s : string) : String.prefix p s = true -> ∃ t, s = p ++ t.
Proof.
  revert s. induction p as [|a p IH]; intros s H.
  - by exists s.
  - destruct s as [|b s]; [done |]. rewrite prefix_cons in H.
    destruct (ascii_dec a b) as [->|]; [| done].
    destruct (IH _ H) as [t ->]. by exists t.
Qed.

Lemma replace_from_skip (p t old new : string) :
  Str.replace_from (String.length p) (p ++ t) old new = Str.replace_from 0 t old new.
Proof. induction p as [|a p IH]; [reflexivity | apply IH]. Qed.

Lemma replace_match (a : ascii) (old t new : string) :
  Str.replace (String a old ++ t) (String a old) new = new ++ Str.replace t (String a old) new.
Proof.
  unfold Str.replace. rewrite str_app_cons. cbn [Str.replace_from].
  rewrite <- str_app_cons, str_prefix_app.
  replace (String.length (String a old) - 1) with (String.length old) by (simpl; lia).
  by rewrite replace_from_skip.
Qed.

Lemma replace_other (c : ascii) (s old new : string) :
  String.prefix old (String c s) = false ->
  Str.replace (String c s) old new = String c (Str.replace s old new).
Proof. intros H. unfold Str.replace. cbn [Str.replace_from]. by rewrite H. Qed.

(** One step of [s.replace(old, new)] read backwards *)
Lemma replace_cases (s : string) (a : ascii) (old new : string) :
  (s = "" ∧ Str.replace s (String a old) new = "")
  ∨ (∃ t, s = String a old ++ t
          ∧ Str.replace s (String a old) new = new ++ Str.replace t (String a old) new)
  ∨ (∃ c t, s = String c t ∧ String.prefix (String a old) s = false
            ∧ Str.replace s (String a old) new = String c (Str.replace t (String a old) new)).
Proof.
  destruct s as [|c s]; [by left |]. right.
  destruct (String.prefix (String a old) (String c s)) eqn:Hp.
  - left. apply prefix_inv in Hp as [t Ht]. exists t. split; [done |].
    rewrite Ht. apply replace_match.
  - right. exists c, s. split_and!; [done | done | by apply replace_other].
Qed.

Ltac replace_inv H :=
  match type of H with
  | Str.replace ?s (String ?a ?old) ?new = _ =>
      let t := fresh "t" in
      let c := fresh "c" in
      let Hs := fresh "Hs" in
      let Hr := fresh "Hr" in
      destruct (replace_cases s a old new)
        as [[Hs Hr] | [(t & Hs & Hr) | (c & t & Hs & _ & Hr)]];
      rewrite Hr in H; clear Hr; rewrite ?str_app_cons, ?str_app_nil in H; subst s;
      [ try discriminate H | try discriminate H | try discriminate H ]
  end.

Lemma replace_empty (s : string) (a b : ascii) (old new : string) :
  Str.replace s (String a old) (String b new) = "" -> s = "".
Proof. intros H. replace_inv H. reflexivity. Qed.

Lemma replace_fe_biomass (m : string) :
  Str.replace m "[e]" "[fe]" = "biomass[fe]" -> m = "biomass[e]" ∨ m = "biomass[fe]".
Proof.
  intros H.
  do 7 (replace_inv H; injection H as -> H).
  replace_inv H.
  - injection H as H. apply replace_empty in H as ->. by left.
  - injection H as -> H.
    do 3 (replace_inv H; injection H as -> H).
    apply replace_empty in H as ->. by right.
Qed.

Lemma exchange_universe_spec (ex_mets : list string) (k : string) :
  k ∈ exchange_universe ex_mets
  ↔ ∃ m, m ∈ ex_mets ∧ m ≠ "biomass[e]" ∧ k = "EX_" ++ Str.replace m "[e]" "[fe]".
Proof.
  unfold exchange_universe. rewrite list_elem_of_fmap. split.
  - intros (m & -> & [Hne Hin]%list_elem_of_filter). by exists m.
  - intros (m & Hin & Hne & ->). exists m. split; [done |].
    by apply list_elem_of_filter.
Qed.

(** C10 (as stated, refuted). The filter drops the one id [biomass[e]]: the
    community-biomass exchange of a sample is a key of the results as soon as
    the list holds [microbeBiomass[e]], and [EX_biomass[fe]] is a key when the
    list holds [biomass[fe]]. *)
Lemma biomass_exchange_can_be_a_key :
  net_production_samp
    (aggregate_net_fluxes ∅ ∅ ∅ ∅ ["EX_microbeBiomass[fe]"]
       (exchange_universe ["microbeBiomass[e]"])) !! "EX_microbeBiomass[fe]"
  = Some 0%float
  ∧ net_uptake_samp
      (aggregate_net_fluxes ∅ ∅ ∅ ∅ ["EX_biomass[fe]"]
         (exchange_universe ["biomass[fe]"])) !! "EX_biomass[fe]"
    = Some 0%float.
Proof. vm_compute. done. Qed.

(** C10 (amended). The universe is the image of the ids other than
    [biomass[e]] under [m ↦ "EX_" + m.replace("[e]", "[fe]")]; the keys of
    the net-production and net-uptake results are the exchange ids of the
    sample that lie in it; and [EX_biomass[fe]] is a key only if the input
    list holds the id [biomass[fe]] itself. *)
Theorem exchange_universe_keys
    (min_flux_fecal max_flux_fecal min_flux_diet max_flux_diet : gmap string float)
    (fecal_rxns ex_mets : list string) (k : string) :
  let r := aggregate_net_fluxes min_flux_fecal max_flux_fecal min_flux_diet max_flux_diet
             fecal_rxns (exchange_universe ex_mets) in
  let in_universe :=
    k ∈ fecal_rxns
    ∧ ∃ m, m ∈ ex_mets ∧ m ≠ "biomass[e]" ∧ k = "EX_" ++ Str.replace m "[e]" "[fe]" in
  (is_Some (net_production_samp r !! k) ↔ in_universe)
  ∧ (is_Some (net_uptake_samp r !! k) ↔ in_universe)
  ∧ (is_Some (net_production_samp r !! "EX_biomass[fe]")
     ∨ is_Some (net_uptake_samp r !! "EX_biomass[fe]") -> "biomass[fe]" ∈ ex_mets).
Proof.
  intros r in_universe. subst r in_universe. unfold aggregate_net_fluxes.
  assert (Hkeys : ∀ k',
    k' ∈ elements (list_to_set fecal_rxns ∩ list_to_set (exchange_universe ex_mets)
                     : gset string)
    ↔ k' ∈ fecal_rxns
      ∧ ∃ m, m ∈ ex_mets ∧ m ≠ "biomass[e]" ∧ k' = "EX_" ++ Str.replace m "[e]" "[fe]").
  { intros k'. by rewrite universe_elements, exchange_universe_spec. }
  assert (Hbio : "EX_biomass[fe]" ∈
                   elements (list_to_set fecal_rxns ∩ list_to_set (exchange_universe ex_mets)
                               : gset string)
                 -> "biomass[fe]" ∈ ex_mets).
  { intros (_ & m & Hin & Hne & Heq)%Hkeys. injection Heq as Heq.
    symmetry in Heq. apply replace_fe_biomass in Heq as [-> | ->]; done. }
  split_and!.
  - rewrite fold_production, <- Hkeys. case_bool_decide; [by split | ].
    cbn [net_production_samp]. rewrite lookup_empty. split; [by intros [? ?] | done].
  - rewrite fold_uptake, <- Hkeys. case_bool_decide; [by split | ].
    cbn [net_uptake_samp]. rewrite lookup_empty. split; [by intros [? ?] | done].
  - rewrite fold_production, fold_uptake.
    case_bool_decide as Hin; [intros _; by apply Hbio |].
    cbn [net_production_samp net_uptake_samp]. rewrite !lookup_empty. intros [[? ?] | [? ?]]; done.
Qed.

(** ** The simulation phase *)

Lemma analyze_returns_four
    (apply_couple_constraints : Model -> string -> result Model)
    (model_exchanges : Model -> list string)
    (flux_variability_analysis :
       Model -> list string -> result (gmap string float * gmap string float))
    (model : Model) (exchanges : list string) (sample_name diet_model_path : string)
    (t : list pyobj) :
  _analyze_metabolite_fluxes apply_couple_constraints model_exchanges
    flux_variability_analysis model exchanges sample_name diet_model_path = Ok t ->
  length t = 4.
Proof.
  unfold _analyze_metabolite_fluxes.
  destruct (apply_couple_constraints model diet_model_path) as [model'|]; cbn; [| done].
  destruct (flux_variability_analysis model' (model_exchanges model')); cbn; [| done].
  destruct (flux_variability_analysis model' _); cbn; [| done].
  by intros [= <-].
Qed.

Lemma unpack2_four (t : list pyobj) :
  length t = 4 -> unpack2 t = Raise (ValueError "too many values to unpack (expected 2)").
Proof. by destruct t as [|a [|b [|c [|d [|? ?]]]]]. Qed.

(** Every run of [simulate_single_sample] ends in an exception: one of the
    steps raises, or the unpacking of the analysis does. *)
Lemma single_sample_outcome
    (load_matlab_model : string -> result Model)
    (optimize_and_save : Model -> string -> result unit)
    (apply_couple_constraints : Model -> string -> result Model)
    (model_exchanges : Model -> list string)
    (flux_variability_analysis :
       Model -> list string -> result (gmap string float * gmap string float))
    (sample_name : string) (ex_mets : list string) (model_dir : string)
    (diet_constraints : list diet_row) (res_path : string)
    (biomass_bounds : float * float) (humanMets : list (string * float)) :
  ∃ e, simulate_single_sample load_matlab_model optimize_and_save apply_couple_constraints
         model_exchanges flux_variability_analysis sample_name ex_mets model_dir
         diet_constraints res_path biomass_bounds humanMets = Raise e.
Proof.
  unfold simulate_single_sample.
  destruct (load_matlab_model _) as [model|]; cbn; [| by eexists].
  destruct (_apply_dietary_constraints model diet_constraints) as [model1|]; cbn;
    [| by eexists].
  destruct (_configure_physiological_bounds model1 _ _ _) as [model2|]; cbn; [| by eexists].
  destruct (_optimize_and_save_model _ _ _ _) as [path|]; cbn; [| by eexists].
  destruct (_analyze_metabolite_fluxes _ _ _ _ _ _ _) as [t|] eqn:Ht; cbn; [| by eexists].
  apply analyze_returns_four in Ht. rewrite (unpack2_four _ Ht). cbn. by eexists.
Qed.

(** C5 (evaluation). [simulate_single_sample] returns for no sample: when
    every step before it succeeds, the two-name unpacking of the four values
    that [_analyze_metabolite_fluxes] returns raises. *)
Theorem simulate_single_sample_raises
    (load_matlab_model : string -> result Model)
    (optimize_and_save : Model -> string -> result unit)
    (apply_couple_constraints : Model -> string -> result Model)
    (model_exchanges : Model -> list string)
    (flux_variability_analysis :
       Model -> list string -> result (gmap string float * gmap string float))
    (sample_name : string) (ex_mets : list string) (model_dir : string)
    (diet_constraints : list diet_row) (res_path : string)
    (biomass_bounds : float * float) (humanMets : list (string * float)) :
  ∃ e, simulate_single_sample load_matlab_model optimize_and_save apply_couple_constraints
         model_exchanges flux_variability_analysis sample_name ex_mets model_dir
         diet_constraints res_path biomass_bounds humanMets = Raise e.
Proof.
  apply single_sample_outcome.
Qed.

(** C9 (evaluation). When the task that completes first has raised, the
    handler of the collecting loop raises in its turn, on the unbound local
    [sample_name], and the phase ends there whatever the other samples did;
    with the arity slip of [simulate_single_sample] this is the outcome of
    every run over at least one sample. *)
Theorem first_failure_aborts_phase
    (load_matlab_model : string -> result Model)
    (optimize_and_save : Model -> string -> result unit)
    (apply_couple_constraints : Model -> string -> result Model)
    (model_exchanges : Model -> list string)
    (flux_variability_analysis :
       Model -> list string -> result (gmap string float * gmap string float))
    (e : exn) (others : list (result (list pyobj)))
    (samp : string) (completed ex_mets : list string) (model_dir : string)
    (diet_constraints : list diet_row) (res_path : string)
    (biomass_bounds : float * float) :
  foldlM collect_step (mk_collected None ∅ ∅ ∅ ∅) (Raise e :: others)
    = Raise (UnboundLocalError "sample_name")
  ∧ simulate_microbiota_models load_matlab_model optimize_and_save apply_couple_constraints
      model_exchanges flux_variability_analysis (samp :: completed) ex_mets model_dir
      diet_constraints res_path biomass_bounds
    = Raise (UnboundLocalError "sample_name").
Proof.
  split; [reflexivity |].
  unfold simulate_microbiota_models. cbn [fmap list_fmap].
  destruct (single_sample_outcome load_matlab_model optimize_and_save
              apply_couple_constraints model_exchanges flux_variability_analysis
              samp (exchange_universe ex_mets) model_dir diet_constraints res_path
              biomass_bounds HUMAN_METS) as [e' ->].
  reflexivity.
Qed.

(** ** Floats *)

Lemma above_threshold_nonzero (a : float) :
  PrimFloat.ltb ABUNDANCE_THRESHOLD a = true ->
  PrimFloat.eqb (PrimFloat.opp a) 0%float = false.
Proof.
  rewrite FloatAxioms.ltb_spec, FloatAxioms.eqb_spec, FloatAxioms.opp_spec.
  change (Prim2SF ABUNDANCE_THRESHOLD) with (S754_finite false 7555786372591432 (-76)).
  change (Prim2SF 0%float) with (S754_zero false).
  destruct (Prim2SF a) as [s | s | | s m e]; try done.
  - by destruct s.
  - by destruct s.
Qed.

Lemma SFltb_irrefl (x : SpecFloat.spec_float) : SpecFloat.SFltb x x = false.
Proof.
  unfold SpecFloat.SFltb, SpecFloat.SFcompare.
  destruct x as [s | s | | s m e]; try done; destruct s; try done;
    rewrite Z.compare_refl, Pos.compare_cont_refl; done.
Qed.

Lemma SFltb_trans (x y z : SpecFloat.spec_float) :
  SpecFloat.SFltb x y = true -> SpecFloat.SFltb y z = true -> SpecFloat.SFltb x z = true.
Proof.
  unfold SpecFloat.SFltb, SpecFloat.SFcompare.
  destruct x as [sx | sx | | sx mx ex], y as [sy | sy | | sy my ey],
    z as [sz | sz | | sz mz ez];
    try destruct sx; try destruct sy; try destruct sz; try done;
    rewrite !Pos.compare_cont_spec; cbn [Pos.switch_Eq];
    destruct (Z.compare_spec ex ey), (Z.compare_spec ey ez), (Z.compare_spec ex ez);
    try done; try lia; subst;
    destruct (Pos.compare_spec mx my), (Pos.compare_spec my mz), (Pos.compare_spec mx mz);
    cbn; try done; try lia.
Qed.

Lemma ltb_irrefl (x : float) : PrimFloat.ltb x x = false.
Proof. rewrite FloatAxioms.ltb_spec. apply SFltb_irrefl. Qed.

Lemma ltb_trans (x y z : float) :
  PrimFloat.ltb x y = true -> PrimFloat.ltb y z = true -> PrimFloat.ltb x z = true.
Proof. rewrite !FloatAxioms.ltb_spec. apply SFltb_trans. Qed.

Lemma is_nan_spec (a : float) : PrimFloat.is_nan a = true ↔ Prim2SF a = S754_nan.
Proof.
  unfold PrimFloat.is_nan. rewrite negb_true_iff, FloatAxioms.eqb_spec.
  unfold SFeqb. destruct (Prim2SF a) as [s | s | | s m e]; cbn.
  - done.
  - by destruct s.
  - done.
  - destruct s; rewrite Z.compare_refl, Pos.compare_cont_refl; done.
Qed.

Lemma ltb_nan_l (x y : float) : PrimFloat.is_nan x = true -> PrimFloat.ltb x y = false.
Proof. intros H%is_nan_spec. by rewrite FloatAxioms.ltb_spec, H. Qed.

(** ** Bounds: what the setters leave *)

Lemma set_lower_bound_spec (r r' : Reaction) (v : float) :
  set_lower_bound r v = Ok r' ->
  r' = with_bounds r v (if PrimFloat.ltb (upper_bound r) v then v else upper_bound r).
Proof.
  unfold set_lower_bound, check_bounds.
  destruct (PrimFloat.ltb (upper_bound r) v) eqn:Hu.
  - destruct (PrimFloat.ltb v (lower_bound r)); cbn; [done |].
    rewrite ltb_irrefl. cbn. by intros [= <-].
  - cbn. rewrite Hu. cbn. by intros [= <-].
Qed.

Lemma set_upper_bound_spec (r r' : Reaction) (v : float) :
  set_upper_bound r v = Ok r' ->
  r' = with_bounds r (if PrimFloat.ltb v (lower_bound r) then v else lower_bound r) v.
Proof.
  unfold set_upper_bound, check_bounds.
  destruct (PrimFloat.ltb v (lower_bound r)) eqn:Hl.
  - destruct (PrimFloat.ltb (upper_bound r) v); cbn; [done |].
    rewrite ltb_irrefl. cbn. by intros [= <-].
  - cbn. rewrite Hl. cbn. by intros [= <-].
Qed.

(** On a reaction with ordered bounds the setters return, and the bounds
    they leave are ordered. *)
Lemma set_lower_bound_ordered (r : Reaction) (v : float) :
  ordered r ->
  set_lower_bound r v
  = Ok (with_bounds r v (if PrimFloat.ltb (upper_bound r) v then v else upper_bound r)).
Proof.
  unfold ordered, set_lower_bound, check_bounds. intros Hord.
  destruct (PrimFloat.ltb (upper_bound r) v) eqn:Hu.
  - destruct (PrimFloat.ltb v (lower_bound r)) eqn:Hl.
    + by rewrite (ltb_trans _ _ _ Hu Hl) in Hord.
    + cbn. by rewrite ltb_irrefl.
  - cbn. by rewrite Hu.
Qed.

Lemma set_upper_bound_ordered (r : Reaction) (v : float) :
  ordered r ->
  set_upper_bound r v
  = Ok (with_bounds r (if PrimFloat.ltb v (lower_bound r) then v else lower_bound r) v).
Proof.
  unfold ordered, set_upper_bound, check_bounds. intros Hord.
  destruct (PrimFloat.ltb v (lower_bound r)) eqn:Hl.
  - destruct (PrimFloat.ltb (upper_bound r) v) eqn:Hu.
    + by rewrite (ltb_trans _ _ _ Hu Hl) in Hord.
    + cbn. by rewrite ltb_irrefl.
  - cbn. by rewrite Hl.
Qed.

Lemma lower_moved_ordered (r : Reaction) (v : float) :
  ordered (with_bounds r v (if PrimFloat.ltb (upper_bound r) v then v else upper_bound r)).
Proof.
  unfold ordered. cbn. destruct (PrimFloat.ltb (upper_bound r) v) eqn:Hu; [| done].
  apply ltb_irrefl.
Qed.

Lemma upper_moved_ordered (r : Reaction) (v : float) :
  ordered (with_bounds r (if PrimFloat.ltb v (lower_bound r) then v else lower_bound r) v).
Proof.
  unfold ordered. cbn. destruct (PrimFloat.ltb v (lower_bound r)) eqn:Hl; [| done].
  apply ltb_irrefl.
Qed.

Lemma create_rxn_eq (id name sub : string) (bounds : float * float) :
  create_rxn id name sub bounds
  = Ok (mk_Reaction id name sub
          (if PrimFloat.ltb bounds.2 bounds.1 then bounds.2 else bounds.1) bounds.2 []).
Proof.
  unfold create_rxn. cbn zeta.
  rewrite set_lower_bound_ordered by done. cbn [mbind result_bind].
  rewrite set_upper_bound_ordered by apply lower_moved_ordered. done.
Qed.

(** ** Characters of a string: equations between concatenations *)

Lemma chars_app (a b : string) :
  list_ascii_of_string (a ++ b) = (list_ascii_of_string a ++ list_ascii_of_string b)%list.
Proof. induction a as [|c a IH]; [done |]. rewrite str_app_cons. cbn. by rewrite IH. Qed.

Lemma chars_inj (a b : string) : list_ascii_of_string a = list_ascii_of_string b -> a = b.
Proof.
  intros H. rewrite <- (string_of_list_ascii_of_string a), <- (string_of_list_ascii_of_string b).
  by rewrite H.
Qed.

Lemma app_inj_r (a b s : string) : a ++ s = b ++ s -> a = b.
Proof.
  intros H. apply chars_inj. apply (f_equal list_ascii_of_string) in H.
  rewrite !chars_app in H. by apply app_inj_2 in H as [? _].
Qed.

Lemma app_inj_l (p a b : string) : p ++ a = p ++ b -> a = b.
Proof.
  intros H. apply chars_inj. apply (f_equal list_ascii_of_string) in H.
  rewrite !chars_app in H. by apply app_inj_1 in H as [_ ?].
Qed.

(** Two strings that end differently are different. *)
Lemma app_suffix_ne (a b s t : string) :
  String.length s = String.length t -> s ≠ t -> a ++ s ≠ b ++ t.
Proof.
  intros Hlen Hne H. apply Hne, chars_inj. apply (f_equal list_ascii_of_string) in H.
  rewrite !chars_app in H. apply app_inj_2 in H as [_ ?]; [done |].
  revert Hlen. clear. revert t. induction s as [|c s IH]; intros [|d t]; cbn; try done.
  intros [= H]. f_equal. by apply IH.
Qed.

(** ** The model *)

Section ReactionLists.

Implicit Types (rs l : list Reaction) (r : Reaction) (id : string).

Lemma find_fresh rs id : fresh id rs -> List.find (fun r => String.eqb (rxn_id r) id) rs = None.
Proof.
  induction 1 as [|r rs Hr _ IH]; [done |]. cbn.
  by apply String.eqb_neq in Hr as ->.
Qed.

Lemma find_app_fresh rs l id :
  fresh id rs ->
  List.find (fun r => String.eqb (rxn_id r) id) (rs ++ l)
  = List.find (fun r => String.eqb (rxn_id r) id) l.
Proof.
  induction 1 as [|r rs Hr _ IH]; [done |]. cbn.
  by apply String.eqb_neq in Hr as ->.
Qed.

Lemma existsb_app_fresh rs l id :
  fresh id rs ->
  existsb (fun r => String.eqb (rxn_id r) id) (rs ++ l)
  = existsb (fun r => String.eqb (rxn_id r) id) l.
Proof.
  induction 1 as [|r rs Hr _ IH]; [done |]. cbn.
  by apply String.eqb_neq in Hr as ->.
Qed.

Lemma put_app_fresh rs l id r' :
  fresh id rs -> put_reaction (rs ++ l) id r' = (rs ++ put_reaction l id r')%list.
Proof.
  induction 1 as [|r rs Hr _ IH]; [done |]. cbn.
  apply String.eqb_neq in Hr as ->. by rewrite IH.
Qed.

Lemma has_reaction_false m id : has_reaction m id = false ↔ fresh id (reactions m).
Proof.
  unfold has_reaction, fresh. induction (reactions m) as [|r rs IH]; cbn.
  - split; [constructor | done].
  - rewrite orb_false_iff, IH, String.eqb_neq. split.
    + intros [? ?]. by constructor.
    + by inversion 1.
Qed.

End ReactionLists.

Lemma removed_fresh (m : Model) (sel : Reaction -> bool) (id : string) :
  (∀ r, rxn_id r = id -> sel r = true) -> fresh id (reactions (remove_reactions m sel)).
Proof.
  intros Hsel. unfold fresh. cbn. apply Forall_forall. intros r Hin%list_elem_of_In.
  apply filter_In in Hin as [_ Hr]. intros Heq. by rewrite (Hsel _ Heq) in Hr.
Qed.
(** ** Stoichiometry dictionaries *)

Lemma stoich_mem_app (s t : stoichiometry) (k : string) :
  stoich_mem (s ++ t)%list k = stoich_mem s k || stoich_mem t k.
Proof. unfold stoich_mem. apply existsb_app. Qed.

Lemma stoich_mem_false (s : stoichiometry) (k : string) :
  stoich_mem s k = false ↔ k ∉ s.*1.
Proof.
  unfold stoich_mem. induction s as [|[k' c] s IH]; cbn.
  - split; [intros _; apply not_elem_of_nil | done].
  - rewrite orb_false_iff, IH, String.eqb_neq, not_elem_of_cons.
    split; intros [? ?]; split; congruence.
Qed.

Lemma stoich_set_new (s : stoichiometry) (k : string) (c : float) :
  stoich_mem s k = false -> stoich_set s k c = (s ++ [(k, c)])%list.
Proof.
  unfold stoich_mem. induction s as [|[k' c'] s IH]; cbn; [done |].
  intros [-> Hs]%orb_false_iff. by rewrite IH.
Qed.

Lemma drop_zero_app (s t : stoichiometry) :
  drop_zero (s ++ t)%list = (drop_zero s ++ drop_zero t)%list.
Proof. unfold drop_zero. apply List.filter_app. Qed.

Lemma drop_zero_id (s : stoichiometry) :
  Forall (fun e => PrimFloat.eqb e.2 0%float = false) s -> drop_zero s = s.
Proof.
  induction 1 as [|e s He _ IH]; [done |]. unfold drop_zero in *. cbn.
  by rewrite He, IH.
Qed.

Lemma string_app_assoc (a b c : string) : (a ++ b) ++ c = a ++ (b ++ c).
Proof. induction a as [|x a IH]; [done |]. by rewrite !str_app_cons, IH. Qed.

(** ** The community biomass reaction *)

Lemma biomass_key_inj (a b : string) : a ++ "_biomass[c]" = b ++ "_biomass[c]" -> a = b.
Proof. apply app_inj_r. Qed.

Lemma biomass_key_not_product (a : string) : a ++ "_biomass[c]" ≠ "microbeBiomass[u]".
Proof.
  change "_biomass[c]" with ("_biomass[" ++ "c]").
  change "microbeBiomass[u]" with ("microbeBiomass[" ++ "u]").
  rewrite <- string_app_assoc. by apply app_suffix_ne.
Qed.

Section BiomassTerms.

Variable model : Model.

Let term (row : abundance_row) : string * float :=
  (row.1 ++ "_biomass[c]", PrimFloat.opp row.2).
Let kept (row : abundance_row) : bool :=
  PrimFloat.ltb ABUNDANCE_THRESHOLD row.2 && has_metabolite model (row.1 ++ "_biomass[c]").

Lemma biomass_fold (rows : list abundance_row) (acc : stoichiometry) :
  NoDup rows.*1 ->
  (∀ row, row ∈ rows -> stoich_mem acc (row.1 ++ "_biomass[c]") = false) ->
  foldl (biomass_term model) acc
    (List.filter (fun row => PrimFloat.ltb ABUNDANCE_THRESHOLD row.2) rows)
  = (acc ++ (term <$> List.filter kept rows))%list.
Proof.
  revert acc. induction rows as [|row rows IH]; intros acc Hnd Hacc.
  - cbn. by rewrite app_nil_r.
  - rewrite fmap_cons in Hnd. apply NoDup_cons in Hnd as [Hrow Hnd].
    cbn [List.filter]. subst kept. cbn beta.
    assert (Hrest : ∀ c, ∀ row', row' ∈ rows ->
              stoich_mem (acc ++ [(row.1 +:+ "_biomass[c]", c)])%list
                (row'.1 ++ "_biomass[c]") = false).
    { intros c row' Hin. rewrite stoich_mem_app, Hacc by (by right). cbn.
      rewrite orb_false_r. apply String.eqb_neq. intros Heq%biomass_key_inj.
      apply Hrow. rewrite Heq. by apply list_elem_of_fmap_2. }
    destruct (PrimFloat.ltb ABUNDANCE_THRESHOLD row.2) eqn:Hthr; cbn.
    + unfold biomass_term at 2. 
      destruct (has_metabolite model (row.1 ++ "_biomass[c]")) eqn:Hmet.
      * rewrite stoich_set_new by (apply Hacc; by left).
        rewrite IH by eauto. by rewrite <- app_assoc.
      * apply IH; [done |]. intros; apply Hacc; by right.
    + apply IH; [done |]. intros; apply Hacc; by right.
Qed.

Lemma terms_in (rows : list abundance_row) (e : string * float) :
  e ∈ term <$> List.filter kept rows ->
  ∃ row, row ∈ rows ∧ kept row = true ∧ e = term row.
Proof.
  intros (row & -> & Hin)%list_elem_of_fmap. apply list_elem_of_In, filter_In in Hin as [Hin Hk].
  exists row. by rewrite list_elem_of_In.
Qed.

Lemma terms_nodup (rows : list abundance_row) :
  NoDup rows.*1 -> NoDup (term <$> List.filter kept rows).*1.
Proof.
  induction rows as [|row rows IH]; [constructor |].
  rewrite fmap_cons. intros [Hrow Hnd]%NoDup_cons. cbn [List.filter].
  destruct (kept row); [| by apply IH]. rewrite !fmap_cons. apply NoDup_cons.
  split; [| by apply IH]. cbn.
  intros (e & Heq & (row' & Hin & _ & ->)%terms_in)%list_elem_of_fmap. cbn in Heq.
  apply biomass_key_inj in Heq. apply Hrow. rewrite Heq. by apply list_elem_of_fmap_2.
Qed.

End BiomassTerms.

Lemma add_metabolites_nil (m : Model) : add_metabolites m [] = m.
Proof. destruct m as [rs ms]. unfold add_metabolites, with_model_metabolites. cbn. by rewrite app_nil_r. Qed.

Lemma has_metabolite_add (m : Model) (l : list Metabolite) (id : string) :
  has_metabolite (add_metabolites m l) id
  = has_metabolite m id || existsb (fun x => String.eqb (met_id x) id) l.
Proof.
  unfold has_metabolite at 1. cbn. rewrite existsb_app. fold (has_metabolite m id).
  destruct (has_metabolite m id) eqn:Hm; [done |]. cbn.
  induction l as [|x l IH]; [done |]. cbn.
  destruct (String.eqb_spec (met_id x) id) as [Heq|Hne].
  - rewrite Heq, Hm. cbn. by apply String.eqb_eq in Heq as ->.
  - destruct (has_metabolite m (met_id x)); cbn; [done |].
    apply String.eqb_neq in Hne as ->. done.
Qed.

Lemma get_metabolite_id (m : Model) (id : string) :
  has_metabolite m id = true -> ∃ x, get_metabolite m id = Ok x ∧ met_id x = id.
Proof.
  unfold has_metabolite, get_metabolite, find_metabolite.
  induction (metabolites m) as [|x ms IH]; cbn; [done |].
  destruct (String.eqb_spec (met_id x) id) as [Heq|_]; [by exists x | apply IH].
Qed.

(** [Reaction.add_metabolites] on a reaction found behind reactions of other
    ids *)
Lemma reaction_add_metabolites_at (m : Model) (rid : string) (d : list (met_key * float))
    (rs l : list Reaction) (r : Reaction) :
  reactions m = (rs ++ l)%list -> fresh rid rs ->
  List.find (fun r => String.eqb (rxn_id r) rid) l = Some r ->
  reaction_add_metabolites m rid d
  = st ← foldlM (add_entry m (rxn_metabolites r)) (rxn_metabolites r, []) d;
    Ok (mk_Model (rs ++ put_reaction l rid (with_metabolites r (drop_zero st.1)))%list
                 (metabolites (add_metabolites m st.2))).
Proof.
  intros Hrs Hfresh Hfind. unfold reaction_add_metabolites, get_reaction, find_reaction.
  rewrite Hrs, find_app_fresh, Hfind by done. cbn.
  destruct (foldlM _ _ d) as [st|]; cbn; [| done].
  by rewrite Hrs, put_app_fresh.
Qed.

Lemma foldlM_add_ids (m : Model) (d acc : stoichiometry) (new : list Metabolite) :
  Forall (fun e => has_metabolite m e.1 = true) d ->
  NoDup d.*1 ->
  (∀ e, e ∈ d -> stoich_mem acc e.1 = false) ->
  foldlM (add_entry m []) (acc, new) ((fun e => (ById e.1, e.2)) <$> d)
  = Ok ((acc ++ d)%list, new).
Proof.
  revert acc. induction d as [|[k c] d IH]; intros acc Hm Hnd Hacc.
  - cbn. by rewrite app_nil_r.
  - apply Forall_cons in Hm as [Hk Hm]. rewrite fmap_cons in Hnd.
    apply NoDup_cons in Hnd as [Hkd Hnd]. cbn in Hk, Hkd.
    cbn [fmap list_fmap foldlM]. unfold add_entry at 1. cbn. rewrite Hk. cbn.
    rewrite stoich_set_new by (apply (Hacc (k, c)); by left).
    rewrite IH; [by rewrite <- app_assoc | done | done |].
    intros e He. rewrite stoich_mem_app, Hacc by (by right). cbn.
    rewrite orb_false_r. apply String.eqb_neq. intros ->. apply Hkd.
    by apply list_elem_of_fmap_2.
Qed.

Lemma add_entry_object (m : Model) (s0 : stoichiometry)
    (st : stoichiometry * list Metabolite) (met : Metabolite) (c : float) :
  stoich_mem s0 (met_id met) = false -> has_metabolite m (met_id met) = true ->
  add_entry m s0 st (ByObject met, c) = Ok (stoich_set st.1 (met_id met) c, st.2).
Proof. intros Hs Hm. unfold add_entry. cbn. by rewrite Hs, Hm. Qed.

Lemma add_reactions_fresh (m : Model) (r : Reaction) :
  fresh (rxn_id r) (reactions m) ->
  add_reactions m r = mk_Model (reactions m ++ [r])%list (metabolites m).
Proof. intros H. unfold add_reactions. by rewrite (proj2 (has_reaction_false _ _) H). Qed.

Lemma fresh_app (id : string) (rs l : list Reaction) :
  fresh id (rs ++ l)%list ↔ fresh id rs ∧ fresh id l.
Proof. apply Forall_app. Qed.

Lemma reaction_add_object_at (m : Model) (rid : string) (met : Metabolite) (c : float)
    (rs l : list Reaction) (r : Reaction) :
  reactions m = (rs ++ l)%list -> fresh rid rs ->
  List.find (fun r => String.eqb (rxn_id r) rid) l = Some r ->
  stoich_mem (rxn_metabolites r) (met_id met) = false ->
  ∃ ms, reaction_add_metabolites m rid [(ByObject met, c)]
        = Ok (mk_Model
                (rs ++ put_reaction l rid
                         (with_metabolites r
                            (drop_zero (rxn_metabolites r ++ [(met_id met, c)]))))%list ms).
Proof.
  intros Hrs Hfresh Hfind Hmem.
  rewrite (reaction_add_metabolites_at m rid _ rs l r) by done.
  cbn [foldlM]. unfold add_entry. cbn [fst snd key_id]. rewrite Hmem.
  rewrite stoich_set_new by done.
  destruct (has_metabolite m (met_id met)); cbn; by eexists.
Qed.

Lemma find_id (l : list Reaction) (id : string) (r : Reaction) :
  List.find (fun r => String.eqb (rxn_id r) id) l = Some r -> rxn_id r = id.
Proof. intros [_ H]%find_some. by apply String.eqb_eq. Qed.

Lemma find_put (l : list Reaction) (id : string) (r r' : Reaction) :
  List.find (fun r => String.eqb (rxn_id r) id) l = Some r -> rxn_id r' = id ->
  List.find (fun r => String.eqb (rxn_id r) id) (put_reaction l id r') = Some r'.
Proof.
  intros Hfind Hid. induction l as [|x l IH]; [done |]. cbn in *.
  destruct (String.eqb (rxn_id x) id) eqn:Hx; cbn.
  - by rewrite Hid, String.eqb_refl.
  - rewrite Hx. by apply IH.
Qed.

Lemma put_put (l : list Reaction) (id : string) (r1 r2 : Reaction) :
  rxn_id r1 = id -> put_reaction (put_reaction l id r1) id r2 = put_reaction l id r2.
Proof.
  intros Hid. induction l as [|x l IH]; [done |]. cbn.
  destruct (String.eqb (rxn_id x) id) eqn:Hx; cbn.
  - by rewrite Hid, String.eqb_refl.
  - by rewrite Hx, IH.
Qed.

Lemma term_metabolite_id (m : Model) (id : string) : met_id (term_metabolite m id) = id.
Proof.
  unfold term_metabolite, find_metabolite.
  destruct (List.find _ _) as [x|] eqn:Hx; [| done].
  apply find_some in Hx as [_ Hx]. by apply String.eqb_eq.
Qed.

Lemma get_added_metabolite (m : Model) (x : Metabolite) :
  ∃ y, get_metabolite (add_metabolites m [x]) (met_id x) = Ok y ∧ met_id y = met_id x.
Proof.
  apply get_metabolite_id. rewrite has_metabolite_add. cbn.
  by rewrite String.eqb_refl, orb_true_r.
Qed.

Lemma update_reaction_at (m : Model) (rid : string) (f : Reaction -> result Reaction)
    (rs l : list Reaction) (r r' : Reaction) :
  reactions m = (rs ++ l)%list -> fresh rid rs ->
  List.find (fun r => String.eqb (rxn_id r) rid) l = Some r ->
  f r = Ok r' ->
  update_reaction m rid f = Ok (mk_Model (rs ++ put_reaction l rid r')%list (metabolites m)).
Proof.
  intros Hrs Hfresh Hfind Hf. unfold update_reaction, get_reaction, find_reaction.
  rewrite Hrs, find_app_fresh, Hfind by done. cbn. rewrite Hf. cbn.
  by rewrite put_app_fresh.
Qed.

Lemma one_nonzero : PrimFloat.eqb 1%float 0%float = false.
Proof. reflexivity. Qed.

Lemma minus_one_nonzero : PrimFloat.eqb (-1)%float 0%float = false.
Proof. reflexivity. Qed.

(** [rxn.reaction = "a --> b"] on a reaction just created *)
Lemma build_reaction_at (m : Model) (rid a p : string) (ar : arrow)
    (rs l : list Reaction) (r : Reaction) :
  reactions m = (rs ++ l)%list -> fresh rid rs ->
  List.find (fun r => String.eqb (rxn_id r) rid) l = Some r ->
  rxn_metabolites r = [] -> a ≠ p ->
  ∃ ms, build_reaction_from_string m rid a ar p
        = Ok (mk_Model
                (rs ++ put_reaction l rid
                         (mk_Reaction (rxn_id r) (rxn_name r) (subsystem r)
                            (arrow_bounds ar).1 (arrow_bounds ar).2
                            [(a, (-1)%float); (p, 1%float)]))%list ms).
Proof.
  intros Hrs Hfresh Hfind Hempty Hne.
  pose proof (find_id _ _ _ Hfind) as Hid.
  unfold build_reaction_from_string, get_reaction, find_reaction.
  rewrite Hrs, find_app_fresh, Hfind by done. cbn [mbind result_bind].
  assert (set_bounds r (arrow_bounds ar)
          = Ok (with_bounds r (arrow_bounds ar).1 (arrow_bounds ar).2)) as ->.
  { by destruct ar. }
  cbn [mbind result_bind]. set (r1 := with_bounds r _ _).
  rewrite put_app_fresh by done.
  assert (Hf1 : List.find (fun r => String.eqb (rxn_id r) rid) (put_reaction l rid r1)
                = Some r1) by (by apply (find_put _ _ r)).
  rewrite (reaction_add_metabolites_at _ rid _ rs (put_reaction l rid r1) r1) by done.
  replace (rxn_metabolites r1) with (@nil (string * float)) by done.
  cbn [fmap list_fmap foldlM mbind result_bind fst snd].
  rewrite add_metabolites_nil, put_put by done. cbn [metabolites].
  set (r2 := with_metabolites r1 _).
  assert (Hf2 : List.find (fun r => String.eqb (rxn_id r) rid) (put_reaction l rid r2)
                = Some r2) by (by apply (find_put _ _ r)).
  match goal with
  | |- context [reaction_add_metabolites ?mm rid [(ByObject ?x, ?c)]] =>
      destruct (reaction_add_object_at mm rid x c rs _ r2 eq_refl Hfresh Hf2) as [ms1 ->];
        [done |]
  end.
  cbn [mbind result_bind]. rewrite put_put, term_metabolite_id by done.
  set (r3 := with_metabolites r2 _).
  assert (Hf3 : List.find (fun r => String.eqb (rxn_id r) rid) (put_reaction l rid r3)
                = Some r3) by (by apply (find_put _ _ r)).
  match goal with
  | |- context [reaction_add_metabolites ?mm rid [(ByObject ?x, ?c)]] =>
      destruct (reaction_add_object_at mm rid x c rs _ r3 eq_refl Hfresh Hf3) as [ms2 ->]
  end.
  { rewrite term_metabolite_id. cbn. by apply String.eqb_neq in Hne as ->. }
  rewrite put_put, term_metabolite_id by done.
  exists ms2. reflexivity.
Qed.

(** C4. [com_biomass] returns, and in its result the reaction
    [communityBiomass] has the bounds [(0, 10000)] and a stoichiometry made of
    one term [-abundance] on [{organism}_biomass[c]] for each organism whose
    abundance exceeds the threshold and whose biomass metabolite is in the
    network, followed by [+1] on [microbeBiomass[u]]; the other organisms
    (at or below the threshold, or without biomass metabolite) add no term
    and raise nothing. *)
Theorem community_biomass_reaction (model : Model) (abun : list abundance_row) :
  NoDup abun.*1 ->
  ∃ model' r,
    com_biomass model abun = Ok model'
    ∧ find_reaction model' "communityBiomass" = Some r
    ∧ lower_bound r = 0%float ∧ upper_bound r = 10000%float
    ∧ rxn_metabolites r
      = (((fun row => (row.1 +:+ "_biomass[c]", PrimFloat.opp row.2)) <$>
            List.filter
              (fun row => PrimFloat.ltb 1e-7%float row.2
                          && has_metabolite model (row.1 +:+ "_biomass[c]"))
              abun)
         ++ [("microbeBiomass[u]", 1%float)])%list.
Proof.
  intros Hnd. unfold com_biomass.
  set (m1 := remove_reactions model _).
  assert (Hf : ∀ id, Str.contains id "Biomass" = true -> fresh id (reactions m1)).
  { intros id Hid. apply removed_fresh. by intros r ->. }
  change (create_rxn "communityBiomass" "communityBiomass" " " (0%float, 10000%float))
    with (Ok (mk_Reaction "communityBiomass" "communityBiomass" " " 0 10000 [])).
  cbn [mbind result_bind].
  rewrite add_reactions_fresh by (by apply Hf).
  set (cb0 := mk_Reaction "communityBiomass" _ _ _ _ _).
  set (m2 := mk_Model _ _).
  rewrite (biomass_fold m2) by done. rewrite app_nil_l.
  set (terms := _ <$> List.filter _ abun).
  assert (Hterms : ∀ e, e ∈ terms ->
            ∃ row : abundance_row,
              PrimFloat.ltb ABUNDANCE_THRESHOLD row.2 = true
              ∧ has_metabolite m2 (row.1 +:+ "_biomass[c]") = true
              ∧ e = (row.1 +:+ "_biomass[c]", PrimFloat.opp row.2)).
  { intros e (row & _ & [? ?]%andb_prop & ->)%terms_in. by exists row. }
  rewrite (reaction_add_metabolites_at m2 "communityBiomass" _ (reactions m1) [cb0] cb0)
    by (done || by apply Hf).
  rewrite foldlM_add_ids; [| | by apply terms_nodup | done].
  2:{ apply Forall_forall. by intros e (row & _ & ? & ->)%Hterms. }
  cbn [mbind result_bind fst snd]. rewrite app_nil_l, add_metabolites_nil.
  rewrite drop_zero_id.
  2:{ apply Forall_forall. intros e (row & ? & _ & ->)%Hterms.
      by apply above_threshold_nonzero. }
  replace (put_reaction [cb0] "communityBiomass" (with_metabolites cb0 terms))
    with [with_metabolites cb0 terms] by reflexivity.
  set (cb1 := with_metabolites cb0 terms).
  match goal with
  | |- context [get_metabolite (add_metabolites ?mm [?x]) _] =>
      destruct (get_added_metabolite mm x) as (met & Hget & Hmet);
      cbn [met_id] in Hget, Hmet; rewrite Hget; clear Hget;
      set (m4 := add_metabolites mm [x])
  end.
  cbn [mbind result_bind].
  destruct (reaction_add_object_at m4 "communityBiomass" met 1%float (reactions m1)
              [cb1] cb1 eq_refl) as [ms5 ->]; [by apply Hf | done | |].
  { rewrite Hmet. apply stoich_mem_false.
    intros (e & Heq & (row & _ & _ & ->)%Hterms)%list_elem_of_fmap.
    by apply (biomass_key_not_product row.1). }
  cbn [mbind result_bind]. rewrite Hmet.
  replace (put_reaction [cb1] "communityBiomass" _)
    with [with_metabolites cb1 (terms ++ [("microbeBiomass[u]", 1%float)])%list].
  2:{ cbn. rewrite drop_zero_app, drop_zero_id; [done |].
      apply Forall_forall. intros e (row & ? & _ & ->)%Hterms.
      by apply above_threshold_nonzero. }
  set (cb2 := with_metabolites cb1 _).
  change (create_rxn "EX_microbeBiomass[fe]" "EX_microbeBiomass[fe]" " "
            ((-10000)%float, 10000%float))
    with (Ok (mk_Reaction "EX_microbeBiomass[fe]" "EX_microbeBiomass[fe]" " "
                (-10000) 10000 [])).
  cbn [mbind result_bind].
  rewrite add_reactions_fresh.
  2:{ apply fresh_app. split; [by apply Hf | by repeat constructor]. }
  cbn [reactions metabolites]. rewrite <- app_assoc. cbn [app].
  set (ex0 := mk_Reaction "EX_microbeBiomass[fe]" _ _ _ _ _).
  match goal with
  | |- context [get_metabolite (add_metabolites ?mm [?x]) _] =>
      destruct (get_added_metabolite mm x) as (met' & Hget & Hmet');
      cbn [met_id] in Hget, Hmet'; rewrite Hget; clear Hget;
      set (m6 := add_metabolites mm [x])
  end.
  cbn [mbind result_bind].
  destruct (reaction_add_object_at m6 "EX_microbeBiomass[fe]" met' (-1)%float (reactions m1)
              [cb2; ex0] ex0 eq_refl) as [ms7 ->]; [by apply Hf | done | done |].
  cbn [mbind result_bind].
  replace (put_reaction [cb2; ex0] "EX_microbeBiomass[fe]" _)
    with [cb2; with_metabolites ex0 [(met_id met', (-1)%float)]] by reflexivity.
  set (ex1 := with_metabolites ex0 _).
  change (create_rxn "UFEt_microbeBiomass" "UFEt_microbeBiomass" " " TRANSPORT_BOUNDS)
    with (Ok (mk_Reaction "UFEt_microbeBiomass" "UFEt_microbeBiomass" " " 0 10000 [])).
  cbn [mbind result_bind].
  assert (Hfu : fresh "UFEt_microbeBiomass" (reactions m1 ++ [cb2; ex1])%list).
  { apply fresh_app. split; [by apply Hf | by repeat constructor]. }
  rewrite (proj2 (has_reaction_false _ _)) by done.
  rewrite add_reactions_fresh by done.
  cbn [reactions metabolites]. rewrite <- app_assoc. cbn [app].
  set (uf0 := mk_Reaction "UFEt_microbeBiomass" _ _ _ _ _).
  match goal with
  | |- context [build_reaction_from_string ?mm ?rid ?a ?ar ?p] =>
      destruct (build_reaction_at mm rid a p ar (reactions m1) [cb2; ex1; uf0] uf0 eq_refl)
        as [ms8 ->]; [by apply Hf | done | done | done |]
  end.
  cbn [mbind result_bind].
  erewrite (update_reaction_at _ "UFEt_microbeBiomass" _ (reactions m1));
    [| reflexivity | by apply Hf | reflexivity | reflexivity].
  eexists _, cb2. split_and!; [reflexivity | | done | done | done].
  unfold find_reaction. cbn [reactions]. rewrite find_app_fresh by (by apply Hf).
  reflexivity.
Qed.

Lemma community_biomass_reaction_witness :
  NoDup [("A", 0.6%float); ("B", 0.3%float); ("C", 0%float)].*1
  ∧ ∃ model' r,
      com_biomass
        (mk_Model []
           [mk_Metabolite "A_biomass[c]" (Some "c") "" "";
            mk_Metabolite "B_biomass[c]" (Some "c") "" "";
            mk_Metabolite "C_biomass[c]" (Some "c") "" ""])
        [("A", 0.6%float); ("B", 0.3%float); ("C", 0%float)] = Ok model'
      ∧ find_reaction model' "communityBiomass" = Some r
      ∧ lower_bound r = 0%float ∧ upper_bound r = 10000%float
      ∧ rxn_metabolites r
        = [("A_biomass[c]", (-0.6)%float); ("B_biomass[c]", (-0.3)%float);
           ("microbeBiomass[u]", 1%float)].
Proof.
  assert (Hnd : NoDup [("A", 0.6%float); ("B", 0.3%float); ("C", 0%float)].*1).
  { apply (bool_decide_unpack _). vm_compute. exact I. }
  split; [exact Hnd |].
  exact (community_biomass_reaction _ _ Hnd).
Defined.

(** ** The abundance threshold *)

(** C2 (evaluation). An organism whose abundance is exactly [1e-7] is not
    pruned by [build_sample_gem], which tests [< 1e-7] and [>= 1e-7]: its
    metabolites and reactions stay in the sample model and it is handed to
    the coupling pruning as present, while [com_biomass], which tests
    [> 1e-7], gives it no term. *)
Theorem threshold_boundary_kept :
  let abundance := [("A", 1e-7%float)] in
  let global_model :=
    mk_Model
      [mk_Reaction "A_R1" "" "" 0%float 1000%float
         [("A_x[c]", (-1)%float); ("A_biomass[c]", 1%float)]]
      [mk_Metabolite "A_x[c]" (Some "c") "" "";
       mk_Metabolite "A_biomass[c]" (Some "c") "" ""] in
  zero_microbe abundance = []
  ∧ present_microbe abundance = ["A"]
  ∧ ∃ model,
      build_sample_gem global_model abundance = Ok model
      ∧ has_reaction model "A_R1" = true
      ∧ has_metabolite model "A_biomass[c]" = true
      ∧ rxn_metabolites <$> find_reaction model "communityBiomass"
        = Some [("microbeBiomass[u]", 1%float)].
Proof. cbn zeta. split_and!; [done | done |]. eexists. vm_compute. done. Qed.
(** ** Loops over the reactions *)

Lemma at_reaction_middle (g : Reaction -> result Reaction) (pre rest : list Reaction)
    (r : Reaction) (ms : list Metabolite) :
  at_reaction g (mk_Model (pre ++ r :: rest)%list ms) (List.length pre)
  = r' ← g r; Ok (mk_Model ((pre ++ [r']) ++ rest)%list ms).
Proof.
  unfold at_reaction. cbn [reactions]. rewrite list_lookup_middle by done.
  destruct (g r) as [r'|]; cbn [mbind result_bind]; [| done].
  unfold with_reactions. cbn [reactions metabolites].
  rewrite <- (Nat.add_0_r (List.length pre)), insert_app_r. cbn.
  by rewrite <- app_assoc.
Qed.

Lemma at_reaction_loop (g : Reaction -> result Reaction) (rest pre : list Reaction)
    (ms : list Metabolite) (m' : Model) :
  foldlM (at_reaction g) (mk_Model (pre ++ rest)%list ms)
    (seq (List.length pre) (List.length rest)) = Ok m' ->
  ∃ rest', m' = mk_Model (pre ++ rest')%list ms
           ∧ Forall2 (fun r r' => g r = Ok r') rest rest'.
Proof.
  revert pre. induction rest as [|r rest IH]; intros pre.
  - cbn. intros [= <-]. exists []. by split.
  - cbn [List.length seq foldlM]. rewrite at_reaction_middle.
    destruct (g r) as [r'|] eqn:Hg; cbn [mbind result_bind]; [| done].
    replace (S (List.length pre)) with (List.length (pre ++ [r'])%list)
      by (rewrite length_app; cbn; lia).
    intros (rest' & -> & Hall)%IH. exists (r' :: rest'). split.
    + by rewrite <- app_assoc.
    + by constructor.
Qed.

Lemma at_reaction_all (g : Reaction -> result Reaction) (m m' : Model) :
  foldlM (at_reaction g) m (seq 0 (List.length (reactions m))) = Ok m' ->
  metabolites m' = metabolites m
  ∧ Forall2 (fun r r' => g r = Ok r') (reactions m) (reactions m').
Proof.
  destruct m as [rs ms]. intros (rest' & -> & Hall)%(at_reaction_loop g rs []). done.
Qed.

(** ** Diet adaptation *)

Lemma close_diet_exchange_spec (r r' : Reaction) :
  close_diet_exchange r = Ok r' ->
  r' = if Str.startswith (rxn_id r) "Diet_EX_"
       then with_bounds r 0%float
              (if PrimFloat.ltb (upper_bound r) 0%float then 0%float else upper_bound r)
       else r.
Proof.
  unfold close_diet_exchange. destruct (Str.startswith _ _).
  - apply set_lower_bound_spec.
  - by intros [= <-].
Qed.

Lemma put_ids (rs : list Reaction) (id : string) (r' : Reaction) :
  rxn_id r' = id -> rxn_id <$> put_reaction rs id r' = rxn_id <$> rs.
Proof.
  intros Hid. induction rs as [|x rs IH]; [done |]. cbn.
  destruct (String.eqb_spec (rxn_id x) id) as [Heq|_]; cbn; [by rewrite Hid, Heq |].
  by rewrite IH.
Qed.

Lemma put_lookup_ne (rs : list Reaction) (id : string) (r' r : Reaction) (i : nat) :
  rs !! i = Some r -> rxn_id r ≠ id -> put_reaction rs id r' !! i = Some r.
Proof.
  revert i. induction rs as [|x rs IH]; intros i Hi Hne; [done |]. cbn.
  destruct (String.eqb_spec (rxn_id x) id) as [Heq|_].
  - destruct i as [|i]; cbn in *; [congruence | done].
  - destruct i as [|i]; cbn in *; [done | by apply IH].
Qed.

Lemma find_put_ne (rs : list Reaction) (id id' : string) (r' : Reaction) :
  rxn_id r' = id -> id ≠ id' ->
  List.find (fun r => String.eqb (rxn_id r) id') (put_reaction rs id r')
  = List.find (fun r => String.eqb (rxn_id r) id') rs.
Proof.
  intros Hid Hne. induction rs as [|x rs IH]; [done |]. cbn.
  destruct (String.eqb_spec (rxn_id x) id) as [Heq|_]; cbn.
  - rewrite Hid, Heq. by apply String.eqb_neq in Hne as ->.
  - by rewrite IH.
Qed.

Lemma has_reaction_ids (m m' : Model) (id : string) :
  rxn_id <$> reactions m' = rxn_id <$> reactions m ->
  has_reaction m' id = has_reaction m id.
Proof.
  unfold has_reaction. generalize (reactions m) (reactions m'). clear.
  induction l as [|x l IH]; intros [|y l'] H; try done.
  rewrite !fmap_cons in H. injection H as Hy H. cbn. by rewrite Hy, (IH l').
Qed.

Lemma apply_diet_row_ids (m m' : Model) (row : diet_row) :
  apply_diet_row m row = Ok m' -> rxn_id <$> reactions m' = rxn_id <$> reactions m.
Proof.
  unfold apply_diet_row. destruct (has_reaction m _); [| by intros [= <-]].
  unfold update_reaction, get_reaction.
  destruct (find_reaction m _) as [r0|] eqn:Hr; cbn; [| done].
  pose proof (find_id _ _ _ Hr) as Hid.
  destruct (set_lower_bound r0 _) as [r1|] eqn:Hl; cbn; [| done].
  apply set_lower_bound_spec in Hl as ->.
  destruct (is_nan _) eqn:Hnan; cbn.
  - intros [= <-]. cbn. by apply put_ids.
  - unfold find_reaction. cbn [reactions with_reactions].
    erewrite find_put by done. cbn.
    destruct (set_upper_bound _ _) as [r2|] eqn:Hu; cbn; [| done].
    apply set_upper_bound_spec in Hu as ->.
    intros [= <-]. cbn. rewrite !put_ids; done.
Qed.

Lemma apply_diet_row_frame (m m' : Model) (row : diet_row) (i : nat) (r : Reaction) :
  apply_diet_row m row = Ok m' -> reactions m !! i = Some r ->
  rxn_id r ≠ row_rxn_id row -> reactions m' !! i = Some r.
Proof.
  unfold apply_diet_row. destruct (has_reaction m _); [| by intros [= <-]].
  unfold update_reaction, get_reaction.
  destruct (find_reaction m _) as [r0|] eqn:Hr; cbn; [| done].
  pose proof (find_id _ _ _ Hr) as Hid.
  destruct (set_lower_bound r0 _) as [r1|] eqn:Hl; cbn; [| done].
  apply set_lower_bound_spec in Hl as ->.
  destruct (is_nan _) eqn:Hnan; cbn.
  - intros [= <-] Hi Hne. cbn. by apply put_lookup_ne.
  - unfold find_reaction. cbn [reactions with_reactions].
    erewrite find_put by done. cbn.
    destruct (set_upper_bound _ _) as [r2|] eqn:Hu; cbn; [| done].
    apply set_upper_bound_spec in Hu as ->.
    intros [= <-] Hi Hne. cbn. apply put_lookup_ne; [| done]. by apply put_lookup_ne.
Qed.

Lemma apply_diet_row_find_ne (m m' : Model) (row : diet_row) (id : string) :
  apply_diet_row m row = Ok m' -> row_rxn_id row ≠ id ->
  find_reaction m' id = find_reaction m id.
Proof.
  unfold apply_diet_row. destruct (has_reaction m _); [| by intros [= <-]].
  unfold update_reaction, get_reaction.
  destruct (find_reaction m _) as [r0|] eqn:Hr; cbn; [| done].
  pose proof (find_id _ _ _ Hr) as Hid.
  destruct (set_lower_bound r0 _) as [r1|] eqn:Hl; cbn; [| done].
  apply set_lower_bound_spec in Hl as ->.
  destruct (is_nan _) eqn:Hnan; cbn.
  - intros [= <-] Hne. unfold find_reaction. cbn. by apply find_put_ne.
  - unfold find_reaction. cbn [reactions with_reactions].
    erewrite find_put by done. cbn.
    destruct (set_upper_bound _ _) as [r2|] eqn:Hu; cbn; [| done].
    apply set_upper_bound_spec in Hu as ->.
    intros [= <-] Hne. cbn. rewrite !find_put_ne; done.
Qed.

Lemma has_reaction_find (m : Model) (id : string) :
  has_reaction m id = true -> ∃ r, find_reaction m id = Some r.
Proof.
  unfold has_reaction, find_reaction. induction (reactions m) as [|x rs IH]; cbn; [done |].
  destruct (String.eqb (rxn_id x) id); [by eexists | apply IH].
Qed.

Lemma apply_diet_row_effect (m m' : Model) (row : diet_row) :
  apply_diet_row m row = Ok m' -> has_reaction m (row_rxn_id row) = true ->
  ∃ r', find_reaction m' (row_rxn_id row) = Some r'
        ∧ lower_bound r'
          = (if PrimFloat.ltb (row_upper_bound row) (row_lower_bound row)
             then row_upper_bound row else row_lower_bound row)
        ∧ (PrimFloat.is_nan (row_upper_bound row) = false ->
           upper_bound r' = row_upper_bound row).
Proof.
  unfold apply_diet_row. intros H Hhas. rewrite Hhas in H. revert H.
  unfold update_reaction, get_reaction.
  destruct (find_reaction m _) as [r0|] eqn:Hr; cbn; [| done].
  pose proof (find_id _ _ _ Hr) as Hid.
  destruct (set_lower_bound r0 _) as [r1|] eqn:Hl; cbn; [| done].
  apply set_lower_bound_spec in Hl as ->.
  destruct (is_nan _) eqn:Hnan; cbn.
  - intros [= <-]. eexists. unfold find_reaction. cbn [reactions with_reactions].
    erewrite find_put by done. rewrite (ltb_nan_l _ _ Hnan). done.
  - unfold find_reaction. cbn [reactions with_reactions].
    erewrite find_put by done. cbn.
    destruct (set_upper_bound _ _) as [r2|] eqn:Hu; cbn; [| done].
    apply set_upper_bound_spec in Hu as ->.
    intros [= <-]. eexists. cbn [reactions with_reactions].
    rewrite put_put by done. erewrite find_put by done. done.
Qed.

Lemma foldlM_app {A B : Type} (f : A -> B -> result A) (a : A) (l1 l2 : list B) :
  foldlM f a (l1 ++ l2)%list = a' ← foldlM f a l1; foldlM f a' l2.
Proof.
  revert a. induction l1 as [|b l1 IH]; intros a; [done |]. cbn.
  destruct (f a b); cbn; [apply IH | done].
Qed.

Lemma diet_rows_ids (diet : list diet_row) (m m' : Model) :
  foldlM apply_diet_row m diet = Ok m' -> rxn_id <$> reactions m' = rxn_id <$> reactions m.
Proof.
  revert m. induction diet as [|row diet IH]; intros m; cbn; [by intros [= <-] |].
  destruct (apply_diet_row m row) as [m1|] eqn:H1; cbn; [| done].
  intros ->%IH. by apply apply_diet_row_ids in H1.
Qed.

Lemma diet_rows_frame (diet : list diet_row) (m m' : Model) (i : nat) (r : Reaction) :
  foldlM apply_diet_row m diet = Ok m' -> reactions m !! i = Some r ->
  (∀ row, row ∈ diet -> row_rxn_id row ≠ rxn_id r) -> reactions m' !! i = Some r.
Proof.
  revert m. induction diet as [|row diet IH]; intros m; cbn; [by intros [= <-] |].
  destruct (apply_diet_row m row) as [m1|] eqn:H1; cbn; [| done].
  intros H Hi Hrows. apply (IH m1); [done | |].
  - apply (apply_diet_row_frame m m1 row); [done | done |].
    intros Heq. apply (Hrows row); [by left | done].
  - intros row' Hin. apply Hrows. by right.
Qed.

Lemma diet_rows_find_ne (diet : list diet_row) (m m' : Model) (id : string) :
  foldlM apply_diet_row m diet = Ok m' ->
  (∀ row, row ∈ diet -> row_rxn_id row ≠ id) ->
  find_reaction m' id = find_reaction m id.
Proof.
  revert m. induction diet as [|row diet IH]; intros m; cbn; [by intros [= <-] |].
  destruct (apply_diet_row m row) as [m1|] eqn:H1; cbn; [| done].
  intros H Hrows. rewrite (IH m1); [| done |].
  - apply (apply_diet_row_find_ne m m1 row); [done |]. apply Hrows. by left.
  - intros row' Hin. apply Hrows. by right.
Qed.

(** C6 (amended). Diet adaptation goes through a state in which every
    reaction whose id starts with [Diet_EX_] has the lower bound 0, an upper
    bound that was below 0 being raised to 0 with it, and every other
    reaction is as it was. From there the rows are applied in the order of the
    table, the last row that names a reaction of the model deciding: its upper
    bound is the one of the row when the row gives one, and its lower bound is
    the one of the row unless the upper bound of the row lies below it, in
    which case both bounds end at the upper bound of the row. A reaction that
    no row names is, in the result, exactly as in the zeroed state. *)
Theorem diet_bounds (model : Model) (diet_constraints : list diet_row) (model' : Model) :
  _apply_dietary_constraints model diet_constraints = Ok model' ->
  ∃ renamed zeroed,
    foldlM rename_diet_exchange model
      (List.filter (fun id => Str.contains id "[d]" && Str.startswith id "EX_")
         (rxn_id <$> reactions model)) = Ok renamed
    ∧ foldlM (at_reaction close_diet_exchange) renamed
        (seq 0 (List.length (reactions renamed))) = Ok zeroed
    ∧ foldlM apply_diet_row zeroed diet_constraints = Ok model'
    ∧ Forall2
        (fun r z => z = if Str.startswith (rxn_id r) "Diet_EX_"
                        then with_bounds r 0%float
                               (if PrimFloat.ltb (upper_bound r) 0%float
                                then 0%float else upper_bound r)
                        else r)
        (reactions renamed) (reactions zeroed)
    ∧ (∀ before row after,
         diet_constraints = (before ++ row :: after)%list ->
         (∀ row', row' ∈ after -> row_rxn_id row' ≠ row_rxn_id row) ->
         has_reaction zeroed (row_rxn_id row) = true ->
         ∃ r', find_reaction model' (row_rxn_id row) = Some r'
               ∧ lower_bound r'
                 = (if PrimFloat.ltb (row_upper_bound row) (row_lower_bound row)
                    then row_upper_bound row else row_lower_bound row)
               ∧ (PrimFloat.is_nan (row_upper_bound row) = false ->
                  upper_bound r' = row_upper_bound row))
    ∧ (∀ i z,
         reactions zeroed !! i = Some z ->
         (∀ row, row ∈ diet_constraints -> row_rxn_id row ≠ rxn_id z) ->
         reactions model' !! i = Some z).
Proof.
  unfold _apply_dietary_constraints.
  destruct (foldlM rename_diet_exchange model _) as [renamed|] eqn:Hren; cbn; [| done].
  destruct (foldlM (at_reaction close_diet_exchange) renamed _) as [zeroed|] eqn:Hzero;
    cbn; [| done].
  intros Hrows. exists renamed, zeroed. split_and!; try done.
  - apply at_reaction_all in Hzero as [_ Hall].
    eapply Forall2_impl; [exact Hall |]. intros r z Hz. cbn in Hz.
    by apply close_diet_exchange_spec in Hz.
  - intros before row after -> Hlast Hhas.
    rewrite foldlM_app in Hrows. cbn [foldlM] in Hrows.
    destruct (foldlM apply_diet_row zeroed before) as [m1|] eqn:H1; cbn in Hrows; [| done].
    destruct (apply_diet_row m1 row) as [m2|] eqn:H2; cbn in Hrows; [| done].
    destruct (apply_diet_row_effect m1 m2 row H2) as (r' & Hfind & Hb).
    { rewrite (has_reaction_ids zeroed m1); [done |]. by apply (diet_rows_ids before). }
    exists r'. split; [| done].
    by rewrite (diet_rows_find_ne after m2 model').
  - intros i z Hi Hnone. by apply (diet_rows_frame diet_constraints zeroed).
Qed.

Lemma diet_bounds_witness :
  let model :=
    mk_Model
      [mk_Reaction "EX_glc[d]" "" "" (-1000)%float 10000%float [("glc[d]", (-1)%float)];
       mk_Reaction "EX_ac[d]" "" "" (-10)%float (-8)%float [("ac[d]", (-1)%float)];
       mk_Reaction "DUt_glc" "" "" 0%float 10000%float
         [("glc[d]", (-1)%float); ("glc[u]", 1%float)]]
      [mk_Metabolite "glc[d]" (Some "d") "" ""; mk_Metabolite "ac[d]" (Some "d") "" "";
       mk_Metabolite "glc[u]" (Some "u") "" ""] in
  let row := mk_diet_row "Diet_EX_glc[d]" (-10)%float nan in
  ∃ model',
    _apply_dietary_constraints model [row] = Ok model'
    ∧ (∃ r', find_reaction model' "Diet_EX_glc[d]" = Some r'
             ∧ lower_bound r' = (-10)%float
             ∧ (PrimFloat.is_nan nan = false -> upper_bound r' = nan))
    ∧ reactions model' !! 1
      = Some (mk_Reaction "Diet_EX_ac[d]" "" "" 0%float 0%float [("ac[d]", (-1)%float)]).
Proof.
  intros model row.
  assert (H : ∃ model', _apply_dietary_constraints model [row] = Ok model').
  { eexists. vm_compute. reflexivity. }
  destruct H as [model' H]. exists model'. split; [exact H |].
  destruct (diet_bounds model [row] model' H)
    as (renamed & zeroed & Hren & Hzero & _ & _ & Hrow & Hframe).
  vm_compute in Hren. injection Hren as <-.
  vm_compute in Hzero. injection Hzero as <-.
  split.
  - apply (Hrow [] row []); [reflexivity | | reflexivity].
    intros row' Hin. by apply elem_of_nil in Hin.
  - apply Hframe; [reflexivity |].
    intros row' ->%list_elem_of_singleton. done.
Defined.

(** C6 (counterexample). A row whose upper bound is below its lower bound:
    assigning the upper bound [-5] after the lower bound [-1] takes the lower
    bound to [-5] as well, so the reaction does not have the lower bound of
    its row. *)
Lemma crossing_diet_row :
  let model :=
    mk_Model
      [mk_Reaction "EX_glc[d]" "" "" (-1000)%float 10000%float [("glc[d]", (-1)%float)]]
      [mk_Metabolite "glc[d]" (Some "d") "" ""] in
  let row := mk_diet_row "Diet_EX_glc[d]" (-1)%float (-5)%float in
  _apply_dietary_constraints model [row]
  = Ok (mk_Model
          [mk_Reaction "Diet_EX_glc[d]" "" "" (-5)%float (-5)%float [("glc[d]", (-1)%float)]]
          [mk_Metabolite "glc[d]" (Some "d") "" ""])
  ∧ (-5)%float ≠ row_lower_bound row.
Proof. cbn zeta. split; [by vm_compute | by vm_compute; intros [=]]. Qed.

(** ** Frames: what an operation leaves untouched *)

Lemma find_snoc_ne (rs : list Reaction) (r : Reaction) (id : string) :
  rxn_id r ≠ id ->
  List.find (fun r => String.eqb (rxn_id r) id) (rs ++ [r])%list
  = List.find (fun r => String.eqb (rxn_id r) id) rs.
Proof.
  intros Hne. induction rs as [|x rs IH]; cbn.
  - by apply String.eqb_neq in Hne as ->.
  - by rewrite IH.
Qed.

Lemma add_reactions_frame (m : Model) (r : Reaction) (id : string) :
  rxn_id r ≠ id -> find_reaction (add_reactions m r) id = find_reaction m id.
Proof.
  intros Hne. unfold add_reactions. destruct (has_reaction m _); [done |].
  by apply find_snoc_ne.
Qed.

Lemma reaction_add_metabolites_frame (m m' : Model) (rid id : string)
    (d : list (met_key * float)) :
  reaction_add_metabolites m rid d = Ok m' -> rid ≠ id ->
  find_reaction m' id = find_reaction m id.
Proof.
  unfold reaction_add_metabolites, get_reaction.
  destruct (find_reaction m rid) as [r|] eqn:Hr; cbn; [| done].
  destruct (foldlM _ _ d) as [st|]; cbn; [| done].
  intros [= <-] Hne. unfold find_reaction. cbn. apply find_put_ne; [| done].
  by apply (find_id _ _ _ Hr).
Qed.

Lemma update_reaction_frame (m m' : Model) (rid id : string)
    (f : Reaction -> result Reaction) :
  (∀ r r', f r = Ok r' -> rxn_id r' = rxn_id r) ->
  update_reaction m rid f = Ok m' -> rid ≠ id ->
  find_reaction m' id = find_reaction m id.
Proof.
  intros Hf. unfold update_reaction, get_reaction.
  destruct (find_reaction m rid) as [r|] eqn:Hr; cbn; [| done].
  destruct (f r) as [r'|] eqn:Hfr; cbn; [| done].
  intros [= <-] Hne. unfold find_reaction. cbn. apply find_put_ne; [| done].
  rewrite (Hf _ _ Hfr). by apply (find_id _ _ _ Hr).
Qed.

Lemma set_bounds_id (b : float * float) (r r' : Reaction) :
  set_bounds r b = Ok r' -> rxn_id r' = rxn_id r.
Proof. unfold set_bounds. destruct (check_bounds _ _); cbn; [| done]. by intros [= <-]. Qed.

Lemma build_reaction_frame (m m' : Model) (rid a p id : string) (ar : arrow) :
  build_reaction_from_string m rid a ar p = Ok m' -> rid ≠ id ->
  find_reaction m' id = find_reaction m id.
Proof.
  unfold build_reaction_from_string, get_reaction.
  destruct (find_reaction m rid) as [r|] eqn:Hr; cbn; [| done].
  destruct (set_bounds r _) as [r1|] eqn:Hb; cbn; [| done].
  destruct (reaction_add_metabolites _ rid _) as [m1|] eqn:H1; cbn; [| done].
  destruct (reaction_add_metabolites m1 rid _) as [m2|] eqn:H2; cbn; [| done].
  intros H3 Hne.
  rewrite (reaction_add_metabolites_frame _ _ _ _ _ H3 Hne).
  rewrite (reaction_add_metabolites_frame _ _ _ _ _ H2 Hne).
  rewrite (reaction_add_metabolites_frame _ _ _ _ _ H1 Hne).
  unfold find_reaction. cbn. apply find_put_ne; [| done].
  rewrite (set_bounds_id _ _ _ Hb). by apply (find_id _ _ _ Hr).
Qed.

Lemma create_rxn_spec (id name sub : string) (bounds : float * float) (r : Reaction) :
  create_rxn id name sub bounds = Ok r ->
  r = mk_Reaction id name sub
        (if PrimFloat.ltb bounds.2 bounds.1 then bounds.2 else bounds.1) bounds.2 [].
Proof. rewrite create_rxn_eq. by intros [= <-]. Qed.

Lemma add_exchange_frame (base_name : string) (em : gset string) (m m' : Model)
    (bounds : float * float) (comp label id : string) :
  _add_exchange_reaction base_name em m bounds comp label = Ok m' ->
  "EX_" ++ base_name ++ "[" ++ comp ++ "]" ≠ id ->
  find_reaction m' id = find_reaction m id.
Proof.
  unfold _add_exchange_reaction. case_bool_decide as Hem; [by intros [= <-] |].
  destruct (create_rxn _ _ _ _) as [r|] eqn:Hr; cbn; [| done].
  apply create_rxn_spec in Hr as ->.
  destruct (get_metabolite _ _) as [met|]; cbn; [| done].
  intros H Hne. rewrite (reaction_add_metabolites_frame _ _ _ _ _ H Hne).
  by apply add_reactions_frame.
Qed.

Lemma add_transport_frame (rid : string) (er : gset string) (m m' : Model)
    (a p : string) (bounds : float * float) (label id : string) :
  _add_transport_reaction rid er m a p bounds label = Ok m' ->
  rid ≠ id -> find_reaction m' id = find_reaction m id.
Proof.
  unfold _add_transport_reaction. case_bool_decide as Her; [by intros [= <-] |].
  destruct (create_rxn _ _ _ _) as [r|] eqn:Hr; cbn; [| done].
  apply create_rxn_spec in Hr as ->.
  destruct (has_reaction m rid); [done |].
  destruct (build_reaction_from_string _ _ _ _ _) as [m1|] eqn:H1; cbn; [| done].
  intros H Hne.
  rewrite (update_reaction_frame _ _ _ _ _ (set_bounds_id bounds) H Hne).
  rewrite (build_reaction_frame _ _ _ _ _ _ _ H1 Hne).
  by apply add_reactions_frame.
Qed.

Lemma diet_fecal_step_frame (em er : gset string) (m m' : Model) (lumen_met id : string) :
  diet_fecal_step em er m lumen_met = Ok m' ->
  id ∉ diet_fecal_ids (Str.split_head lumen_met "[") ->
  find_reaction m' id = find_reaction m id.
Proof.
  unfold diet_fecal_step, diet_fecal_ids.
  set (b := Str.split_head lumen_met "[").
  destruct (_add_exchange_reaction b em m _ "d" _) as [m1|] eqn:H1; cbn; [| done].
  destruct (_add_transport_reaction (_ ++ b) er m1 _ _ _ _) as [m2|] eqn:H2; cbn; [| done].
  destruct (_add_exchange_reaction b em m2 _ "fe" _) as [m3|] eqn:H3; cbn; [| done].
  intros H4 Hid.
  rewrite !not_elem_of_cons in Hid. destruct Hid as (Hd & Hdu & Hfe & Huf & _).
  rewrite (add_transport_frame _ _ _ _ _ _ _ _ _ H4) by done.
  rewrite (add_exchange_frame _ _ _ _ _ _ _ _ H3) by done.
  rewrite (add_transport_frame _ _ _ _ _ _ _ _ _ H2) by done.
  by rewrite (add_exchange_frame _ _ _ _ _ _ _ _ H1).
Qed.

(** ** The ids of the diet and fecal reactions *)

Lemma fe_ne_d (x y : string) : x ++ "[d]" ≠ y ++ "[fe]".
Proof.
  change "[d]" with ("[" ++ "d]"). change "[fe]" with ("[f" ++ "e]").
  rewrite <- !string_app_assoc. by apply app_suffix_ne.
Qed.

Lemma diet_fecal_ids_nodup (b : string) : NoDup (diet_fecal_ids b).
Proof.
  unfold diet_fecal_ids.
  repeat (apply NoDup_cons_2; [rewrite ?not_elem_of_cons; repeat split |]).
  all: try apply not_elem_of_nil; try apply NoDup_nil_2.
  all: rewrite ?str_app_cons; try (by intros [=]).
  intros [= H]. rewrite !str_app_nil in H. by apply fe_ne_d in H.
Qed.

Lemma diet_fecal_ids_disjoint (b b' id : string) :
  b ≠ b' -> id ∈ diet_fecal_ids b -> id ∉ diet_fecal_ids b'.
Proof.
  intros Hne Hin Hin'. unfold diet_fecal_ids in *. rewrite !elem_of_cons in Hin, Hin'.
  destruct Hin as [-> | [-> | [-> | [-> | Hin]]]]; [| | | | by apply elem_of_nil in Hin].
  all: destruct Hin' as [H | [H | [H | [H | H]]]]; [| | | | by apply elem_of_nil in H].
  all: rewrite ?str_app_cons in H; try discriminate H.
  all: injection H as H; rewrite ?str_app_nil in H.
  all: first [ by apply fe_ne_d in H
             | by (symmetry in H; apply fe_ne_d in H)
             | by (apply app_inj_r in H; congruence)
             | congruence ].
Qed.

Lemma lumen_not_suffixed (sfx l : string) :
  Str.contains sfx "[u]" = false -> Str.contains l "[u]" = true ->
  Str.split_head l "[" ++ sfx ≠ l.
Proof.
  intros Hsfx. induction l as [|c l IH]; [done |].
  cbn [Str.split_head Str.contains].
  destruct (Ascii.eqb_spec c "[") as [->|Hc].
  - intros Hl Heq. rewrite str_app_nil in Heq. rewrite Heq in Hsfx.
    cbn [Str.contains] in Hsfx. congruence.
  - rewrite prefix_cons. destruct (ascii_dec "[" c) as [<-|_]; [done |].
    cbn [orb]. intros Hl. rewrite str_app_cons. intros [= Heq]. by apply IH.
Qed.

(** ** The diet and fecal compartments *)

Lemma snapshot_metabolites (m : Model) (id : string) :
  id ∈ (list_to_set (met_id <$> metabolites m) : gset string)
  ↔ has_metabolite m id = true.
Proof.
  rewrite elem_of_list_to_set, list_elem_of_fmap. unfold has_metabolite.
  rewrite existsb_exists. split.
  - intros (x & -> & Hin). exists x. by rewrite <- list_elem_of_In, String.eqb_refl.
  - intros (x & Hin & Heq%String.eqb_eq). exists x. by rewrite list_elem_of_In.
Qed.

Lemma snapshot_reactions (m : Model) (id : string) :
  id ∈ (list_to_set (rxn_id <$> reactions m) : gset string)
  ↔ has_reaction m id = true.
Proof.
  rewrite elem_of_list_to_set, list_elem_of_fmap. unfold has_reaction.
  rewrite existsb_exists. split.
  - intros (x & -> & Hin). exists x. by rewrite <- list_elem_of_In, String.eqb_refl.
  - intros (x & Hin & Heq%String.eqb_eq). exists x. by rewrite list_elem_of_In.
Qed.

Lemma has_reaction_none (m : Model) (id : string) :
  has_reaction m id = false ↔ find_reaction m id = None.
Proof.
  unfold has_reaction, find_reaction. induction (reactions m) as [|x rs IH]; cbn; [done |].
  destruct (String.eqb (rxn_id x) id); [done | apply IH].
Qed.

Lemma put_single (r x : Reaction) (id : string) :
  rxn_id r = id -> put_reaction [r] id x = [x].
Proof. intros <-. cbn. by rewrite String.eqb_refl. Qed.

Lemma find_single (r : Reaction) (id : string) :
  rxn_id r = id -> List.find (fun r => String.eqb (rxn_id r) id) [r] = Some r.
Proof. intros <-. cbn. by rewrite String.eqb_refl. Qed.

Lemma add_exchange_effect (b : string) (em : gset string) (m m' : Model)
    (comp label : string) :
  _add_exchange_reaction b em m EXCHANGE_BOUNDS comp label = Ok m' ->
  b ++ "[" ++ comp ++ "]" ∉ em ->
  has_reaction m ("EX_" ++ b ++ "[" ++ comp ++ "]") = false ->
  find_reaction m' ("EX_" ++ b ++ "[" ++ comp ++ "]")
  = Some (mk_Reaction ("EX_" ++ b ++ "[" ++ comp ++ "]")
            ((b ++ "[" ++ comp ++ "]") ++ " " ++ label ++ " exchange") " "
            (-1000)%float 10000%float [(b ++ "[" ++ comp ++ "]", (-1)%float)]).
Proof.
  unfold _add_exchange_reaction. intros H Hem Hfresh.
  rewrite bool_decide_eq_false_2 in H by done.
  set (mid := b ++ "[" ++ comp ++ "]") in *.
  destruct (create_rxn _ _ _ _) as [r|] eqn:Hr; cbn in H; [| done].
  apply create_rxn_spec in Hr as ->. cbn [fst snd EXCHANGE_BOUNDS] in H.
  apply has_reaction_false in Hfresh.
  rewrite add_reactions_fresh in H by done.
  set (r0 := mk_Reaction _ _ _ _ _ _) in *.
  match type of H with
  | context [get_metabolite (add_metabolites ?mm [?x]) _] =>
      destruct (get_added_metabolite mm x) as (met & Hget & Hmet);
      cbn [met_id] in Hget, Hmet; rewrite Hget in H; clear Hget;
      set (m1 := add_metabolites mm [x]) in *
  end.
  cbn [mbind result_bind] in H.
  destruct (reaction_add_object_at m1 ("EX_" ++ mid) met (-1)%float (reactions m)
              [r0] r0 eq_refl Hfresh) as [ms Hm']; [| done |].
  { by apply find_single. }
  rewrite put_single in Hm' by done.
  rewrite Hm' in H. injection H as <-.
  unfold find_reaction. cbn [reactions]. rewrite find_app_fresh by done.
  rewrite find_single by done. by rewrite Hmet.
Qed.

Lemma add_transport_effect (rid : string) (er : gset string) (m m' : Model)
    (a p label : string) :
  _add_transport_reaction rid er m a p TRANSPORT_BOUNDS label = Ok m' ->
  rid ∉ er -> a ≠ p ->
  find_reaction m' rid
  = Some (mk_Reaction rid (rid ++ " " ++ label ++ " transport") " "
            0%float 10000%float [(a, (-1)%float); (p, 1%float)]).
Proof.
  unfold _add_transport_reaction. intros H Her Hne.
  rewrite bool_decide_eq_false_2 in H by done.
  destruct (create_rxn _ _ _ _) as [r|] eqn:Hr; cbn in H; [| done].
  apply create_rxn_spec in Hr as ->. cbn [fst snd TRANSPORT_BOUNDS] in H.
  destruct (has_reaction m rid) eqn:Hfresh; [done |].
  apply has_reaction_false in Hfresh.
  rewrite add_reactions_fresh in H by done.
  set (r0 := mk_Reaction _ _ _ _ _ _) in *.
  match type of H with
  | context [build_reaction_from_string ?mm _ _ _ _] =>
      destruct (build_reaction_at mm rid a p Forward (reactions m) [r0] r0 eq_refl Hfresh)
        as [ms Hb]; [| done | done |]
  end.
  { by apply find_single. }
  rewrite Hb in H. cbn [mbind result_bind] in H.
  rewrite put_single in H by done.
  erewrite (update_reaction_at _ rid _ (reactions m)) in H;
    [| reflexivity | done | by apply find_single | reflexivity].
  rewrite put_single in H by done. injection H as <-.
  unfold find_reaction. cbn [reactions]. rewrite find_app_fresh by done.
  by apply find_single.
Qed.

Lemma general_mets_lumen (m : Model) (l : string) :
  l ∈ general_mets m -> Str.contains l "[u]" = true.
Proof.
  unfold general_mets. rewrite elem_of_list_to_set, list_elem_of_In, in_flat_map.
  intros (reac & _ & Hin). destruct (Str.contains (rxn_id reac) "IEX"); [| done].
  by apply filter_In in Hin as [_ ?].
Qed.

Lemma diet_fecal_loop_frame (em er : gset string) (l : list string) (m m' : Model)
    (id : string) :
  foldlM (diet_fecal_step em er) m l = Ok m' ->
  (∀ other, other ∈ l -> id ∉ diet_fecal_ids (Str.split_head other "[")) ->
  find_reaction m' id = find_reaction m id.
Proof.
  revert m. induction l as [|x l IH]; intros m; cbn; [by intros [= <-] |].
  destruct (diet_fecal_step em er m x) as [m1|] eqn:H1; cbn; [| done].
  intros H Hl. rewrite (IH m1 H) by (intros; apply Hl; by right).
  apply (diet_fecal_step_frame _ _ _ _ _ _ H1). apply Hl. by left.
Qed.

Lemma diet_fecal_step_effect (em er : gset string) (m m' : Model) (l : string) :
  let b := Str.split_head l "[" in
  diet_fecal_step em er m l = Ok m' -> Str.contains l "[u]" = true ->
  (b ++ "[d]" ∉ em -> has_reaction m ("EX_" ++ b ++ "[d]") = false ->
   find_reaction m' ("EX_" ++ b ++ "[d]")
   = Some (mk_Reaction ("EX_" ++ b ++ "[d]") ((b ++ "[d]") ++ " diet exchange") " "
             (-1000)%float 10000%float [(b ++ "[d]", (-1)%float)]))
  ∧ (b ++ "[d]" ∈ em ->
     find_reaction m' ("EX_" ++ b ++ "[d]") = find_reaction m ("EX_" ++ b ++ "[d]"))
  ∧ ("DUt_" ++ b ∉ er ->
     find_reaction m' ("DUt_" ++ b)
     = Some (mk_Reaction ("DUt_" ++ b) (("DUt_" ++ b) ++ " diet to lumen transport") " "
               0%float 10000%float [(b ++ "[d]", (-1)%float); (l, 1%float)]))
  ∧ ("DUt_" ++ b ∈ er -> find_reaction m' ("DUt_" ++ b) = find_reaction m ("DUt_" ++ b))
  ∧ (b ++ "[fe]" ∉ em -> has_reaction m ("EX_" ++ b ++ "[fe]") = false ->
     find_reaction m' ("EX_" ++ b ++ "[fe]")
     = Some (mk_Reaction ("EX_" ++ b ++ "[fe]") ((b ++ "[fe]") ++ " fecal exchange") " "
               (-1000)%float 10000%float [(b ++ "[fe]", (-1)%float)]))
  ∧ (b ++ "[fe]" ∈ em ->
     find_reaction m' ("EX_" ++ b ++ "[fe]") = find_reaction m ("EX_" ++ b ++ "[fe]"))
  ∧ ("UFEt_" ++ b ∉ er ->
     find_reaction m' ("UFEt_" ++ b)
     = Some (mk_Reaction ("UFEt_" ++ b) (("UFEt_" ++ b) ++ " lumen to fecal transport") " "
               0%float 10000%float [(l, (-1)%float); (b ++ "[fe]", 1%float)]))
  ∧ ("UFEt_" ++ b ∈ er -> find_reaction m' ("UFEt_" ++ b) = find_reaction m ("UFEt_" ++ b)).
Proof.
  intros b. unfold diet_fecal_step. fold b.
  destruct (_add_exchange_reaction b em m _ "d" _) as [m1|] eqn:H1; cbn; [| done].
  destruct (_add_transport_reaction (_ ++ b) er m1 _ _ _ _) as [m2|] eqn:H2; cbn; [| done].
  destruct (_add_exchange_reaction b em m2 _ "fe" _) as [m3|] eqn:H3; cbn; [| done].
  intros H4 Hl.
  pose proof (diet_fecal_ids_nodup b) as Hnd. unfold diet_fecal_ids in Hnd.
  apply NoDup_cons in Hnd as [Hd Hnd]. apply NoDup_cons in Hnd as [Hdu Hnd].
  apply NoDup_cons in Hnd as [Hfe _].
  repeat setoid_rewrite not_elem_of_cons in Hd.
  repeat setoid_rewrite not_elem_of_cons in Hdu.
  repeat setoid_rewrite not_elem_of_cons in Hfe.
  destruct Hd as (Hd1 & Hd2 & Hd3 & _), Hdu as (Hdu1 & Hdu2 & _), Hfe as (Hfe1 & _).
  assert (Hf1 : ∀ id, "EX_" ++ b ++ "[d]" ≠ id -> find_reaction m1 id = find_reaction m id).
  { intros id Hid. by apply (add_exchange_frame _ _ _ _ _ _ _ _ H1). }
  assert (Hf2 : ∀ id, "DUt_" ++ b ≠ id -> find_reaction m2 id = find_reaction m1 id).
  { intros id Hid. by apply (add_transport_frame _ _ _ _ _ _ _ _ _ H2). }
  assert (Hf3 : ∀ id, "EX_" ++ b ++ "[fe]" ≠ id -> find_reaction m3 id = find_reaction m2 id).
  { intros id Hid. by apply (add_exchange_frame _ _ _ _ _ _ _ _ H3). }
  assert (Hf4 : ∀ id, "UFEt_" ++ b ≠ id -> find_reaction m' id = find_reaction m3 id).
  { intros id Hid. by apply (add_transport_frame _ _ _ _ _ _ _ _ _ H4). }
  split_and!.
  - intros Hem Hfresh. rewrite Hf4, Hf3, Hf2 by done.
    by apply (add_exchange_effect b em m m1 "d" "diet").
  - intros Hem. rewrite Hf4, Hf3, Hf2 by done.
    unfold _add_exchange_reaction in H1. rewrite bool_decide_eq_true_2 in H1 by done.
    by injection H1 as <-.
  - intros Her. rewrite Hf4, Hf3 by done.
    apply (add_transport_effect _ er m1 m2 _ _ _ H2 Her).
    by apply lumen_not_suffixed.
  - intros Her. rewrite Hf4, Hf3 by done.
    unfold _add_transport_reaction in H2. rewrite bool_decide_eq_true_2 in H2 by done.
    injection H2 as <-. by apply Hf1.
  - intros Hem Hfresh. rewrite Hf4 by done.
    apply (add_exchange_effect b em m2 m3 "fe" "fecal" H3 Hem).
    apply has_reaction_none. rewrite Hf2, Hf1 by done. by apply has_reaction_none.
  - intros Hem. rewrite Hf4 by done.
    unfold _add_exchange_reaction in H3. rewrite bool_decide_eq_true_2 in H3 by done.
    injection H3 as <-. rewrite Hf2, Hf1; done.
  - intros Her.
    apply (add_transport_effect _ er m3 m' _ _ _ H4 Her).
    intros Heq. symmetry in Heq. revert Heq. by apply lumen_not_suffixed.
  - intros Her.
    unfold _add_transport_reaction in H4. rewrite bool_decide_eq_true_2 in H4 by done.
    injection H4 as <-. rewrite Hf3, Hf2, Hf1; done.
Qed.

(** C8 (as stated, refuted). A network that already holds the metabolite
    [b[d]], but no reaction [EX_b[d]], gets no diet exchange: the test that
    guards the exchange is on the metabolite id. *)
Lemma diet_exchange_not_added :
  let model :=
    mk_Model
      [mk_Reaction "Org1_IEX_b[u]tr" "Org1_IEX" " " (-1000)%float 1000%float
         [("b[u]", (-1)%float); ("Org1_b[u]", 1%float)]]
      [mk_Metabolite "Org1_b[u]" (Some "u") "" ""; mk_Metabolite "b[u]" (Some "u") "b" "";
       mk_Metabolite "b[d]" (Some "d") "" ""] in
  "b[u]" ∈ general_mets model
  ∧ ∃ model', add_diet_fecal_compartments model = Ok model'
              ∧ has_reaction model' "EX_b[d]" = false
              ∧ has_reaction model' "DUt_b" = true.
Proof.
  intros model. split.
  - apply (bool_decide_unpack _). vm_compute. exact I.
  - eexists. vm_compute. done.
Qed.

(** C8 (amended). For a general lumen metabolite [l] that is a reactant of
    an [IEX] reaction, [base] being what precedes its first bracket and no
    other general lumen metabolite having that base: when the function
    returns, the network holds [EX_base[d]] with bounds [(-1000, 10000)] on
    [base[d]] if neither that metabolite nor that reaction was there, [DUt_base]
    from [base[d]] to [l] with bounds [(0, 10000)] if no reaction of that id
    was there, and likewise [EX_base[fe]] and [UFEt_base] from [l] to
    [base[fe]]; an exchange whose metabolite was there and a transport whose
    id was there are left as they were. *)
Theorem diet_fecal_reactions (model model' : Model) (lumen_met : string) :
  let cleaned := remove_reactions model exchange_artifact in
  let base := Str.split_head lumen_met "[" in
  add_diet_fecal_compartments model = Ok model' ->
  lumen_met ∈ general_mets cleaned ->
  (∀ other, other ∈ general_mets cleaned ->
            Str.split_head other "[" = base -> other = lumen_met) ->
  (has_metabolite cleaned (base ++ "[d]") = false ->
   has_reaction cleaned ("EX_" ++ base ++ "[d]") = false ->
   find_reaction model' ("EX_" ++ base ++ "[d]")
   = Some (mk_Reaction ("EX_" ++ base ++ "[d]") ((base ++ "[d]") ++ " diet exchange") " "
             (-1000)%float 10000%float [(base ++ "[d]", (-1)%float)]))
  ∧ (has_metabolite cleaned (base ++ "[d]") = true ->
     find_reaction model' ("EX_" ++ base ++ "[d]")
     = find_reaction cleaned ("EX_" ++ base ++ "[d]"))
  ∧ (has_reaction cleaned ("DUt_" ++ base) = false ->
     find_reaction model' ("DUt_" ++ base)
     = Some (mk_Reaction ("DUt_" ++ base) (("DUt_" ++ base) ++ " diet to lumen transport")
               " " 0%float 10000%float [(base ++ "[d]", (-1)%float); (lumen_met, 1%float)]))
  ∧ (has_reaction cleaned ("DUt_" ++ base) = true ->
     find_reaction model' ("DUt_" ++ base) = find_reaction cleaned ("DUt_" ++ base))
  ∧ (has_metabolite cleaned (base ++ "[fe]") = false ->
     has_reaction cleaned ("EX_" ++ base ++ "[fe]") = false ->
     find_reaction model' ("EX_" ++ base ++ "[fe]")
     = Some (mk_Reaction ("EX_" ++ base ++ "[fe]") ((base ++ "[fe]") ++ " fecal exchange")
               " " (-1000)%float 10000%float [(base ++ "[fe]", (-1)%float)]))
  ∧ (has_metabolite cleaned (base ++ "[fe]") = true ->
     find_reaction model' ("EX_" ++ base ++ "[fe]")
     = find_reaction cleaned ("EX_" ++ base ++ "[fe]"))
  ∧ (has_reaction cleaned ("UFEt_" ++ base) = false ->
     find_reaction model' ("UFEt_" ++ base)
     = Some (mk_Reaction ("UFEt_" ++ base) (("UFEt_" ++ base) ++ " lumen to fecal transport")
               " " 0%float 10000%float [(lumen_met, (-1)%float); (base ++ "[fe]", 1%float)]))
  ∧ (has_reaction cleaned ("UFEt_" ++ base) = true ->
     find_reaction model' ("UFEt_" ++ base) = find_reaction cleaned ("UFEt_" ++ base)).
Proof.
  intros cleaned base. unfold add_diet_fecal_compartments. fold cleaned.
  set (em := list_to_set (met_id <$> metabolites cleaned) : gset string).
  set (er := list_to_set (rxn_id <$> reactions cleaned) : gset string).
  intros Hloop Hin Huniq.
  pose proof (general_mets_lumen _ _ Hin) as Hlumen.
  pose proof (NoDup_elements (general_mets cleaned)) as Hnd.
  apply elem_of_elements, list_elem_of_split in Hin as (l1 & l2 & Hsplit).
  rewrite Hsplit in Hloop, Hnd. rewrite foldlM_app in Hloop. cbn [foldlM] in Hloop.
  destruct (foldlM _ cleaned l1) as [ma|] eqn:Ha; cbn [mbind result_bind] in Hloop; [| done].
  destruct (diet_fecal_step em er ma lumen_met) as [mb|] eqn:Hb;
    cbn [mbind result_bind] in Hloop; [| done].
  apply NoDup_app in Hnd as (_ & Hl1 & [Hl2 _]%NoDup_cons).
  assert (Hother : ∀ other id, other ∈ (l1 ++ l2)%list -> id ∈ diet_fecal_ids base ->
                     id ∉ diet_fecal_ids (Str.split_head other "[")).
  { intros other id Ho Hid. apply (diet_fecal_ids_disjoint base); [| done].
    intros Heq. assert (other = lumen_met) as ->.
    { apply Huniq; [| done]. apply elem_of_elements. rewrite Hsplit.
      apply elem_of_app in Ho as [?|?]; apply elem_of_app; [by left | right; by right]. }
    apply elem_of_app in Ho as [Ho|Ho]; [by apply (Hl1 lumen_met Ho); left | done]. }
  assert (Hpre : ∀ id, id ∈ diet_fecal_ids base -> find_reaction ma id = find_reaction cleaned id).
  { intros id Hid. apply (diet_fecal_loop_frame em er l1); [done |].
    intros other Ho. apply Hother; [apply elem_of_app; by left | done]. }
  assert (Hpost : ∀ id, id ∈ diet_fecal_ids base -> find_reaction model' id = find_reaction mb id).
  { intros id Hid. apply (diet_fecal_loop_frame em er l2); [done |].
    intros other Ho. apply Hother; [apply elem_of_app; by right | done]. }
  assert (Hids : ∀ id, id ∈ diet_fecal_ids base ->
                   has_reaction ma id = has_reaction cleaned id).
  { intros id Hid. destruct (has_reaction cleaned id) eqn:Hc.
    - apply has_reaction_find in Hc as [r Hr]. rewrite <- Hpre in Hr by done.
      apply not_false_iff_true. intros Hf%has_reaction_none. congruence.
    - apply has_reaction_none. rewrite Hpre by done. by apply has_reaction_none. }
  destruct (diet_fecal_step_effect em er ma mb lumen_met Hb Hlumen)
    as (E1 & E2 & E3 & E4 & E5 & E6 & E7 & E8). fold base in E1, E2, E3, E4, E5, E6, E7, E8.
  assert (Hem : ∀ id, has_metabolite cleaned id = false -> id ∉ em).
  { intros id Hf Hi%snapshot_metabolites. congruence. }
  assert (Her : ∀ id, has_reaction cleaned id = false -> id ∉ er).
  { intros id Hf Hi%snapshot_reactions. congruence. }
  unfold diet_fecal_ids in Hpre, Hpost, Hids.
  split_and!.
  - intros Hm Hr. rewrite Hpost by set_solver. apply E1; [by apply Hem |].
    rewrite Hids by set_solver. done.
  - intros Hm. rewrite Hpost, <- Hpre by set_solver. apply E2. by apply snapshot_metabolites.
  - intros Hr. rewrite Hpost by set_solver. apply E3. by apply Her.
  - intros Hr. rewrite Hpost, <- Hpre by set_solver. apply E4. by apply snapshot_reactions.
  - intros Hm Hr. rewrite Hpost by set_solver. apply E5; [by apply Hem |].
    rewrite Hids by set_solver. done.
  - intros Hm. rewrite Hpost, <- Hpre by set_solver. apply E6. by apply snapshot_metabolites.
  - intros Hr. rewrite Hpost by set_solver. apply E7. by apply Her.
  - intros Hr. rewrite Hpost, <- Hpre by set_solver. apply E8. by apply snapshot_reactions.
Qed.

Lemma diet_fecal_reactions_witness :
  let model :=
    mk_Model
      [mk_Reaction "Org1_R1" "" "" 0%float 1000%float
         [("Org1_a[c]", (-1)%float); ("Org1_b[u]", 1%float)];
       mk_Reaction "Org1_IEX_b[u]tr" "Org1_IEX" " " (-1000)%float 1000%float
         [("b[u]", (-1)%float); ("Org1_b[u]", 1%float)]]
      [mk_Metabolite "Org1_a[c]" (Some "c") "" ""; mk_Metabolite "Org1_b[u]" (Some "u") "" "";
       mk_Metabolite "b[u]" (Some "u") "b" ""] in
  ∃ model',
    add_diet_fecal_compartments model = Ok model'
    ∧ "b[u]" ∈ general_mets (remove_reactions model exchange_artifact)
    ∧ find_reaction model' "EX_b[d]"
      = Some (mk_Reaction "EX_b[d]" "b[d] diet exchange" " " (-1000)%float 10000%float
                [("b[d]", (-1)%float)])
    ∧ find_reaction model' "DUt_b"
      = Some (mk_Reaction "DUt_b" "DUt_b diet to lumen transport" " " 0%float 10000%float
                [("b[d]", (-1)%float); ("b[u]", 1%float)])
    ∧ find_reaction model' "EX_b[fe]"
      = Some (mk_Reaction "EX_b[fe]" "b[fe] fecal exchange" " " (-1000)%float 10000%float
                [("b[fe]", (-1)%float)])
    ∧ find_reaction model' "UFEt_b"
      = Some (mk_Reaction "UFEt_b" "UFEt_b lumen to fecal transport" " " 0%float 10000%float
                [("b[u]", (-1)%float); ("b[fe]", 1%float)]).
Proof.
  intros model.
  assert (H : ∃ model', add_diet_fecal_compartments model = Ok model').
  { eexists. vm_compute. reflexivity. }
  destruct H as [model' H]. exists model'.
  assert (HG : general_mets (remove_reactions model exchange_artifact) = {["b[u]"]}).
  { apply (bool_decide_unpack _). vm_compute. exact I. }
  assert (Hin : "b[u]" ∈ general_mets (remove_reactions model exchange_artifact)).
  { rewrite HG. by apply elem_of_singleton. }
  destruct (diet_fecal_reactions model model' "b[u]" H Hin)
    as (E1 & _ & E3 & _ & E5 & _ & E7 & _).
  { intros other Ho _. rewrite HG in Ho. by apply elem_of_singleton in Ho. }
  split_and!; [exact H | exact Hin | | | |].
  - apply E1; reflexivity.
  - apply E3; reflexivity.
  - apply E5; reflexivity.
  - apply E7; reflexivity.
Defined.
(** ** Tagging *)

Lemma settled_step2 (name met : string) (m : Model) :
  settled name met -> tag_reaction_metabolite name m met = Ok m.
Proof.
  unfold settled, tag_reaction_metabolite.
  destruct (Str.contains met "[c]"), (Str.contains met "[p]"), (Str.contains met "[e]"),
    (Str.contains met name); cbn; done.
Qed.

Lemma settled_fold (name : string) (ids : list string) (m : Model) :
  Forall (settled name) ids -> foldlM (tag_reaction_metabolite name) m ids = Ok m.
Proof.
  induction 1 as [|id ids Hid _ IH]; [done |]. cbn. by rewrite settled_step2.
Qed.

Lemma set_reaction_id_keeps (m m' : Model) (i : nat) (new : string) :
  set_reaction_id m i new = Ok m' ->
  metabolites m' = metabolites m
  ∧ rxn_metabolites <$> reactions m' = rxn_metabolites <$> reactions m.
Proof.
  unfold set_reaction_id. destruct (reactions m !! i) as [r|] eqn:Hi; [| by intros [= <-]].
  destruct (String.eqb new (rxn_id r)); [by intros [= <-] |].
  destruct (has_reaction m new); [done |]. intros [= <-]. split; [done |]. cbn.
  rewrite list_fmap_insert. cbn. apply list_insert_id. by rewrite list_lookup_fmap, Hi.
Qed.

Lemma tagged_stoich (name : string) (m : Model) (i : nat) (r : Reaction) :
  tagged name m -> reactions m !! i = Some r -> Forall (settled name) (rxn_metabolites r).*1.
Proof.
  intros [_ Hr] Hi. rewrite Forall_forall in Hr.
  apply Forall_fmap. apply (Hr r). by apply list_elem_of_lookup_2 in Hi.
Qed.

Lemma tagged_ext (name : string) (m m' : Model) :
  metabolites m' = metabolites m ->
  rxn_metabolites <$> reactions m' = rxn_metabolites <$> reactions m ->
  tagged name m -> tagged name m'.
Proof.
  intros Hm Hr [H1 H2]. split; [by rewrite Hm |].
  apply (Forall_fmap rxn_metabolites (fun s => Forall (fun e => settled name e.1) s)).
  rewrite Hr. by apply Forall_fmap.
Qed.

Lemma tag_reaction_keeps (name : string) (m m' : Model) (i : nat) :
  tagged name m -> tag_reaction name m i = Ok m' ->
  metabolites m' = metabolites m
  ∧ rxn_metabolites <$> reactions m' = rxn_metabolites <$> reactions m.
Proof.
  intros Ht. unfold tag_reaction.
  destruct (reactions m !! i) as [r|] eqn:Hi; [| by intros [= <-]].
  destruct (_ || _); [| by intros [= <-]].
  destruct (set_reaction_id m i _) as [m1|] eqn:H1; cbn; [| done].
  rewrite settled_fold by (by apply (tagged_stoich name m i)).
  intros [= <-]. by apply set_reaction_id_keeps in H1.
Qed.

Lemma tag_loop_keeps (name : string) (l : list nat) (m m' : Model) :
  tagged name m -> foldlM (tag_reaction name) m l = Ok m' ->
  metabolites m' = metabolites m
  ∧ rxn_metabolites <$> reactions m' = rxn_metabolites <$> reactions m.
Proof.
  revert m. induction l as [|i l IH]; intros m Ht; cbn [foldlM]; [by intros [= <-] |].
  destruct (tag_reaction name m i) as [m1|] eqn:H1; cbn [mbind result_bind]; [| done].
  apply (tag_reaction_keeps _ _ _ _ Ht) in H1 as [Hm Hr].
  intros [Hm' Hr']%IH; [| by apply (tagged_ext name m)]. split; congruence.
Qed.

(** The operations that add to a network keep the metabolites it has, in
    place. *)
Lemma add_metabolites_prefix (m : Model) (l : list Metabolite) :
  metabolites m `prefix_of` metabolites (add_metabolites m l).
Proof. cbn. by apply prefix_app_r. Qed.

Lemma reaction_add_metabolites_prefix (m m' : Model) (rid : string)
    (d : list (met_key * float)) :
  reaction_add_metabolites m rid d = Ok m' -> metabolites m `prefix_of` metabolites m'.
Proof.
  unfold reaction_add_metabolites.
  destruct (get_reaction m rid) as [r|]; cbn; [| done].
  destruct (foldlM _ _ d) as [st|]; cbn; [| done].
  intros [= <-]. cbn. by apply prefix_app_r.
Qed.

Lemma build_reaction_prefix (m m' : Model) (rid a p : string) (ar : arrow) :
  build_reaction_from_string m rid a ar p = Ok m' -> metabolites m `prefix_of` metabolites m'.
Proof.
  unfold build_reaction_from_string.
  destruct (get_reaction m rid) as [r|]; cbn; [| done].
  destruct (set_bounds r _) as [r1|]; cbn; [| done].
  destruct (reaction_add_metabolites _ rid _) as [m1|] eqn:H1; cbn; [| done].
  destruct (reaction_add_metabolites m1 rid _) as [m2|] eqn:H2; cbn; [| done].
  intros H3.
  apply reaction_add_metabolites_prefix in H1, H2, H3. cbn in H1.
  by etrans; [etrans |].
Qed.

Lemma update_reaction_metabolites (m m' : Model) (rid : string)
    (f : Reaction -> result Reaction) :
  update_reaction m rid f = Ok m' -> metabolites m' = metabolites m.
Proof.
  unfold update_reaction.
  destruct (get_reaction m rid) as [r|]; cbn; [| done].
  destruct (f r); cbn; [| done]. by intros [= <-].
Qed.

Lemma add_reactions_metabolites (m : Model) (r : Reaction) :
  metabolites (add_reactions m r) = metabolites m.
Proof. unfold add_reactions. by destruct (has_reaction m _). Qed.

Lemma iex_step_prefix (name : string) (m m' : Model) (met : string) :
  iex_step name m met = Ok m' -> metabolites m `prefix_of` metabolites m'.
Proof.
  unfold iex_step.
  set (g := Str.replace met _ _).
  set (m1 := if has_metabolite m g then m else _).
  assert (H1 : metabolites m `prefix_of` metabolites m1).
  { subst m1. destruct (has_metabolite m g); [done | apply add_metabolites_prefix]. }
  destruct (create_rxn _ _ _ _) as [r|]; cbn; [| done].
  destruct (has_reaction m1 _); [done |].
  destruct (build_reaction_from_string _ _ _ _ _) as [m2|] eqn:H2; cbn; [| done].
  intros H3%update_reaction_metabolites. apply build_reaction_prefix in H2.
  rewrite add_reactions_metabolites in H2. rewrite H3. by etrans.
Qed.

Lemma iex_loop_prefix (name : string) (l : list string) (m m' : Model) :
  foldlM (iex_step name) m l = Ok m' -> metabolites m `prefix_of` metabolites m'.
Proof.
  revert m. induction l as [|x l IH]; intros m; cbn [foldlM]; [by intros [= <-] |].
  destruct (iex_step name m x) as [m1|] eqn:H1; cbn [mbind result_bind]; [| done].
  intros H%IH. apply iex_step_prefix in H1. by etrans.
Qed.

Lemma finalize_reactions_metabolites (name : string) (l : list nat) (m m' : Model) :
  foldlM (finalize_reaction name) m l = Ok m' -> metabolites m' = metabolites m.
Proof.
  revert m. induction l as [|i l IH]; intros m; cbn [foldlM]; [by intros [= <-] |].
  destruct (finalize_reaction name m i) as [m1|] eqn:H1; cbn [mbind result_bind]; [| done].
  intros ->%IH. unfold finalize_reaction in H1.
  destruct (reactions m !! i) as [r|]; [| by injection H1 as <-].
  destruct (Str.startswith _ _); [by injection H1 as <- |].
  by apply set_reaction_id_keeps in H1 as [? _].
Qed.

(** Renaming a metabolite changes the ids equal to the old one only. *)
Lemma rename_metabolite_ids (m m' : Model) (old new c : string) :
  rename_metabolite m old new c = Ok m' ->
  met_id <$> metabolites m'
  = (fun id => if String.eqb id old then new else id) <$> (met_id <$> metabolites m).
Proof.
  unfold rename_metabolite.
  destruct (String.eqb_spec new old) as [->|Hne].
  - intros [= <-]. cbn. rewrite <- !list_fmap_compose. apply list_fmap_ext.
    intros _ x _. cbn. destruct (String.eqb_spec (met_id x) old); by cbn.
  - destruct (has_metabolite m new); [done |]. intros [= <-]. cbn.
    rewrite <- !list_fmap_compose. apply list_fmap_ext.
    intros _ x _. cbn. destruct (String.eqb_spec (met_id x) old); by cbn.
Qed.

Lemma settled_weaken (name id : string) :
  settled name id ->
  (Str.contains id "[c]" || Str.contains id "[p]") && negb (Str.contains id name) = false.
Proof.
  unfold settled.
  destruct (Str.contains id "[c]"), (Str.contains id "[p]"), (Str.contains id "[e]"),
    (Str.contains id name); cbn; done.
Qed.

Lemma finalize_metabolite_ids (name : string) (m m' : Model) (met : string) :
  finalize_metabolite name m met = Ok m' ->
  Forall2 (fun a b => settled name a -> b = a)
    (met_id <$> metabolites m) (met_id <$> metabolites m').
Proof.
  unfold finalize_metabolite.
  destruct ((_ || _) && _) eqn:Hg.
  - unfold tag_metabolite. intros ->%rename_metabolite_ids.
    apply Forall2_fmap_r, Forall_Forall2_diag, Forall_forall. intros a _ Ha.
    destruct (String.eqb_spec a met) as [->|_]; [| done].
    apply settled_weaken in Ha. congruence.
  - intros [= <-]. by apply Forall_Forall2_diag, Forall_forall.
Qed.

Lemma finalize_metabolites_ids (name : string) (l : list string) (m m' : Model) :
  foldlM (finalize_metabolite name) m l = Ok m' ->
  Forall2 (fun a b => settled name a -> b = a)
    (met_id <$> metabolites m) (met_id <$> metabolites m').
Proof.
  revert m. induction l as [|x l IH]; intros m; cbn [foldlM].
  - intros [= <-]. by apply Forall_Forall2_diag, Forall_forall.
  - destruct (finalize_metabolite name m x) as [m1|] eqn:H1; cbn [mbind result_bind]; [| done].
    intros H%IH. apply finalize_metabolite_ids in H1.
    eapply Forall2_trans; [| exact H1 | exact H].
    intros a b c Hab Hbc Ha. rewrite Hbc; rewrite (Hab Ha); done.
Qed.

Lemma settled_unchanged (name : string) (l k : list string) :
  Forall (settled name) l -> Forall2 (fun a b => settled name a -> b = a) l k -> k = l.
Proof.
  intros Hl H. induction H as [|a b l k Hab _ IH]; [done |].
  apply Forall_cons in Hl as [Ha Hl]. by rewrite (Hab Ha), (IH Hl).
Qed.

Lemma with_id_same (r : Reaction) : with_id r (rxn_id r) = r.
Proof. by destruct r. Qed.

Lemma set_reaction_id_at (m m' : Model) (pre rest : list Reaction) (r : Reaction)
    (new : string) :
  reactions m = (pre ++ r :: rest)%list ->
  set_reaction_id m (List.length pre) new = Ok m' ->
  reactions m' = (pre ++ with_id r new :: rest)%list.
Proof.
  intros Hrs. unfold set_reaction_id. rewrite Hrs, list_lookup_middle by done.
  destruct (String.eqb_spec new (rxn_id r)) as [->|_].
  - intros [= <-]. by rewrite with_id_same.
  - destruct (has_reaction m new); [done |]. intros [= <-]. cbn.
    rewrite <- (Nat.add_0_r (List.length pre)), insert_app_r. done.
Qed.

(** What step 2 does to the reaction ids of a tagged network *)
Lemma tag_loop_ids (name : string) (rest pre : list Reaction) (m m' : Model) :
  tagged name m -> reactions m = (pre ++ rest)%list ->
  foldlM (tag_reaction name) m (seq (List.length pre) (List.length rest)) = Ok m' ->
  ∃ rest', reactions m' = (pre ++ rest')%list
           ∧ Forall2 (fun r r' =>
                        r' = if reaction_mentions r "[e]" || reaction_mentions r "[c]"
                             then with_id r (name ++ "_" ++ rxn_id r) else r)
               rest rest'.
Proof.
  revert pre m. induction rest as [|r rest IH]; intros pre m Ht Hrs.
  - cbn. intros [= <-]. exists []. by split.
  - cbn [List.length seq foldlM].
    destruct (tag_reaction name m (List.length pre)) as [m1|] eqn:H1;
      cbn [mbind result_bind]; [| done].
    pose proof (tag_reaction_keeps _ _ _ _ Ht H1) as [Hm Hr].
    assert (Hrs1 : reactions m1
                   = ((pre ++ [if reaction_mentions r "[e]" || reaction_mentions r "[c]"
                               then with_id r (name ++ "_" ++ rxn_id r) else r]) ++ rest)%list).
    { rewrite <- app_assoc. cbn [app]. revert H1. unfold tag_reaction.
      rewrite Hrs, list_lookup_middle by done.
      destruct (_ || _); [| by intros [= <-]].
      destruct (set_reaction_id m _ _) as [m0|] eqn:H0; cbn [mbind result_bind]; [| done].
      rewrite settled_fold.
      - intros [= <-]. by apply (set_reaction_id_at m m0 pre rest r).
      - apply (tagged_stoich name m (List.length pre)); [done |].
        rewrite Hrs. by apply list_lookup_middle. }
    replace (S (List.length pre)) with (List.length (pre ++ [if reaction_mentions r "[e]" || reaction_mentions r "[c]"
                               then with_id r (name ++ "_" ++ rxn_id r) else r])%list)
      by (rewrite length_app; cbn; lia).
    intros (rest' & Hrs' & Hall)%IH; [| by apply (tagged_ext name m) | done].
    eexists (_ :: rest'). split; [by rewrite Hrs', <- app_assoc |]. by constructor.
Qed.

(** Step 3 appends reactions: the ids in place stay. *)
Lemma reaction_add_metabolites_ids (m m' : Model) (rid : string)
    (d : list (met_key * float)) :
  reaction_add_metabolites m rid d = Ok m' -> rxn_id <$> reactions m' = rxn_id <$> reactions m.
Proof.
  unfold reaction_add_metabolites, get_reaction, find_reaction.
  destruct (List.find _ (reactions m)) as [r|] eqn:Hr; cbn; [| done].
  destruct (foldlM _ _ d) as [st|]; cbn; [| done].
  intros [= <-]. cbn. apply put_ids. cbn. by apply find_id in Hr.
Qed.

Lemma update_reaction_ids (m m' : Model) (rid : string) (f : Reaction -> result Reaction) :
  (∀ r r', f r = Ok r' -> rxn_id r' = rxn_id r) ->
  update_reaction m rid f = Ok m' ->
  rxn_id <$> reactions m' = rxn_id <$> reactions m.
Proof.
  intros Hf. unfold update_reaction, get_reaction, find_reaction.
  destruct (List.find _ (reactions m)) as [r|] eqn:Hr; cbn; [| done].
  destruct (f r) as [r'|] eqn:Hb; cbn; [| done].
  intros [= <-]. cbn. apply put_ids.
  apply Hf in Hb. apply find_id in Hr. congruence.
Qed.

Lemma build_reaction_ids (m m' : Model) (rid a p : string) (ar : arrow) :
  build_reaction_from_string m rid a ar p = Ok m' ->
  rxn_id <$> reactions m' = rxn_id <$> reactions m.
Proof.
  unfold build_reaction_from_string, get_reaction, find_reaction.
  destruct (List.find _ (reactions m)) as [r|] eqn:Hr; cbn; [| done].
  destruct (set_bounds r _) as [r1|] eqn:Hb; cbn; [| done].
  destruct (reaction_add_metabolites _ rid _) as [m1|] eqn:H1; cbn; [| done].
  destruct (reaction_add_metabolites m1 rid _) as [m2|] eqn:H2; cbn; [| done].
  intros H3. apply reaction_add_metabolites_ids in H1, H2, H3. cbn in H1.
  rewrite H3, H2, H1. apply put_ids.
  apply set_bounds_id in Hb. apply find_id in Hr. congruence.
Qed.

Lemma iex_step_ids (name : string) (m m' : Model) (met : string) :
  iex_step name m met = Ok m' ->
  (rxn_id <$> reactions m) `prefix_of` (rxn_id <$> reactions m').
Proof.
  unfold iex_step.
  set (g := Str.replace met _ _).
  set (m1 := if has_metabolite m g then m else _).
  assert (H1 : reactions m1 = reactions m) by (subst m1; by destruct (has_metabolite m g)).
  destruct (create_rxn _ _ _ _) as [r|]; cbn; [| done].
  destruct (has_reaction m1 _) eqn:Hfresh; [done |].
  destruct (build_reaction_from_string _ _ _ _ _) as [m2|] eqn:H2; cbn; [| done].
  intros H3. apply update_reaction_ids in H3; [| by intros ? ? [= <-]].
  apply build_reaction_ids in H2.
  rewrite H3, H2. unfold add_reactions. destruct (has_reaction m1 (rxn_id r)); cbn.
  - by rewrite H1.
  - rewrite H1, fmap_app. by apply prefix_app_r.
Qed.

Lemma iex_loop_ids (name : string) (l : list string) (m m' : Model) :
  foldlM (iex_step name) m l = Ok m' ->
  (rxn_id <$> reactions m) `prefix_of` (rxn_id <$> reactions m').
Proof.
  revert m. induction l as [|x l IH]; intros m; cbn [foldlM]; [by intros [= <-] |].
  destruct (iex_step name m x) as [m1|] eqn:H1; cbn [mbind result_bind]; [| done].
  intros H%IH. apply iex_step_ids in H1. by etrans.
Qed.

(** Step 4 leaves alone the reaction ids that start with the organism name. *)
Lemma finalize_reaction_ids (name : string) (m m' : Model) (i : nat) :
  finalize_reaction name m i = Ok m' ->
  Forall2 (fun a b => Str.startswith a name = true -> b = a)
    (rxn_id <$> reactions m) (rxn_id <$> reactions m').
Proof.
  unfold finalize_reaction.
  destruct (reactions m !! i) as [r|] eqn:Hi;
    [| intros [= <-]; by apply Forall_Forall2_diag, Forall_forall].
  destruct (Str.startswith (rxn_id r) name) eqn:Hs;
    [intros [= <-]; by apply Forall_Forall2_diag, Forall_forall |].
  unfold set_reaction_id. rewrite Hi.
  destruct (String.eqb _ _); [intros [= <-]; by apply Forall_Forall2_diag, Forall_forall |].
  destruct (has_reaction m _); [done |]. intros [= <-]. cbn.
  rewrite list_fmap_insert. cbn.
  apply Forall2_same_length_lookup. split; [by rewrite length_insert |].
  intros j a b Ha Hb Hsa. destruct (decide (i = j)) as [<-|Hne].
  - rewrite list_lookup_fmap, Hi in Ha. injection Ha as <-. congruence.
  - rewrite list_lookup_insert_ne in Hb by done. congruence.
Qed.

Lemma finalize_reactions_ids (name : string) (l : list nat) (m m' : Model) :
  foldlM (finalize_reaction name) m l = Ok m' ->
  Forall2 (fun a b => Str.startswith a name = true -> b = a)
    (rxn_id <$> reactions m) (rxn_id <$> reactions m').
Proof.
  revert m. induction l as [|x l IH]; intros m; cbn [foldlM].
  - intros [= <-]. by apply Forall_Forall2_diag, Forall_forall.
  - destruct (finalize_reaction name m x) as [m1|] eqn:H1; cbn [mbind result_bind]; [| done].
    intros H%IH. apply finalize_reaction_ids in H1.
    eapply Forall2_trans; [| exact H1 | exact H].
    intros a b c Hab Hbc Ha. rewrite Hbc; rewrite (Hab Ha); done.
Qed.

Lemma rename_metabolite_reaction_ids (m m' : Model) (old new c : string) :
  rename_metabolite m old new c = Ok m' -> rxn_id <$> reactions m' = rxn_id <$> reactions m.
Proof.
  unfold rename_metabolite. destruct (String.eqb new old); [by intros [= <-] |].
  destruct (has_metabolite m new); [done |]. intros [= <-]. cbn.
  by rewrite <- list_fmap_compose.
Qed.

Lemma finalize_metabolites_reaction_ids (name : string) (l : list string) (m m' : Model) :
  foldlM (finalize_metabolite name) m l = Ok m' ->
  rxn_id <$> reactions m' = rxn_id <$> reactions m.
Proof.
  revert m. induction l as [|x l IH]; intros m; cbn [foldlM]; [by intros [= <-] |].
  destruct (finalize_metabolite name m x) as [m1|] eqn:H1; cbn [mbind result_bind]; [| done].
  intros ->%IH. unfold finalize_metabolite in H1.
  destruct (_ && _); [| by injection H1 as <-].
  by apply rename_metabolite_reaction_ids in H1.
Qed.

(** C3. A network that has been passed through
    [reformat_gem_for_community] is passed through it again with the same
    organism name: step 2 prefixes [Org1_R1], whose equation still mentions
    [[c]], once more, so the reaction id changes to [Org1_Org1_R1]; the
    metabolite ids, which step 2 guards, do not change. *)
Theorem second_tagging_renames_reactions :
  let model :=
    mk_Model
      [mk_Reaction "R1" "" "" 0%float 1000%float [("a[c]", (-1)%float); ("b[e]", 1%float)];
       mk_Reaction "EX_b(e)" "" "" (-1000)%float 1000%float [("b[e]", (-1)%float)]]
      [mk_Metabolite "a[c]" (Some "c") "" ""; mk_Metabolite "b[e]" (Some "e") "" ""] in
  ∃ once twice,
    reformat_gem_for_community model "models/Org1.mat" = Ok once
    ∧ reformat_gem_for_community once "models/Org1.mat" = Ok twice
    ∧ rxn_id <$> reactions once = ["Org1_R1"; "Org1_IEX_b[u]tr"]
    ∧ rxn_id <$> reactions twice = ["Org1_Org1_R1"; "Org1_IEX_b[u]tr"]
    ∧ met_id <$> metabolites twice = met_id <$> metabolites once.
Proof. intros model. eexists _, _. vm_compute. done. Qed.

(** * Further properties *)

(** ** Building reactions *)

(** X1. [create_rxn] never raises, whatever the bounds: the reaction it
    returns has the requested id, name and subsystem, no metabolite, and the
    requested upper bound; its lower bound is the requested one unless that is
    above the requested upper bound, in which case the assignment of the upper
    bound takes the lower bound down to it. The bounds [(0, 1000)] the
    reaction is born with leave no trace, also for a requested lower bound
    above 1000. *)
Theorem create_rxn_outcome (rxn_identifier name subsystem : string) (lb ub : float) :
  create_rxn rxn_identifier name subsystem (lb, ub)
  = Ok (mk_Reaction rxn_identifier name subsystem
          (if PrimFloat.ltb ub lb then ub else lb) ub []).
Proof. apply (create_rxn_eq rxn_identifier name subsystem (lb, ub)). Qed.

(** ** Pruning *)

Lemma filter_filter_and {A : Type} (p q : A -> bool) (l : list A) :
  List.filter p (List.filter q l) = List.filter (fun x => q x && p x) l.
Proof.
  induction l as [|x l IH]; [done |]. cbn.
  destruct (q x); cbn; [destruct (p x) |]; by rewrite IH.
Qed.

Lemma filter_ext_in {A : Type} (p q : A -> bool) (l : list A) :
  (∀ x, x ∈ l -> p x = q x) -> List.filter p l = List.filter q l.
Proof.
  intros H. apply List.filter_ext_in. intros x Hx. apply H. by apply list_elem_of_In.
Qed.

Lemma existsb_eq_elem (k : string) (l : list string) :
  existsb (String.eqb k) l = bool_decide (k ∈ l).
Proof.
  induction l as [|x l IH]; [done |]. cbn. rewrite IH.
  destruct (String.eqb_spec k x) as [->|Hne]; cbn.
  - symmetry. apply bool_decide_eq_true. by left.
  - apply bool_decide_ext. rewrite elem_of_cons. split; [by right | by intros [? | ?]].
Qed.

Lemma existsb_pointwise {A : Type} (p q : A -> bool) (l : list A) :
  (∀ x, p x = q x) -> existsb p l = existsb q l.
Proof. intros H. induction l as [|x l IH]; [done |]. cbn. by rewrite H, IH. Qed.

Lemma existsb_or {A : Type} (p q : A -> bool) (l : list A) :
  existsb (fun x => p x || q x) l = existsb p l || existsb q l.
Proof.
  induction l as [|x l IH]; [done |]. cbn. rewrite IH.
  destruct (p x), (q x), (existsb p l), (existsb q l); done.
Qed.

Lemma remove_metabolites_ext (m : Model) (sel sel' : Metabolite -> bool) :
  (∀ x, x ∈ metabolites m -> sel x = sel' x) ->
  remove_metabolites m sel = remove_metabolites m sel'.
Proof.
  intros H. unfold remove_metabolites.
  rewrite (filter_ext_in sel sel') by done.
  f_equal. apply filter_ext_in. intros x Hx. by rewrite H.
Qed.

Lemma remove_metabolites_twice (m : Model) (f g : string -> bool) :
  remove_metabolites (remove_metabolites m (fun x => f (met_id x))) (fun x => g (met_id x))
  = remove_metabolites m (fun x => f (met_id x) || g (met_id x)).
Proof.
  unfold remove_metabolites. cbn [reactions metabolites].
  rewrite !filter_filter_and. f_equal.
  - apply filter_ext_in. intros r _. rewrite <- negb_orb. f_equal.
    rewrite <- existsb_or. apply existsb_pointwise. intros e.
    rewrite !existsb_eq_elem, <- bool_decide_or. apply bool_decide_ext.
    rewrite !list_elem_of_fmap. setoid_rewrite list_elem_of_In.
    setoid_rewrite filter_In. setoid_rewrite <- list_elem_of_In.
    split.
    + intros [(x & ? & ? & Hf) | (x & ? & ? & [_ Hg]%andb_prop)]; exists x.
      * by rewrite Hf.
      * by rewrite Hg, orb_true_r.
    + intros (x & ? & ? & Hfg). destruct (f (met_id x)) eqn:Hf.
      * left. by exists x.
      * right. exists x. by rewrite Hf.
  - apply filter_ext_in. intros x _. by rewrite negb_orb.
Qed.

Lemma remove_metabolites_none (m : Model) : remove_metabolites m (fun _ => false) = m.
Proof.
  destruct m as [rs ms]. unfold remove_metabolites. cbn [reactions metabolites].
  assert (Hnone : List.filter (fun _ : Metabolite => false) ms = []).
  { induction ms as [|x ms IH]; [done | by cbn]. }
  rewrite Hnone. cbn. f_equal.
  - induction rs as [|r rs IH]; [done |]. cbn.
    replace (existsb _ (rxn_metabolites r)) with false; [cbn; by rewrite IH |].
    symmetry. apply not_true_is_false. by intros (e & _ & ?)%existsb_exists.
  - induction ms as [|x ms IH]; [done |]. cbn. by rewrite IH.
Qed.

(** X2. Pruning composes: pruning a first list of organisms and then a second
    is pruning their concatenation; only the set of names counts (order and
    repetition do not), and pruning no organism changes nothing. *)
Theorem prune_composes (model : Model) (zs1 zs2 : list string) :
  prune_zero_abundance_microbe (prune_zero_abundance_microbe model zs1) zs2
  = prune_zero_abundance_microbe model (zs1 ++ zs2)%list
  ∧ ((∀ z, z ∈ zs1 ↔ z ∈ zs2) ->
     prune_zero_abundance_microbe model zs1 = prune_zero_abundance_microbe model zs2)
  ∧ prune_zero_abundance_microbe model [] = model.
Proof.
  unfold prune_zero_abundance_microbe. split_and!.
  - rewrite (remove_metabolites_twice model
               (fun id => existsb (fun microbe => Str.startswith id (microbe ++ "_")) zs1)
               (fun id => existsb (fun microbe => Str.startswith id (microbe ++ "_")) zs2)).
    apply remove_metabolites_ext. intros x _. by rewrite existsb_app.
  - intros Hsame. apply remove_metabolites_ext. intros x _.
    apply eq_true_iff_eq. rewrite !existsb_exists.
    split; intros (z & Hz%list_elem_of_In & H); exists z.
    + split; [| done]. by apply list_elem_of_In, (proj1 (Hsame z)).
    + split; [| done]. by apply list_elem_of_In, (proj2 (Hsame z)).
  - apply remove_metabolites_none.
Qed.

Lemma prune_metabolite_in (m : Model) (zs : list string) (x : Metabolite) :
  x ∈ metabolites (prune_zero_abundance_microbe m zs)
  ↔ x ∈ metabolites m ∧ ∀ z, z ∈ zs -> Str.startswith (met_id x) (z ++ "_") = false.
Proof.
  unfold prune_zero_abundance_microbe, remove_metabolites. cbn [metabolites].
  rewrite list_elem_of_In, filter_In, <- list_elem_of_In, negb_true_iff.
  split; intros [Hx Hz]; (split; [done |]).
  - intros z Hin. apply not_true_is_false. intros Hp.
    apply not_true_iff_false in Hz. apply Hz, existsb_exists. exists z.
    split; [by apply list_elem_of_In | done].
  - apply not_true_is_false. intros (z & Hin%list_elem_of_In & Hp)%existsb_exists.
    by rewrite (Hz z Hin) in Hp.
Qed.

Lemma prune_reaction_in (m : Model) (zs : list string) (r : Reaction) :
  r ∈ reactions (prune_zero_abundance_microbe m zs)
  ↔ r ∈ reactions m
    ∧ ∀ e x, e ∈ rxn_metabolites r -> x ∈ metabolites m -> met_id x = e.1 ->
             ∀ z, z ∈ zs -> Str.startswith e.1 (z ++ "_") = false.
Proof.
  unfold prune_zero_abundance_microbe, remove_metabolites. cbn [reactions].
  rewrite list_elem_of_In, filter_In, <- list_elem_of_In, negb_true_iff.
  split; intros [Hr Hgone]; (split; [done |]).
  - intros e x He Hx Hid z Hz. apply not_true_is_false. intros Hp.
    apply not_true_iff_false in Hgone. apply Hgone, existsb_exists. exists e.
    split; [by apply list_elem_of_In |].
    rewrite existsb_eq_elem. apply bool_decide_eq_true, list_elem_of_fmap.
    exists x. split; [done |]. apply list_elem_of_In, filter_In.
    split; [by apply list_elem_of_In |]. apply existsb_exists. exists z.
    split; [by apply list_elem_of_In | by rewrite Hid].
  - apply not_true_is_false. intros (e & He%list_elem_of_In & Hin)%existsb_exists.
    rewrite existsb_eq_elem in Hin. apply bool_decide_eq_true, list_elem_of_fmap in Hin.
    destruct Hin as (x & Hid & Hx%list_elem_of_In%filter_In).
    destruct Hx as [Hx%list_elem_of_In (z & Hz%list_elem_of_In & Hp)%existsb_exists].
    rewrite <- Hid in Hp. by rewrite (Hgone e x He Hx (eq_sym Hid) z Hz) in Hp.
Qed.

Lemma closed_check (m : Model) :
  forallb (fun r => forallb (fun e : string * float =>
                               bool_decide (e.1 ∈ met_id <$> metabolites m))
                      (rxn_metabolites r)) (reactions m) = true ->
  closed m.
Proof.
  intros H r e Hr%list_elem_of_In He%list_elem_of_In.
  rewrite forallb_forall in H. specialize (H r Hr). rewrite forallb_forall in H.
  specialize (H e He).
  by apply bool_decide_eq_true in H.
Qed.

(** X3. Pruning keeps a network closed: when every metabolite that a reaction
    mentions is a metabolite of the model, the same holds after pruning; no
    remaining metabolite and no metabolite of a remaining reaction has an id
    that starts with the name of a pruned organism followed by [_]. *)
Theorem prune_keeps_closed (model : Model) (zero_abundance_microbe : list string) :
  closed model ->
  let model' := prune_zero_abundance_microbe model zero_abundance_microbe in
  closed model'
  ∧ (∀ x z, x ∈ metabolites model' -> z ∈ zero_abundance_microbe ->
            Str.startswith (met_id x) (z ++ "_") = false)
  ∧ (∀ r e z, r ∈ reactions model' -> e ∈ rxn_metabolites r -> z ∈ zero_abundance_microbe ->
              Str.startswith e.1 (z ++ "_") = false).
Proof.
  intros Hclosed model'.
  assert (Hmets : ∀ r e z, r ∈ reactions model' -> e ∈ rxn_metabolites r ->
                    z ∈ zero_abundance_microbe -> Str.startswith e.1 (z ++ "_") = false).
  { intros r e z [Hr Hkeep]%prune_reaction_in He Hz.
    destruct (proj1 (list_elem_of_fmap _ _ _) (Hclosed r e Hr He)) as (x & Hid & Hx).
    by apply (Hkeep e x). }
  split_and!; [| | done].
  - intros r e Hr He. pose proof Hr as [Hr0 _]%prune_reaction_in.
    destruct (proj1 (list_elem_of_fmap _ _ _) (Hclosed r e Hr0 He)) as (x & Hid & Hx).
    apply list_elem_of_fmap. exists x. split; [done |].
    apply prune_metabolite_in. split; [done |]. intros z Hz. rewrite <- Hid.
    by apply (Hmets r).
  - intros x z [_ Hx]%prune_metabolite_in Hz. by apply Hx.
Qed.

Lemma prune_keeps_closed_witness :
  let model :=
    mk_Model
      [mk_Reaction "A_R1" "" "" 0%float 1000%float [("A_x[c]", (-1)%float); ("x[u]", 1%float)];
       mk_Reaction "B_R1" "" "" 0%float 1000%float [("B_x[c]", (-1)%float); ("x[u]", 1%float)]]
      [mk_Metabolite "A_x[c]" (Some "c") "" ""; mk_Metabolite "B_x[c]" (Some "c") "" "";
       mk_Metabolite "x[u]" (Some "u") "" ""] in
  closed model
  ∧ rxn_id <$> reactions (prune_zero_abundance_microbe model ["A"]) = ["B_R1"]
  ∧ closed (prune_zero_abundance_microbe model ["A"]).
Proof.
  intros model.
  assert (Hc : closed model) by (by apply closed_check).
  split; [exact Hc |]. split; [reflexivity |].
  exact (proj1 (prune_keeps_closed model ["A"] Hc)).
Defined.

Lemma prefix_trans (a b c : string) :
  String.prefix a b = true -> String.prefix b c = true -> String.prefix a c = true.
Proof.
  intros [t ->]%prefix_inv [u ->]%prefix_inv. rewrite string_app_assoc.
  apply str_prefix_app.
Qed.

(** X4. Pruning goes by id prefix: pruning an organism [z] also removes every
    metabolite of any other organism whose name starts with [z_], whether or
    not that organism is itself below the threshold. *)
Theorem prune_reaches_longer_names (model : Model) (zero_abundance_microbe : list string)
    (z other : string) :
  z ∈ zero_abundance_microbe ->
  Str.startswith other (z ++ "_") = true ->
  ∀ x, x ∈ metabolites (prune_zero_abundance_microbe model zero_abundance_microbe) ->
       Str.startswith (met_id x) (other ++ "_") = false.
Proof.
  intros Hz Hother x [_ Hx]%prune_metabolite_in.
  apply not_true_is_false. intros Hp.
  assert (Hzx : Str.startswith (met_id x) (z ++ "_") = true).
  { unfold Str.startswith in *. apply (prefix_trans _ other); [done |].
    apply (prefix_trans _ (other ++ "_")); [apply str_prefix_app | done]. }
  by rewrite (Hx z Hz) in Hzx.
Qed.

Lemma prune_reaches_longer_names_witness :
  let model :=
    mk_Model []
      [mk_Metabolite "Bact_sp_1_x[c]" (Some "c") "" "";
       mk_Metabolite "Bact_sp_1_14_x[c]" (Some "c") "" "";
       mk_Metabolite "Bact_sp_2_x[c]" (Some "c") "" ""] in
  met_id <$> metabolites (prune_zero_abundance_microbe model ["Bact_sp_1"]) = ["Bact_sp_2_x[c]"]
  ∧ ∀ x, x ∈ metabolites (prune_zero_abundance_microbe model ["Bact_sp_1"]) ->
         Str.startswith (met_id x) ("Bact_sp_1_14" ++ "_") = false.
Proof.
  intros model. split; [reflexivity |].
  apply (prune_reaches_longer_names model ["Bact_sp_1"] "Bact_sp_1" "Bact_sp_1_14").
  - by left.
  - reflexivity.
Defined.

(** ** The sample model *)

Lemma close_transport_spec (r r' : Reaction) :
  close_transport r = Ok r' ->
  r' = if Str.contains (rxn_id r) "DUt" || Str.contains (rxn_id r) "UFEt"
       then with_bounds r 0%float
              (if PrimFloat.ltb (upper_bound r) 0%float then 0%float else upper_bound r)
       else r.
Proof.
  unfold close_transport. destruct (_ || _).
  - apply set_lower_bound_spec.
  - by intros [= <-].
Qed.

(** X5. In a sample model that [build_sample_gem] returns, every reaction
    whose id contains [DUt] or [UFEt] has the lower bound 0. Such a reaction
    keeps its upper bound unless that was below 0, in which case the upper
    bound is raised to 0 as well; every other reaction, and every other field,
    is as it was after the community biomass was added. *)
Theorem sample_transports_closed (global_model : Model) (abundance : list abundance_row)
    (model : Model) :
  build_sample_gem global_model abundance = Ok model ->
  (∀ r, r ∈ reactions model ->
        Str.contains (rxn_id r) "DUt" || Str.contains (rxn_id r) "UFEt" = true ->
        lower_bound r = 0%float)
  ∧ ∃ before,
      com_biomass (prune_zero_abundance_microbe global_model (zero_microbe abundance))
        abundance = Ok before
      ∧ metabolites model = metabolites before
      ∧ Forall2 (fun r r' =>
                   r' = if Str.contains (rxn_id r) "DUt" || Str.contains (rxn_id r) "UFEt"
                        then with_bounds r 0%float
                               (if PrimFloat.ltb (upper_bound r) 0%float
                                then 0%float else upper_bound r)
                        else r)
          (reactions before) (reactions model).
Proof.
  unfold build_sample_gem. case_bool_decide as Hnd; [| done].
  destruct (com_biomass _ abundance) as [before|]; cbn [mbind result_bind]; [| done].
  intros [Hmets Hall]%at_reaction_all. split.
  - intros r' Hin Hid.
    apply list_elem_of_lookup_1 in Hin as [i Hi].
    destruct (Forall2_lookup_r _ _ _ _ _ Hall Hi) as (r & _ & Hr).
    apply close_transport_spec in Hr.
    destruct (Str.contains (rxn_id r) "DUt" || Str.contains (rxn_id r) "UFEt") eqn:Hm;
      subst r'; [done |].
    by rewrite Hm in Hid.
  - exists before. split_and!; [done | done |].
    eapply Forall2_impl; [exact Hall |]. intros r r' Hr. cbn in Hr.
    by apply close_transport_spec in Hr.
Qed.

Lemma sample_transports_closed_witness :
  let abundance := [("A", 0.5%float)] in
  let global_model :=
    mk_Model
      [mk_Reaction "A_R1" "" "" 0%float 1000%float
         [("A_x[c]", (-1)%float); ("A_biomass[c]", 1%float)];
       mk_Reaction "DUt_x" "" "" (-5)%float (-1)%float
         [("x[d]", (-1)%float); ("x[u]", 1%float)]]
      [mk_Metabolite "A_x[c]" (Some "c") "" "";
       mk_Metabolite "A_biomass[c]" (Some "c") "" "";
       mk_Metabolite "x[d]" (Some "d") "" ""; mk_Metabolite "x[u]" (Some "u") "" ""] in
  ∃ model,
    build_sample_gem global_model abundance = Ok model
    ∧ find_reaction model "DUt_x"
      = Some (mk_Reaction "DUt_x" "" "" 0%float 0%float
                [("x[d]", (-1)%float); ("x[u]", 1%float)])
    ∧ ∀ r, r ∈ reactions model ->
           Str.contains (rxn_id r) "DUt" || Str.contains (rxn_id r) "UFEt" = true ->
           lower_bound r = 0%float.
Proof.
  intros abundance global_model.
  assert (H : ∃ model, build_sample_gem global_model abundance = Ok model
                       ∧ find_reaction model "DUt_x"
                         = Some (mk_Reaction "DUt_x" "" "" 0%float 0%float
                                   [("x[d]", (-1)%float); ("x[u]", 1%float)])).
  { eexists. vm_compute. done. }
  destruct H as (model & H & Hlb). exists model. split_and!; [done | done |].
  exact (proj1 (sample_transports_closed global_model abundance model H)).
Defined.

(** ** The community biomass: its way out, and what is left alone *)

Lemma find_removed_other (m : Model) (sel : Reaction -> bool) (id : string) :
  (∀ r, rxn_id r = id -> sel r = false) ->
  find_reaction (remove_reactions m sel) id = find_reaction m id.
Proof.
  intros Hsel. unfold find_reaction, remove_reactions. cbn.
  induction (reactions m) as [|r rs IH]; [done |]. cbn.
  destruct (String.eqb_spec (rxn_id r) id) as [Heq|Hne].
  - rewrite (Hsel r Heq). cbn. by rewrite Heq, String.eqb_refl.
  - destruct (sel r); cbn; [done |]. by apply String.eqb_neq in Hne as ->.
Qed.

Lemma find_added (m : Model) (r : Reaction) :
  has_reaction m (rxn_id r) = false ->
  find_reaction (add_reactions m r) (rxn_id r) = Some r.
Proof.
  intros Hfresh. apply has_reaction_false in Hfresh.
  rewrite add_reactions_fresh by done. unfold find_reaction. cbn.
  rewrite find_app_fresh by done. by apply find_single.
Qed.

(** [rxn.add_metabolites({met: c})] for a metabolite that the reaction does
    not hold yet *)
Lemma add_object_find (m m' : Model) (rid : string) (met : Metabolite) (c : float)
    (r : Reaction) :
  find_reaction m rid = Some r ->
  stoich_mem (rxn_metabolites r) (met_id met) = false ->
  reaction_add_metabolites m rid [(ByObject met, c)] = Ok m' ->
  find_reaction m' rid
  = Some (with_metabolites r (drop_zero (rxn_metabolites r ++ [(met_id met, c)])%list)).
Proof.
  intros Hfind Hmem.
  destruct (reaction_add_object_at m rid met c [] (reactions m) r eq_refl) as [ms ->];
    [constructor | done | done |].
  intros [= <-]. unfold find_reaction. cbn. apply (find_put _ _ r); [done |].
  cbn. by apply (find_id _ _ _ Hfind).
Qed.

Lemma build_reaction_find (m m' : Model) (rid a p : string) (ar : arrow) (r : Reaction) :
  find_reaction m rid = Some r -> rxn_metabolites r = [] -> a ≠ p ->
  build_reaction_from_string m rid a ar p = Ok m' ->
  find_reaction m' rid
  = Some (mk_Reaction (rxn_id r) (rxn_name r) (subsystem r)
            (arrow_bounds ar).1 (arrow_bounds ar).2 [(a, (-1)%float); (p, 1%float)]).
Proof.
  intros Hfind Hempty Hne.
  destruct (build_reaction_at m rid a p ar [] (reactions m) r eq_refl) as [ms ->];
    [constructor | done | done | done |].
  intros [= <-]. unfold find_reaction. cbn. apply (find_put _ _ r); [done |].
  cbn. by apply (find_id _ _ _ Hfind).
Qed.

Lemma update_reaction_find (m m' : Model) (rid : string) (f : Reaction -> result Reaction)
    (r r' : Reaction) :
  find_reaction m rid = Some r -> f r = Ok r' -> rxn_id r' = rid ->
  update_reaction m rid f = Ok m' -> find_reaction m' rid = Some r'.
Proof.
  intros Hfind Hf Hid.
  rewrite (update_reaction_at m rid f [] (reactions m) r r') by (done || constructor).
  intros [= <-]. unfold find_reaction. cbn. by apply (find_put _ _ r).
Qed.

Lemma get_metabolite_ok (m : Model) (id : string) (x : Metabolite) :
  get_metabolite m id = Ok x -> met_id x = id.
Proof.
  unfold get_metabolite, find_metabolite.
  destruct (List.find _ (metabolites m)) as [y|] eqn:Hy; [| done].
  intros [= <-]. apply find_some in Hy as [_ Hy]. by apply String.eqb_eq.
Qed.

(** X6. When [com_biomass] returns, the community biomass has its way out:
    [EX_microbeBiomass[fe]] consumes [microbeBiomass[fe]] within
    [(-10000, 10000)] and [UFEt_microbeBiomass] carries [microbeBiomass[u]]
    to [microbeBiomass[fe]] within [(0, 10000)].  Every reaction whose id
    does not contain [Biomass] is found as before, and of the reactions whose
    id contains [Biomass] only the three that the function builds remain. *)
Theorem community_biomass_exit (model : Model) (abun : list abundance_row) (model' : Model) :
  com_biomass model abun = Ok model' ->
  find_reaction model' "EX_microbeBiomass[fe]"
  = Some (mk_Reaction "EX_microbeBiomass[fe]" "EX_microbeBiomass[fe]" " "
            (-10000)%float 10000%float [("microbeBiomass[fe]", (-1)%float)])
  ∧ find_reaction model' "UFEt_microbeBiomass"
    = Some (mk_Reaction "UFEt_microbeBiomass" "UFEt_microbeBiomass" " "
              0%float 10000%float
              [("microbeBiomass[u]", (-1)%float); ("microbeBiomass[fe]", 1%float)])
  ∧ (∀ id, Str.contains id "Biomass" = false ->
           find_reaction model' id = find_reaction model id)
  ∧ (∀ id, Str.contains id "Biomass" = true ->
           id ∉ ["communityBiomass"; "EX_microbeBiomass[fe]"; "UFEt_microbeBiomass"] ->
           find_reaction model' id = None).
Proof.
  unfold com_biomass.
  set (m1 := remove_reactions model _).
  change (create_rxn "communityBiomass" "communityBiomass" " " (0%float, 10000%float))
    with (Ok (mk_Reaction "communityBiomass" "communityBiomass" " " 0 10000 [])).
  cbn [mbind result_bind].
  set (cb := mk_Reaction "communityBiomass" _ _ _ _ _).
  set (m2 := add_reactions m1 cb).
  destruct (reaction_add_metabolites m2 _ _) as [m3|] eqn:H3; cbn [mbind result_bind]; [| done].
  set (m4 := add_metabolites m3 _).
  destruct (get_metabolite m4 _) as [met_u|]; cbn [mbind result_bind]; [| done].
  destruct (reaction_add_metabolites m4 _ _) as [m5|] eqn:H5; cbn [mbind result_bind]; [| done].
  change (create_rxn "EX_microbeBiomass[fe]" "EX_microbeBiomass[fe]" " "
            ((-10000)%float, 10000%float))
    with (Ok (mk_Reaction "EX_microbeBiomass[fe]" "EX_microbeBiomass[fe]" " "
                (-10000) 10000 [])).
  cbn [mbind result_bind].
  set (ex := mk_Reaction "EX_microbeBiomass[fe]" _ _ _ _ _).
  set (m6 := add_reactions m5 ex).
  set (m7 := add_metabolites m6 _).
  destruct (get_metabolite m7 _) as [met_fe|] eqn:Hfe; cbn [mbind result_bind]; [| done].
  destruct (reaction_add_metabolites m7 _ _) as [m8|] eqn:H8; cbn [mbind result_bind]; [| done].
  change (create_rxn "UFEt_microbeBiomass" "UFEt_microbeBiomass" " " TRANSPORT_BOUNDS)
    with (Ok (mk_Reaction "UFEt_microbeBiomass" "UFEt_microbeBiomass" " " 0 10000 [])).
  cbn [mbind result_bind].
  set (ufet := mk_Reaction "UFEt_microbeBiomass" _ _ _ _ _).
  destruct (has_reaction m8 "UFEt_microbeBiomass") eqn:Hfresh8; [done |].
  set (m9 := add_reactions m8 ufet).
  destruct (build_reaction_from_string m9 _ _ _ _) as [m10|] eqn:H10;
    cbn [mbind result_bind]; [| done].
  intros H11.
  (* what the steps leave alone *)
  assert (Hframe : ∀ id, id ∉ ["communityBiomass"; "EX_microbeBiomass[fe]";
                               "UFEt_microbeBiomass"] ->
                         find_reaction model' id = find_reaction m1 id).
  { intros id Hid. repeat setoid_rewrite not_elem_of_cons in Hid.
    destruct Hid as (Hcb & Hex & Hufet & _).
    rewrite (update_reaction_frame _ _ _ id _ (set_bounds_id _) H11) by done.
    rewrite (build_reaction_frame _ _ _ _ _ id _ H10) by done.
    subst m9. rewrite add_reactions_frame by done.
    rewrite (reaction_add_metabolites_frame _ _ _ id _ H8) by done.
    change (find_reaction m7 id) with (find_reaction m6 id).
    subst m6. rewrite add_reactions_frame by done.
    rewrite (reaction_add_metabolites_frame _ _ _ id _ H5) by done.
    change (find_reaction m4 id) with (find_reaction m3 id).
    rewrite (reaction_add_metabolites_frame _ _ _ id _ H3) by done.
    subst m2. by rewrite add_reactions_frame. }
  assert (Hgone : ∀ id, Str.contains id "Biomass" = true -> find_reaction m1 id = None).
  { intros id Hid. apply find_fresh, removed_fresh. by intros r ->. }
  split_and!.
  - (* the exchange *)
    rewrite (update_reaction_frame _ _ _ "EX_microbeBiomass[fe]" _ (set_bounds_id _) H11)
      by done.
    rewrite (build_reaction_frame _ _ _ _ _ "EX_microbeBiomass[fe]" _ H10) by done.
    subst m9. rewrite add_reactions_frame by done.
    assert (Hex5 : has_reaction m5 "EX_microbeBiomass[fe]" = false).
    { apply has_reaction_none.
      rewrite (reaction_add_metabolites_frame _ _ _ "EX_microbeBiomass[fe]" _ H5) by done.
      change (find_reaction m4 "EX_microbeBiomass[fe]")
        with (find_reaction m3 "EX_microbeBiomass[fe]").
      rewrite (reaction_add_metabolites_frame _ _ _ "EX_microbeBiomass[fe]" _ H3) by done.
      subst m2. rewrite add_reactions_frame by done. by apply Hgone. }
    assert (Hfind7 : find_reaction m7 "EX_microbeBiomass[fe]" = Some ex).
    { change (find_reaction m7 "EX_microbeBiomass[fe]")
        with (find_reaction (add_reactions m5 ex) (rxn_id ex)). by apply find_added. }
    assert (Hid : met_id met_fe = "microbeBiomass[fe]") by (by apply get_metabolite_ok in Hfe).
    rewrite (add_object_find _ _ _ _ _ _ Hfind7 eq_refl H8). by rewrite Hid.
  - (* the transport *)
    assert (Hfind9 : find_reaction m9 "UFEt_microbeBiomass" = Some ufet).
    { change "UFEt_microbeBiomass" with (rxn_id ufet). by apply find_added. }
    assert (Hne : "microbeBiomass[u]" ≠ "microbeBiomass[fe]") by done.
    pose proof (build_reaction_find _ _ _ _ _ _ _ Hfind9 eq_refl Hne H10) as Hfind10.
    apply (update_reaction_find _ _ _ _ _
             (mk_Reaction "UFEt_microbeBiomass" "UFEt_microbeBiomass" " " 0%float 10000%float
                [("microbeBiomass[u]", (-1)%float); ("microbeBiomass[fe]", 1%float)])
             Hfind10) in H11; done.
  - intros id Hid. rewrite Hframe.
    + apply find_removed_other. intros r Heq. by rewrite Heq.
    + repeat setoid_rewrite not_elem_of_cons.
      split_and!; [by intros -> | by intros -> | by intros -> | apply not_elem_of_nil].
  - intros id Hid Hnot. rewrite (Hframe id Hnot). by apply Hgone.
Qed.

Lemma community_biomass_exit_witness :
  let model :=
    mk_Model
      [mk_Reaction "A_R1" "" "" 0%float 1000%float
         [("A_x[c]", (-1)%float); ("A_biomass[c]", 1%float)];
       mk_Reaction "oldBiomass" "" "" 0%float 1000%float [("A_biomass[c]", (-1)%float)]]
      [mk_Metabolite "A_x[c]" (Some "c") "" "";
       mk_Metabolite "A_biomass[c]" (Some "c") "" ""] in
  ∃ model',
    com_biomass model [("A", 0.5%float)] = Ok model'
    ∧ find_reaction model' "oldBiomass" = None
    ∧ find_reaction model' "A_R1" = find_reaction model "A_R1".
Proof.
  intros model.
  assert (H : ∃ model', com_biomass model [("A", 0.5%float)] = Ok model').
  { eexists. vm_compute. reflexivity. }
  destruct H as [model' H]. exists model'. split; [exact H |].
  destruct (community_biomass_exit model _ model' H) as (_ & _ & Hkept & Hgone).
  split.
  - apply Hgone; [reflexivity |]. repeat setoid_rewrite not_elem_of_cons.
    split_and!; [done | done | done | apply not_elem_of_nil].
  - by apply Hkept.
Defined.

(** ** Abundances that are not numbers *)

Lemma threshold_order (a : float) :
  PrimFloat.ltb a 1e-7%float
  = negb (PrimFloat.is_nan a) && negb (PrimFloat.leb 1e-7%float a).
Proof.
  pose proof (is_nan_spec a) as Hnan.
  destruct (PrimFloat.is_nan a) eqn:Hn.
  - rewrite FloatAxioms.ltb_spec, (proj1 Hnan eq_refl). done.
  - assert (Hne : Prim2SF a ≠ S754_nan) by (intros H; by apply Hnan in H).
    rewrite FloatAxioms.ltb_spec, FloatAxioms.leb_spec.
    change (Prim2SF 1e-7%float) with (S754_finite false 7555786372591432 (-76)).
    unfold SFltb, SFleb. destruct (Prim2SF a) as [s | s | | s m e]; cbn [SFcompare].
    + done.
    + by destruct s.
    + done.
    + destruct s; [done |]. rewrite (Z.compare_antisym e (-76)).
      destruct (e ?= -76)%Z; cbn [CompOpp negb andb]; [| done | done].
      assert (Hanti : Pos.compare_cont Eq 7555786372591432 m
                      = CompOpp (Pos.compare_cont Eq m 7555786372591432))
        by (symmetry; apply (Pos.compare_cont_antisym m _ Eq)).
      rewrite Hanti. by destruct (Pos.compare_cont Eq m 7555786372591432).
Qed.

Lemma nodup_fst_unique {A B : Type} (l : list (A * B)) (x : A) (y1 y2 : B) :
  NoDup l.*1 -> (x, y1) ∈ l -> (x, y2) ∈ l -> y1 = y2.
Proof.
  induction l as [|[a b] l IH]; cbn [fmap list_fmap fst].
  - intros _ H. by apply elem_of_nil in H.
  - rewrite NoDup_cons. intros [Ha Hnd] [H1 | H1]%elem_of_cons [H2 | H2]%elem_of_cons.
    + congruence.
    + injection H1 as -> ->. exfalso. apply Ha, list_elem_of_fmap. by exists (a, y2).
    + injection H2 as -> ->. exfalso. apply Ha, list_elem_of_fmap. by exists (a, y1).
    + by apply IH.
Qed.

(** X7. [build_sample_gem] sorts the organisms with [< 1e-7] and [>= 1e-7]:
    an organism whose abundance is a number is in exactly one of
    [zero_microbe] and [present_microbe]; an organism whose abundance is NaN
    (a missing cell of the table) is in neither, so it is not pruned and not
    passed on as present. *)
Theorem abundance_partition (abundance : list abundance_row) (row : abundance_row) :
  NoDup abundance.*1 -> row ∈ abundance ->
  if PrimFloat.is_nan row.2
  then (row.1 ∉ zero_microbe abundance) ∧ (row.1 ∉ present_microbe abundance)
  else (row.1 ∈ zero_microbe abundance ↔ row.1 ∉ present_microbe abundance).
Proof.
  intros Hnd Hrow.
  assert (Hin : ∀ p : abundance_row -> bool,
            row.1 ∈ (List.filter p abundance).*1 ↔ p row = true).
  { intros p. rewrite list_elem_of_fmap. split.
    - intros (row' & Heq & [Hin Hp]%list_elem_of_In%filter_In).
      apply list_elem_of_In in Hin. destruct row as [n a], row' as [n' a']. cbn in Heq.
      subst n'. by rewrite (nodup_fst_unique _ _ _ _ Hnd Hrow Hin).
    - intros Hp. exists row. split; [done |].
      apply list_elem_of_In, filter_In. split; [by apply list_elem_of_In | done]. }
  unfold zero_microbe, present_microbe.
  destruct (PrimFloat.is_nan row.2) eqn:Hn.
  - rewrite !Hin, threshold_order, Hn. cbn [negb andb]. split; [done |].
    apply is_nan_spec in Hn. rewrite FloatAxioms.leb_spec, Hn. done.
  - rewrite !Hin, threshold_order, Hn. cbn [negb andb].
    by destruct (PrimFloat.leb _ _).
Qed.

Lemma abundance_partition_witness :
  let abundance := [("A", 0.5%float); ("B", PrimFloat.nan); ("C", 0%float)] in
  zero_microbe abundance = ["C"] ∧ present_microbe abundance = ["A"]
  ∧ ("B" ∉ zero_microbe abundance) ∧ ("B" ∉ present_microbe abundance).
Proof.
  intros abundance. split; [reflexivity |]. split; [reflexivity |].
  apply (abundance_partition abundance ("B", PrimFloat.nan)).
  - apply (bool_decide_unpack _). vm_compute. exact I.
  - right. left.
Defined.

(** ** What tagging leaves behind *)

Lemma contains_prefix (s p : string) : String.prefix p s = true -> Str.contains s p = true.
Proof. intros H. destruct s; cbn [Str.contains]; by rewrite H. Qed.

Lemma contains_app_l (a s sub : string) :
  Str.contains s sub = true -> Str.contains (a ++ s) sub = true.
Proof.
  intros H. induction a as [|c a IH]; [by rewrite str_app_nil |].
  rewrite str_app_cons. cbn [Str.contains]. rewrite IH. by destruct (String.prefix _ _).
Qed.

Lemma finalize_reactions_tagged (name : string) (rest pre : list Reaction) (m m' : Model) :
  reactions m = (pre ++ rest)%list ->
  foldlM (finalize_reaction name) m (seq (List.length pre) (List.length rest)) = Ok m' ->
  ∃ rest', reactions m' = (pre ++ rest')%list
           ∧ Forall (fun r => Str.startswith (rxn_id r) name = true) rest'.
Proof.
  revert pre m. induction rest as [|r rest IH]; intros pre m Hrs.
  - cbn. intros [= <-]. exists []. by split.
  - cbn [List.length seq foldlM].
    destruct (finalize_reaction name m (List.length pre)) as [m1|] eqn:H1;
      cbn [mbind result_bind]; [| done].
    assert (∃ r1, reactions m1 = ((pre ++ [r1]) ++ rest)%list
                  ∧ Str.startswith (rxn_id r1) name = true) as (r1 & Hrs1 & Hr1).
    { revert H1. unfold finalize_reaction. rewrite Hrs, list_lookup_middle by done.
      destruct (Str.startswith (rxn_id r) name) eqn:Hs.
      - intros [= <-]. exists r. by rewrite <- app_assoc.
      - intros H1. apply (set_reaction_id_at m m1 pre rest r) in H1; [| done].
        exists (with_id r (name ++ "_" ++ rxn_id r)).
        split; [by rewrite <- app_assoc |]. apply str_prefix_app. }
    replace (S (List.length pre)) with (List.length (pre ++ [r1])%list)
      by (rewrite length_app; cbn; lia).
    intros (rest' & Hrs' & Hall)%IH; [| done].
    exists (r1 :: rest'). split; [by rewrite Hrs', <- app_assoc |]. by constructor.
Qed.

Lemma finalize_metabolites_tagged (name : string) (l : list string) (m m' : Model) :
  foldlM (finalize_metabolite name) m l = Ok m' ->
  (∀ id, id ∈ met_id <$> metabolites m ->
         (Str.contains id "[c]" || Str.contains id "[p]") && negb (Str.contains id name) = true ->
         id ∈ l) ->
  ∀ id, id ∈ met_id <$> metabolites m' ->
        (Str.contains id "[c]" || Str.contains id "[p]") && negb (Str.contains id name) = false.
Proof.
  revert m. induction l as [|x l IH]; intros m; cbn [foldlM].
  - intros [= <-] Hinv id Hid. apply not_true_is_false. intros Hg.
    by apply Hinv, elem_of_nil in Hg.
  - destruct (finalize_metabolite name m x) as [m1|] eqn:H1; cbn [mbind result_bind]; [| done].
    intros Hloop Hinv. apply (IH m1 Hloop). intros id Hid Hg.
    revert H1 Hid. unfold finalize_metabolite.
    destruct ((Str.contains x "[c]" || Str.contains x "[p]") && negb (Str.contains x name))
      eqn:Hgx.
    + unfold tag_metabolite. intros ->%rename_metabolite_ids.
      intros (id0 & -> & Hid0)%list_elem_of_fmap.
      destruct (String.eqb id0 x) eqn:He.
      * exfalso. apply andb_prop in Hg as [_ Hg]. apply negb_true_iff in Hg.
        rewrite contains_prefix in Hg; [done | apply str_prefix_app].
      * apply String.eqb_neq in He. specialize (Hinv id0 Hid0 Hg).
        by apply elem_of_cons in Hinv as [? | ?].
    + intros [= <-] Hid. specialize (Hinv id Hid Hg).
      apply elem_of_cons in Hinv as [-> | ?]; [congruence | done].
Qed.

(** X8. When [reformat_gem_for_community] returns, every reaction id of the
    network starts with the organism name, and every metabolite id that
    mentions [[c]] or [[p]] contains it. *)
Theorem reformat_postcondition (model model' : Model) (microbe_model_name : string) :
  reformat_gem_for_community model microbe_model_name = Ok model' ->
  (∀ r, r ∈ reactions model' ->
        Str.startswith (rxn_id r) (short_name microbe_model_name) = true)
  ∧ (∀ x, x ∈ metabolites model' ->
          Str.contains (met_id x) "[c]" || Str.contains (met_id x) "[p]" = true ->
          Str.contains (met_id x) (short_name microbe_model_name) = true).
Proof.
  unfold reformat_gem_for_community, _finalize_microbe_tagging.
  set (name := short_name microbe_model_name).
  destruct (foldlM (tag_reaction name) _ _) as [m2|]; cbn [mbind result_bind]; [| done].
  destruct (_create_inter_microbe_exchange m2 name) as [m3|]; cbn [mbind result_bind]; [| done].
  destruct (foldlM (finalize_reaction name) m3 _) as [m4|] eqn:H4;
    cbn [mbind result_bind]; [| done].
  intros H5. split.
  - apply (finalize_reactions_tagged name (reactions m3) [] m3 m4 eq_refl) in H4
      as (rest' & Hrs & Hall).
    apply finalize_metabolites_reaction_ids in H5.
    intros r Hr. cbn [app] in Hrs.
    assert (Hid : rxn_id r ∈ rxn_id <$> reactions m4).
    { rewrite <- H5. apply list_elem_of_fmap. by exists r. }
    rewrite Hrs in Hid. apply list_elem_of_fmap in Hid as (r4 & -> & Hr4).
    rewrite Forall_forall in Hall. by apply Hall.
  - intros x Hx Hcp.
    assert (Hg := finalize_metabolites_tagged name _ m4 model' H5 (fun id Hid _ => Hid)
                    (met_id x)).
    rewrite Hcp in Hg. cbn in Hg. apply negb_false_iff, Hg.
    apply list_elem_of_fmap. by exists x.
Qed.

Lemma reformat_postcondition_witness :
  let model :=
    mk_Model
      [mk_Reaction "R1" "" "" 0%float 1000%float [("a[c]", (-1)%float); ("b[e]", 1%float)];
       mk_Reaction "R2" "" "" 0%float 1000%float [("q[p]", (-1)%float); ("q[x]", 1%float)];
       mk_Reaction "EX_b(e)" "" "" (-1000)%float 1000%float [("b[e]", (-1)%float)]]
      [mk_Metabolite "a[c]" (Some "c") "" ""; mk_Metabolite "b[e]" (Some "e") "" "";
       mk_Metabolite "q[p]" (Some "p") "" ""; mk_Metabolite "q[x]" (Some "x") "" ""] in
  ∃ model',
    reformat_gem_for_community model "models/Org1.mat" = Ok model'
    ∧ rxn_id <$> reactions model' = ["Org1_R1"; "Org1_R2"; "Org1_IEX_b[u]tr"]
    ∧ ∀ r, r ∈ reactions model' ->
           Str.startswith (rxn_id r) (short_name "models/Org1.mat") = true.
Proof.
  intros model.
  assert (H : ∃ model', reformat_gem_for_community model "models/Org1.mat" = Ok model'
                        ∧ rxn_id <$> reactions model'
                          = ["Org1_R1"; "Org1_R2"; "Org1_IEX_b[u]tr"]).
  { eexists. vm_compute. done. }
  destruct H as (model' & H & Hids). exists model'. split_and!; [done | done |].
  exact (proj1 (reformat_postcondition model model' _ H)).
Defined.

(** X20. The guards of the tagging, and the one that is missing. In a
    network whose metabolite ids are settled for the organism (each id that
    mentions [[c]], [[p]] or [[e]] contains the organism name, which is what
    the guards test), an application of [reformat_gem_for_community] with
    that name, when it returns, changes no metabolite id: the metabolites of
    the network keep their ids and their places, and only new general lumen
    metabolites can follow them.  The reaction ids have no such guard in
    step 2: every reaction that step 1 keeps and whose equation mentions
    [[e]] or [[c]] has its id prefixed with the name once more. *)
Theorem second_tagging_keeps_metabolite_ids (model model' : Model)
    (microbe_model_name : string) :
  tagged (short_name microbe_model_name) model ->
  reformat_gem_for_community model microbe_model_name = Ok model' ->
  (met_id <$> metabolites model) `prefix_of` (met_id <$> metabolites model')
  ∧ ∀ rxn, rxn ∈ reactions model ->
      Str.contains (rxn_id rxn) "EX_" && negb (Str.contains (rxn_id rxn) "biomass") = false ->
      reaction_mentions rxn "[e]" || reaction_mentions rxn "[c]" = true ->
      (short_name microbe_model_name ++ "_" ++ rxn_id rxn) ∈ (rxn_id <$> reactions model').
Proof.
  intros Ht. unfold reformat_gem_for_community, _create_inter_microbe_exchange,
    _finalize_microbe_tagging.
  set (name := short_name microbe_model_name) in *.
  set (m1 := remove_reactions model _).
  assert (Ht1 : tagged name m1).
  { destruct Ht as [Hm Hr]. split; [done |]. cbn. rewrite Forall_forall in Hr.
    apply Forall_forall. intros r Hin%list_elem_of_In. apply filter_In in Hin as [Hin _].
    apply Hr. by apply list_elem_of_In. }
  destruct (foldlM (tag_reaction name) m1 _) as [m2|] eqn:H2; cbn [mbind result_bind]; [| done].
  pose proof (tag_loop_keeps _ _ _ _ Ht1 H2) as [Hm2 _].
  apply (tag_loop_ids name (reactions m1) [] m1 m2 Ht1 eq_refl) in H2 as (ids2 & Hr2 & Hids2).
  destruct (foldlM (iex_step name) m2 _) as [m3|] eqn:H3; cbn [mbind result_bind]; [| done].
  pose proof (iex_loop_ids _ _ _ _ H3) as [more Hr3].
  apply iex_loop_prefix in H3 as [extra H3].
  destruct (foldlM (finalize_reaction name) m3 _) as [m4|] eqn:H4;
    cbn [mbind result_bind]; [| done].
  pose proof (finalize_reactions_ids _ _ _ _ H4) as Hr4.
  apply finalize_reactions_metabolites in H4.
  intros H5. pose proof (finalize_metabolites_reaction_ids _ _ _ _ H5) as Hr5.
  apply finalize_metabolites_ids in H5. split.
  - rewrite H4, H3, Hm2, fmap_app in H5. change (metabolites m1) with (metabolites model) in H5.
    apply Forall2_app_inv_l in H5 as (k1 & k2 & Hk1 & _ & ->).
    apply settled_unchanged in Hk1 as ->; [by apply prefix_app_r |].
    destruct Ht as [Hm _]. by apply Forall_fmap.
  - intros rxn Hin Hkept Hmentions.
    assert (Hin1 : rxn ∈ reactions m1).
    { apply list_elem_of_In, filter_In. split; [by apply list_elem_of_In |]. by rewrite Hkept. }
    apply list_elem_of_lookup_1 in Hin1 as [i Hi].
    cbn [app] in Hr2.
    destruct (Forall2_lookup_l _ _ _ _ _ Hids2 Hi) as (r2 & Hi2 & ->).
    rewrite Hmentions in Hi2.
    assert (Hi3 : (rxn_id <$> reactions m3) !! i = Some (name ++ "_" ++ rxn_id rxn)).
    { rewrite Hr3. apply lookup_app_l_Some. by rewrite Hr2, list_lookup_fmap, Hi2. }
    destruct (Forall2_lookup_l _ _ _ _ _ Hr4 Hi3) as (id4 & Hi4 & Hsame).
    rewrite Hsame in Hi4 by apply str_prefix_app.
    rewrite Hr5. by apply list_elem_of_lookup_2 in Hi4.
Qed.

Lemma second_tagging_witness :
  let once :=
    mk_Model
      [mk_Reaction "Org1_R1" "" "" 0%float 1000%float
         [("Org1_a[c]", (-1)%float); ("Org1_b[u]", 1%float)];
       mk_Reaction "Org1_IEX_b[u]tr" "Org1_IEX" " " (-1000)%float 1000%float
         [("b[u]", (-1)%float); ("Org1_b[u]", 1%float)]]
      [mk_Metabolite "Org1_a[c]" (Some "c") "" ""; mk_Metabolite "Org1_b[u]" (Some "u") "" "";
       mk_Metabolite "b[u]" (Some "u") "b" ""] in
  tagged (short_name "models/Org1.mat") once
  ∧ ∃ twice,
      reformat_gem_for_community once "models/Org1.mat" = Ok twice
      ∧ (met_id <$> metabolites once) `prefix_of` (met_id <$> metabolites twice)
      ∧ "Org1_Org1_R1" ∈ (rxn_id <$> reactions twice).
Proof.
  intros once.
  assert (Ht : tagged (short_name "models/Org1.mat") once).
  { split; repeat constructor. }
  split; [exact Ht |].
  assert (H : ∃ twice, reformat_gem_for_community once "models/Org1.mat" = Ok twice).
  { eexists. vm_compute. reflexivity. }
  destruct H as [twice H]. exists twice. split; [exact H |].
  destruct (second_tagging_keeps_metabolite_ids once twice _ Ht H) as [Hmets Hrxns].
  split; [exact Hmets |].
  apply (Hrxns (mk_Reaction "Org1_R1" "" "" 0%float 1000%float
                  [("Org1_a[c]", (-1)%float); ("Org1_b[u]", 1%float)])).
  - by left.
  - reflexivity.
  - reflexivity.
Defined.

(** ** The organism name behind a model path *)

Lemma contains_app_false (a b sub : string) :
  Str.contains (a ++ b) sub = false -> Str.contains b sub = false.
Proof.
  intros H. apply not_true_is_false. intros Hb.
  by rewrite (contains_app_l a b sub Hb) in H.
Qed.

Lemma contains_cons_false (c : ascii) (s sub : string) :
  Str.contains (String c s) sub = false -> Str.contains s sub = false.
Proof. cbn [Str.contains]. by intros [_ ?]%orb_false_iff. Qed.

Lemma prefix_char (a c : ascii) (s : string) :
  String.prefix (String a "") (String c s) = (if ascii_dec a c then true else false).
Proof. rewrite prefix_cons. destruct (ascii_dec a c); [apply prefix_nil | done]. Qed.

Lemma contains_slash_head (c : ascii) (s : string) :
  Str.contains (String c s) "/" = false -> Ascii.eqb c "/" = false.
Proof.
  cbn [Str.contains]. intros [H _]%orb_false_iff. revert H. rewrite prefix_char.
  destruct (ascii_dec "/" c) as [<-|Hne]; [done |].
  intros _. apply Ascii.eqb_neq. congruence.
Qed.

Lemma basename_plain (b : string) : Str.contains b "/" = false -> basename b = b.
Proof.
  destruct b as [|c b]; [done |]. intros H. cbn [basename].
  by rewrite (contains_cons_false _ _ _ H), (contains_slash_head _ _ H).
Qed.

Lemma basename_after_slash (a b : string) :
  Str.contains b "/" = false -> basename (a ++ "/" ++ b) = b.
Proof.
  intros Hb. induction a as [|c a IH].
  - rewrite str_app_nil. change ("/" ++ b) with (String "/" b). cbn [basename].
    by rewrite Hb.
  - rewrite str_app_cons. cbn [basename].
    rewrite (contains_app_l a ("/" ++ b) "/"); [done |].
    change ("/" ++ b) with (String "/" b). apply contains_prefix.
    rewrite prefix_char. by destruct (ascii_dec _ _).
Qed.

Lemma ends_with_slash (a : string) :
  a ≠ "" ->
  Str.contains (String.substring (String.length a - 1) 1 a) "/" = true ->
  ∃ a', a = a' ++ "/".
Proof.
  induction a as [|c a IH]; [done |]. intros _.
  destruct a as [|c' a].
  - change (String.substring (String.length (String c "") - 1) 1 (String c ""))
      with (String c ""). cbn [Str.contains].
    rewrite prefix_char.
    destruct (ascii_dec "/" c) as [<-|?]; [| done]. intros _. by exists "".
  - replace (String.length (String c (String c' a)) - 1)
      with (S (String.length (String c' a) - 1)) by (cbn; lia).
    cbn [String.substring].
    intros [a' Ha']%IH; [| done]. exists (String c a'). by rewrite str_app_cons, <- Ha'.
Qed.

Lemma basename_join (mod_dir file : string) :
  Str.contains file "/" = false -> basename (path_join mod_dir file) = file.
Proof.
  intros Hfile. unfold path_join.
  assert (Str.startswith file "/" = false) as ->.
  { destruct file as [|c file]; [done |]. unfold Str.startswith.
    cbn [Str.contains] in Hfile. apply orb_false_iff in Hfile as [Hfile _]. exact Hfile. }
  destruct (String.eqb_spec mod_dir "") as [->|Hne]; cbn [orb].
  - rewrite str_app_nil. by apply basename_plain.
  - destruct (Str.contains (String.substring _ _ _) "/") eqn:Hlast.
    + apply ends_with_slash in Hlast as [a' ->]; [| done].
      rewrite string_app_assoc. by apply basename_after_slash.
    + by apply basename_after_slash.
Qed.

Lemma splitext_mat (s : string) (seen : bool) :
  seen || existsb (fun c => negb (Ascii.eqb c ".")) (list_ascii_of_string s) = true ->
  splitext_root seen (s ++ ".mat") = s.
Proof.
  revert seen. induction s as [|c s IH]; intros seen.
  - cbn [list_ascii_of_string existsb]. rewrite orb_false_r. by intros ->.
  - intros H. rewrite str_app_cons. cbn [splitext_root].
    rewrite (contains_app_l s ".mat" ".") by done. cbn [negb]. rewrite andb_false_r.
    rewrite IH; [done |]. cbn [list_ascii_of_string existsb] in H.
    by rewrite orb_assoc in H.
Qed.

(** X9. The tag is the organism name: for an organism whose name has no [/]
    and a character other than a dot, the short name that
    [reformat_gem_for_community] reads off the path
    [os.path.join(mod_dir, name + ".mat")], which [build_global_gem] hands
    to it, is the name itself, whatever the directory. *)
Theorem short_name_of_model_path (mod_dir microbe : string) :
  Str.contains microbe "/" = false ->
  existsb (fun c => negb (Ascii.eqb c ".")) (list_ascii_of_string microbe) = true ->
  short_name (path_join mod_dir (microbe ++ ".mat")) = microbe.
Proof.
  intros Hslash Hdot. unfold short_name. rewrite basename_join.
  - apply splitext_mat. by rewrite Hdot.
  - apply not_true_is_false. intros H. revert Hslash H. clear.
    induction microbe as [|c s IH]; [done |].
    rewrite str_app_cons. cbn [Str.contains].
    intros [Hp Hs]%orb_false_iff [H | H]%orb_true_iff; [| by apply IH].
    revert Hp H. rewrite !prefix_char.
    by destruct (ascii_dec "/" c).
Qed.

Lemma short_name_of_model_path_witness :
  short_name (path_join "data/AGORA/" ("Bacteroides_sp_1.1" ++ ".mat")) = "Bacteroides_sp_1.1".
Proof. by apply short_name_of_model_path. Defined.

(** ** The exchange between an organism and the lumen *)

Lemma iex_step_outcome (name : string) (m m' : Model) (met : string) :
  iex_step name m met = Ok m' ->
  let g := Str.replace met (name ++ "_") "" in
  let rid := name ++ "_IEX_" ++ g ++ "tr" in
  has_reaction m rid = false
  ∧ (∀ id, id ≠ rid -> find_reaction m' id = find_reaction m id)
  ∧ (g ≠ met ->
     find_reaction m' rid
     = Some (mk_Reaction rid (name ++ "_IEX") " " (-1000)%float 1000%float
               [(g, (-1)%float); (met, 1%float)])).
Proof.
  intros H g rid. unfold iex_step in H. fold g in H. fold rid in H.
  set (m1 := if has_metabolite m g then m else _) in H.
  assert (Hrs : ∀ id, find_reaction m1 id = find_reaction m id).
  { intros id. subst m1. by destruct (has_metabolite m g). }
  assert (Hhas : has_reaction m1 rid = has_reaction m rid).
  { subst m1. by destruct (has_metabolite m g). }
  change (create_rxn rid (name ++ "_IEX") " " ((-1000)%float, 1000%float))
    with (Ok (mk_Reaction rid (name ++ "_IEX") " " (-1000) 1000 [])) in H.
  cbn [mbind result_bind] in H.
  set (r0 := mk_Reaction rid _ _ _ _ _) in H.
  destruct (has_reaction m1 rid) eqn:Hfresh; [done |].
  destruct (build_reaction_from_string _ _ _ _ _) as [m2|] eqn:H2;
    cbn [mbind result_bind] in H; [| done].
  split_and!.
  - by rewrite <- Hhas.
  - intros id Hne.
    rewrite (update_reaction_frame _ _ _ id _ (set_bounds_id _) H) by done.
    rewrite (build_reaction_frame _ _ _ _ _ id _ H2) by done.
    rewrite add_reactions_frame by done. apply Hrs.
  - intros Hg.
    assert (Hfind1 : find_reaction (add_reactions m1 r0) rid = Some r0).
    { apply (find_added m1 r0). exact Hfresh. }
    pose proof (build_reaction_find _ _ _ _ _ _ _ Hfind1 eq_refl Hg H2) as Hfind2.
    apply (update_reaction_find _ _ _ _ _
             (mk_Reaction rid (name ++ "_IEX") " " (-1000)%float 1000%float
                [(g, (-1)%float); (met, 1%float)]) Hfind2) in H; done.
Qed.

Lemma iex_loop_frame (name : string) (l : list string) (m m' : Model) (id : string) :
  foldlM (iex_step name) m l = Ok m' ->
  has_reaction m id = true -> find_reaction m' id = find_reaction m id.
Proof.
  revert m. induction l as [|x l IH]; intros m; cbn [foldlM]; [by intros [= <-] |].
  destruct (iex_step name m x) as [m1|] eqn:H1; cbn [mbind result_bind]; [| done].
  intros Hloop Hhas. apply iex_step_outcome in H1 as (Hfresh & Hframe & _).
  assert (Hne : id ≠ name ++ "_IEX_" ++ Str.replace x (name ++ "_") "" ++ "tr")
    by (intros ->; congruence).
  rewrite (IH m1 Hloop), Hframe; [done | done |].
  apply not_false_iff_true. rewrite has_reaction_none, Hframe by done.
  by rewrite <- has_reaction_none, Hhas.
Qed.

(** X10. When [_create_inter_microbe_exchange] returns, every metabolite of
    the network whose id holds [[u]] and the organism name has its exchange
    with the lumen: with [g] the id without the [name_] tag (and [g]
    different from the id), the reaction [name_IEX_{g}tr] consumes [g] and
    produces the organism's metabolite within [(-1000, 1000)], and [g] is a
    metabolite of the network. *)
Theorem inter_microbe_exchange (model model' : Model) (microbe_name met : string) :
  _create_inter_microbe_exchange model microbe_name = Ok model' ->
  met ∈ met_id <$> metabolites model ->
  Str.contains met "[u]" = true -> Str.contains met microbe_name = true ->
  let g := Str.replace met (microbe_name ++ "_") "" in
  g ≠ met ->
  find_reaction model' (microbe_name ++ "_IEX_" ++ g ++ "tr")
  = Some (mk_Reaction (microbe_name ++ "_IEX_" ++ g ++ "tr") (microbe_name ++ "_IEX") " "
            (-1000)%float 1000%float [(g, (-1)%float); (met, 1%float)]).
Proof.
  intros Hloop Hin Hu Hname g Hg. unfold _create_inter_microbe_exchange in Hloop.
  assert (Hl : met ∈ List.filter
                 (fun id => Str.contains id "[u]" && Str.contains id microbe_name)
                 (met_id <$> metabolites model)).
  { apply list_elem_of_In, filter_In. split; [by apply list_elem_of_In |].
    by rewrite Hu, Hname. }
  apply list_elem_of_split in Hl as (l1 & l2 & Hsplit). rewrite Hsplit in Hloop.
  rewrite foldlM_app in Hloop. cbn [foldlM] in Hloop.
  destruct (foldlM _ model l1) as [ma|]; cbn [mbind result_bind] in Hloop; [| done].
  destruct (iex_step microbe_name ma met) as [mb|] eqn:Hstep;
    cbn [mbind result_bind] in Hloop; [| done].
  apply iex_step_outcome in Hstep as (_ & _ & Hfind). specialize (Hfind Hg).
  subst g. rewrite (iex_loop_frame _ _ _ _ _ Hloop); [done |].
  apply not_false_iff_true. rewrite has_reaction_none. by rewrite Hfind.
Qed.

Lemma inter_microbe_exchange_witness :
  let model :=
    mk_Model
      [mk_Reaction "Org1_R1" "" "" 0%float 1000%float
         [("Org1_a[c]", (-1)%float); ("Org1_b[u]", 1%float)]]
      [mk_Metabolite "Org1_a[c]" (Some "c") "" ""; mk_Metabolite "Org1_b[u]" (Some "u") "" ""] in
  ∃ model',
    _create_inter_microbe_exchange model "Org1" = Ok model'
    ∧ find_reaction model' "Org1_IEX_b[u]tr"
      = Some (mk_Reaction "Org1_IEX_b[u]tr" "Org1_IEX" " " (-1000)%float 1000%float
                [("b[u]", (-1)%float); ("Org1_b[u]", 1%float)]).
Proof.
  intros model.
  assert (H : ∃ model', _create_inter_microbe_exchange model "Org1" = Ok model').
  { eexists. vm_compute. reflexivity. }
  destruct H as [model' H]. exists model'. split; [exact H |].
  apply (inter_microbe_exchange model model' "Org1" "Org1_b[u]" H).
  - right. left.
  - reflexivity.
  - reflexivity.
  - done.
Defined.

(** ** Physiological bounds *)

Lemma set_bounds_spec (r r' : Reaction) (b : float * float) :
  set_bounds r b = Ok r' -> r' = with_bounds r b.1 b.2.
Proof. unfold set_bounds. destruct (check_bounds _ _); cbn; [| done]. by intros [= <-]. Qed.

Lemma open_transport_spec (r r' : Reaction) :
  open_transport r = Ok r' ->
  r' = if Str.startswith (rxn_id r) "UFEt_" || Str.startswith (rxn_id r) "DUt_"
          || Str.startswith (rxn_id r) "EX_"
       then with_bounds r
              (if PrimFloat.ltb 1e6%float (lower_bound r) then 1e6%float else lower_bound r)
              1e6%float
       else r.
Proof.
  unfold open_transport. destruct (_ || _).
  - apply set_upper_bound_spec.
  - by intros [= <-].
Qed.

Lemma demand_sink_spec (r r' : Reaction) :
  demand_sink r = Ok r' ->
  r' = if Str.contains (rxn_id r) "_DM_"
       then with_bounds r 0%float
              (if PrimFloat.ltb (upper_bound r) 0%float then 0%float else upper_bound r)
       else if Str.contains (rxn_id r) "_sink_"
       then with_bounds r (-1)%float
              (if PrimFloat.ltb (upper_bound r) (-1)%float then (-1)%float else upper_bound r)
       else r.
Proof.
  unfold demand_sink. destruct (Str.contains (rxn_id r) "_DM_").
  - apply set_lower_bound_spec.
  - destruct (Str.contains (rxn_id r) "_sink_").
    + apply set_lower_bound_spec.
    + by intros [= <-].
Qed.

Lemma open_transport_id (a b : Reaction) : open_transport a = Ok b -> rxn_id b = rxn_id a.
Proof. intros ->%open_transport_spec. by destruct (_ || _). Qed.

Lemma open_transport_metabolites (a b : Reaction) :
  open_transport a = Ok b -> rxn_metabolites b = rxn_metabolites a.
Proof. intros ->%open_transport_spec. by destruct (_ || _). Qed.

Lemma demand_sink_id (a b : Reaction) : demand_sink a = Ok b -> rxn_id b = rxn_id a.
Proof. intros ->%demand_sink_spec. by repeat destruct (Str.contains _ _). Qed.

Lemma demand_sink_metabolites (a b : Reaction) :
  demand_sink a = Ok b -> rxn_metabolites b = rxn_metabolites a.
Proof. intros ->%demand_sink_spec. by repeat destruct (Str.contains _ _). Qed.

Lemma open_transport_other (r r' : Reaction) :
  Str.startswith (rxn_id r) "UFEt_" || Str.startswith (rxn_id r) "DUt_"
  || Str.startswith (rxn_id r) "EX_" = false ->
  open_transport r = Ok r' -> r' = r.
Proof. intros Hno ->%open_transport_spec. by rewrite Hno. Qed.

Lemma demand_sink_other (r r' : Reaction) :
  Str.contains (rxn_id r) "_DM_" = false -> Str.contains (rxn_id r) "_sink_" = false ->
  demand_sink r = Ok r' -> r' = r.
Proof. intros Hdm Hsink ->%demand_sink_spec. by rewrite Hdm, Hsink. Qed.

(** Replacing the reaction found under an id, seen position by position *)
Lemma put_Forall2 (rs : list Reaction) (rid : string) (r r' : Reaction) :
  List.find (fun x => String.eqb (rxn_id x) rid) rs = Some r ->
  Forall2 (fun x x' => x' = x ∨ (x = r ∧ x' = r')) rs (put_reaction rs rid r').
Proof.
  induction rs as [|x rs IH]; [done |]. cbn.
  destruct (String.eqb (rxn_id x) rid).
  - intros [= ->]. constructor; [by right |].
    apply Forall_Forall2_diag, Forall_forall. by left.
  - intros H. constructor; [by left | by apply IH].
Qed.

Lemma update_reaction_stage (m m' : Model) (rid : string) (f : Reaction -> result Reaction) :
  update_reaction m rid f = Ok m' ->
  metabolites m' = metabolites m
  ∧ Forall2 (fun x x' => x' = x ∨ (rxn_id x = rid ∧ f x = Ok x'))
      (reactions m) (reactions m').
Proof.
  unfold update_reaction, get_reaction, find_reaction.
  destruct (List.find _ (reactions m)) as [r|] eqn:Hr; cbn; [| done].
  destruct (f r) as [r'|] eqn:Hf; cbn; [| done].
  intros [= <-]. split; [done |]. cbn.
  eapply Forall2_impl; [by apply (put_Forall2 _ rid r r') |].
  intros x x' [-> | [-> ->]]; [by left | right].
  split; [by apply (find_id _ _ _ Hr) | done].
Qed.

Lemma Forall2_compose {A : Type} (R S T : A -> A -> Prop) (l k j : list A) :
  (∀ x y z, R x y -> S y z -> T x z) -> Forall2 R l k -> Forall2 S k j -> Forall2 T l j.
Proof.
  intros H Hlk. revert j. induction Hlk as [|x y l k Hxy _ IH]; intros j Hkj.
  - inversion Hkj. constructor.
  - inversion Hkj as [|? z ? j' Hyz Hrest]; subst. constructor; [by eapply H | by apply IH].
Qed.

Lemma host_supply_stage (diet : list diet_row) (l : list (string * float)) (m m' : Model) :
  foldlM (host_supply diet) m l = Ok m' ->
  metabolites m' = metabolites m
  ∧ Forall2 (supplied diet l) (reactions m) (reactions m').
Proof.
  revert m. induction l as [|e l IH]; intros m; cbn [foldlM].
  - intros [= <-]. split; [done |]. apply Forall_Forall2_diag, Forall_forall. by left.
  - destruct (host_supply diet m e) as [m1|] eqn:H1; cbn [mbind result_bind]; [| done].
    intros [Hms Hall]%IH.
    assert (metabolites m1 = metabolites m
            ∧ Forall2 (supplied diet [e]) (reactions m) (reactions m1)) as [Hms1 Hall1].
    { revert H1. unfold host_supply.
      destruct (negb _ && _) eqn:Hg.
      - intros [Hm1 H1]%update_reaction_stage. split; [done |].
        eapply Forall2_impl; [exact H1 |]. intros x x' [-> | [Hid Hx]]; [by left | right].
        exists e. apply andb_prop in Hg as [Hg _]. apply negb_true_iff in Hg.
        split_and!; [by left | done | by rewrite Hid | by apply set_bounds_spec in Hx].
      - intros [= <-]. split; [done |]. apply Forall_Forall2_diag, Forall_forall. by left. }
    split; [congruence |].
    eapply Forall2_compose; [| exact Hall1 | exact Hall].
    intros x y z [-> | (e1 & He1 & Hid1 & Hd1 & ->)] [-> | (e2 & He2 & Hid2 & Hd2 & ->)].
    + by left.
    + right. exists e2. split_and!; [by right | done | done | done].
    + right. exists e1. apply list_elem_of_singleton in He1 as ->.
      split_and!; [by left | done | done | done].
    + right. exists e2. split_and!; [by right | done | done | done].
Qed.

Lemma physiological_stages (model model' : Model) (biomass_bounds : float * float)
    (humanMets : list (string * float)) (diet_constraints : list diet_row) :
  _configure_physiological_bounds model biomass_bounds humanMets diet_constraints = Ok model' ->
  metabolites model' = metabolites model
  ∧ Forall2
      (fun r r' =>
         ∃ r1 r2 r3,
           (r1 = r ∨ (rxn_id r = "communityBiomass"
                      ∧ r1 = with_bounds r biomass_bounds.1 biomass_bounds.2))
           ∧ open_transport r1 = Ok r2
           ∧ supplied diet_constraints humanMets r2 r3
           ∧ demand_sink r3 = Ok r')
      (reactions model) (reactions model').
Proof.
  unfold _configure_physiological_bounds.
  destruct (if has_reaction model "communityBiomass" then _ else _) as [m1|] eqn:H1;
    cbn [mbind result_bind]; [| done].
  destruct (foldlM (at_reaction open_transport) m1 _) as [m2|] eqn:H2;
    cbn [mbind result_bind]; [| done].
  destruct (foldlM (host_supply diet_constraints) m2 humanMets) as [m3|] eqn:H3;
    cbn [mbind result_bind]; [| done].
  intros [Hms4 H4]%at_reaction_all.
  apply host_supply_stage in H3 as [Hms3 H3].
  apply at_reaction_all in H2 as [Hms2 H2].
  assert (metabolites m1 = metabolites model
          ∧ Forall2 (fun r r1 => r1 = r ∨ (rxn_id r = "communityBiomass"
                                 ∧ r1 = with_bounds r biomass_bounds.1 biomass_bounds.2))
              (reactions model) (reactions m1)) as [Hms1 Hs1].
  { destruct (has_reaction model "communityBiomass").
    - apply update_reaction_stage in H1 as [? H1]. split; [done |].
      eapply Forall2_impl; [exact H1 |]. intros x x' [-> | [Hid Hx]]; [by left | right].
      split; [done | by apply set_bounds_spec in Hx].
    - injection H1 as <-. split; [done |].
      apply Forall_Forall2_diag, Forall_forall. by left. }
  split; [congruence |].
  assert (H34 : Forall2 (fun r2 r' => ∃ r3, supplied diet_constraints humanMets r2 r3
                                            ∧ demand_sink r3 = Ok r')
                  (reactions m2) (reactions model')).
  { eapply Forall2_compose; [| exact H3 | exact H4].
    intros x y z Hxy Hyz. by exists y. }
  assert (H234 : Forall2 (fun r1 r' => ∃ r2 r3, open_transport r1 = Ok r2
                                                ∧ supplied diet_constraints humanMets r2 r3
                                                ∧ demand_sink r3 = Ok r')
                   (reactions m1) (reactions model')).
  { eapply Forall2_compose; [| exact H2 | exact H34].
    intros x y z Hxy (r3 & ? & ?). by exists y, r3. }
  eapply Forall2_compose; [| exact Hs1 | exact H234].
  intros r r1 r' Hr1 (r2 & r3 & ? & ? & ?). by exists r1, r2, r3.
Qed.

Lemma diet_id_not_opened (s : string) :
  Str.startswith ("Diet_EX_" ++ s) "UFEt_" || Str.startswith ("Diet_EX_" ++ s) "DUt_"
  || Str.startswith ("Diet_EX_" ++ s) "EX_" = false.
Proof. reflexivity. Qed.

(** X11. When [_configure_physiological_bounds] returns, the reactions are
    the same in number, ids and stoichiometry; every reaction whose id starts
    with [UFEt_], [DUt_] or [EX_] has the upper bound [1e6]; every reaction
    whose id contains [_DM_] has the lower bound 0, and every other reaction
    whose id contains [_sink_] has the lower bound [-1]. *)
Theorem physiological_bounds_set (model model' : Model) (biomass_bounds : float * float)
    (humanMets : list (string * float)) (diet_constraints : list diet_row) :
  _configure_physiological_bounds model biomass_bounds humanMets diet_constraints = Ok model' ->
  metabolites model' = metabolites model
  ∧ Forall2
      (fun r r' =>
         rxn_id r' = rxn_id r ∧ rxn_metabolites r' = rxn_metabolites r
         ∧ (Str.startswith (rxn_id r) "UFEt_" || Str.startswith (rxn_id r) "DUt_"
            || Str.startswith (rxn_id r) "EX_" = true -> upper_bound r' = 1e6%float)
         ∧ (Str.contains (rxn_id r) "_DM_" = true -> lower_bound r' = 0%float)
         ∧ (Str.contains (rxn_id r) "_DM_" = false -> Str.contains (rxn_id r) "_sink_" = true ->
            lower_bound r' = (-1)%float))
      (reactions model) (reactions model').
Proof.
  intros [Hms Hall]%physiological_stages. split; [done |].
  eapply Forall2_impl; [exact Hall |]. clear.
  intros r r' (r1 & r2 & r3 & H1 & H2 & H3 & H4).
  pose proof (open_transport_id _ _ H2) as Hid2.
  pose proof (open_transport_metabolites _ _ H2) as Hst2.
  pose proof (demand_sink_id _ _ H4) as Hid4.
  pose proof (demand_sink_metabolites _ _ H4) as Hst4.
  apply open_transport_spec in H2. apply demand_sink_spec in H4.
  assert (Hid1 : rxn_id r1 = rxn_id r) by (by destruct H1 as [-> | [_ ->]]).
  assert (Hst1 : rxn_metabolites r1 = rxn_metabolites r) by (by destruct H1 as [-> | [_ ->]]).
  assert (Hid3 : rxn_id r3 = rxn_id r2) by (by destruct H3 as [-> | (e & _ & _ & _ & ->)]).
  assert (Hst3 : rxn_metabolites r3 = rxn_metabolites r2)
    by (by destruct H3 as [-> | (e & _ & _ & _ & ->)]).
  split_and!.
  - congruence.
  - congruence.
  - intros Hopen. rewrite Hid1, Hopen in H2.
    assert (r3 = r2) as ->.
    { destruct H3 as [-> | (e & _ & Hid & _ & _)]; [done |].
      rewrite Hid2, Hid1 in Hid. by rewrite Hid, diet_id_not_opened in Hopen. }
    assert (Hub2 : upper_bound r2 = 1e6%float) by (by subst r2).
    subst r'. repeat destruct (Str.contains _ _); cbn [upper_bound with_bounds];
      rewrite Hub2; done.
  - intros Hdm. rewrite Hid3, Hid2, Hid1, Hdm in H4. by subst r'.
  - intros Hdm Hsink. rewrite Hid3, Hid2, Hid1, Hdm, Hsink in H4. by subst r'.
Qed.

Lemma physiological_bounds_set_witness :
  let model :=
    mk_Model
      [mk_Reaction "EX_a[fe]" "" "" (-1000)%float 10000%float [("a[fe]", (-1)%float)];
       mk_Reaction "A_DM_x" "" "" (-5)%float 1000%float [("A_x[c]", (-1)%float)];
       mk_Reaction "A_sink_y" "" "" (-1000)%float 1000%float [("A_y[c]", (-1)%float)]]
      [mk_Metabolite "a[fe]" (Some "fe") "" ""; mk_Metabolite "A_x[c]" (Some "c") "" "";
       mk_Metabolite "A_y[c]" (Some "c") "" ""] in
  ∃ model',
    _configure_physiological_bounds model (0.4%float, 1%float) HUMAN_METS [] = Ok model'
    ∧ (upper_bound <$> reactions model' = [1e6%float; 1000%float; 1000%float])
    ∧ (lower_bound <$> reactions model' = [(-1000)%float; 0%float; (-1)%float])
    ∧ metabolites model' = metabolites model.
Proof.
  intros model.
  assert (H : ∃ model',
            _configure_physiological_bounds model (0.4%float, 1%float) HUMAN_METS [] = Ok model'
            ∧ (upper_bound <$> reactions model' = [1e6%float; 1000%float; 1000%float])
            ∧ (lower_bound <$> reactions model' = [(-1000)%float; 0%float; (-1)%float])).
  { eexists. vm_compute. done. }
  destruct H as (model' & H & Hub & Hlb). exists model'. split_and!; [done | done | done |].
  exact (proj1 (physiological_bounds_set model model' _ _ _ H)).
Defined.

Lemma physiological_split (model model' : Model) (biomass_bounds : float * float)
    (humanMets : list (string * float)) (diet_constraints : list diet_row) :
  _configure_physiological_bounds model biomass_bounds humanMets diet_constraints = Ok model' ->
  ∃ m1 m2 m3,
    (if has_reaction model "communityBiomass"
     then update_reaction model "communityBiomass" (fun r => set_bounds r biomass_bounds)
     else Ok model) = Ok m1
    ∧ foldlM (at_reaction open_transport) m1 (seq 0 (List.length (reactions m1))) = Ok m2
    ∧ foldlM (host_supply diet_constraints) m2 humanMets = Ok m3
    ∧ foldlM (at_reaction demand_sink) m3 (seq 0 (List.length (reactions m3))) = Ok model'.
Proof.
  unfold _configure_physiological_bounds.
  destruct (if has_reaction model "communityBiomass" then _ else _) as [m1|] eqn:H1;
    cbn [mbind result_bind]; [| done].
  destruct (foldlM (at_reaction open_transport) m1 _) as [m2|] eqn:H2;
    cbn [mbind result_bind]; [| done].
  destruct (foldlM (host_supply diet_constraints) m2 humanMets) as [m3|] eqn:H3;
    cbn [mbind result_bind]; [| done].
  intros H4. exists m1, m2, m3. by split_and!.
Qed.

Lemma find_Forall2 (R : Reaction -> Reaction -> Prop) (l k : list Reaction) (id : string)
    (x : Reaction) :
  Forall2 R l k -> (∀ a b, R a b -> rxn_id b = rxn_id a) ->
  List.find (fun r => String.eqb (rxn_id r) id) l = Some x ->
  ∃ y, List.find (fun r => String.eqb (rxn_id r) id) k = Some y ∧ R x y.
Proof.
  intros Hall Hid. induction Hall as [|a b l k Hab _ IH]; [done |]. cbn.
  rewrite (Hid a b Hab). destruct (String.eqb (rxn_id a) id).
  - intros [= <-]. by exists b.
  - apply IH.
Qed.

Lemma at_reaction_find (g : Reaction -> result Reaction) (m m' : Model) (id : string)
    (r : Reaction) :
  (∀ a b, g a = Ok b -> rxn_id b = rxn_id a) ->
  foldlM (at_reaction g) m (seq 0 (List.length (reactions m))) = Ok m' ->
  find_reaction m id = Some r ->
  ∃ r', find_reaction m' id = Some r' ∧ g r = Ok r'.
Proof.
  intros Hg [_ Hall]%at_reaction_all Hfind.
  by apply (find_Forall2 _ _ _ id r Hall Hg).
Qed.

(** X12. When [_configure_physiological_bounds] returns on a network that
    has the reaction [communityBiomass], that reaction carries exactly the
    requested biomass bounds and is otherwise as it was; no later step of the
    function touches it. *)
Theorem community_biomass_bounds (model model' : Model) (biomass_bounds : float * float)
    (humanMets : list (string * float)) (diet_constraints : list diet_row) (r : Reaction) :
  _configure_physiological_bounds model biomass_bounds humanMets diet_constraints = Ok model' ->
  find_reaction model "communityBiomass" = Some r ->
  find_reaction model' "communityBiomass"
  = Some (with_bounds r biomass_bounds.1 biomass_bounds.2).
Proof.
  intros (m1 & m2 & m3 & H1 & H2 & H3 & H4)%physiological_split Hfind.
  assert (Hhas : has_reaction model "communityBiomass" = true).
  { apply not_false_iff_true. by rewrite has_reaction_none, Hfind. }
  rewrite Hhas in H1.
  assert (Hid : rxn_id r = "communityBiomass") by (by apply (find_id _ _ _ Hfind)).
  assert (Hf1 : find_reaction m1 "communityBiomass"
                = Some (with_bounds r biomass_bounds.1 biomass_bounds.2)).
  { revert H1. unfold update_reaction, get_reaction. rewrite Hfind. cbn [mbind result_bind].
    destruct (set_bounds r biomass_bounds) as [r1|] eqn:Hb; cbn [mbind result_bind]; [| done].
    apply set_bounds_spec in Hb as ->. intros [= <-]. unfold find_reaction. cbn.
    by apply (find_put _ _ r). }
  destruct (at_reaction_find _ _ _ _ _ open_transport_id H2 Hf1) as (r2 & Hf2 & Hopen).
  apply open_transport_other in Hopen as ->; [| cbn [rxn_id with_bounds]; by rewrite Hid].
  assert (Hf3 : find_reaction m3 "communityBiomass"
                = Some (with_bounds r biomass_bounds.1 biomass_bounds.2)).
  { apply host_supply_stage in H3 as [_ H3].
    destruct (find_Forall2 _ _ _ "communityBiomass"
                (with_bounds r biomass_bounds.1 biomass_bounds.2) H3) as (r3 & Hf3 & Hs).
    - by intros a b [-> | (e & _ & _ & _ & ->)].
    - exact Hf2.
    - destruct Hs as [-> | (e & _ & He & _)]; [done |].
      cbn [rxn_id with_bounds] in He. rewrite Hid in He. discriminate He. }
  destruct (at_reaction_find _ _ _ _ _ demand_sink_id H4 Hf3) as (r4 & Hf4 & Hds).
  by apply demand_sink_other in Hds as ->; [| cbn [rxn_id with_bounds]; by rewrite Hid ..].
Qed.

Lemma community_biomass_bounds_witness :
  let cb := mk_Reaction "communityBiomass" "communityBiomass" " " 0%float 10000%float
              [("A_biomass[c]", (-0.5)%float); ("microbeBiomass[u]", 1%float)] in
  let model :=
    mk_Model
      [mk_Reaction "A_R1" "" "" 0%float 1000%float [("A_biomass[c]", 1%float)]; cb]
      [mk_Metabolite "A_biomass[c]" (Some "c") "" "";
       mk_Metabolite "microbeBiomass[u]" (Some "u") "" ""] in
  ∃ model',
    _configure_physiological_bounds model (0.4%float, 1%float) HUMAN_METS [] = Ok model'
    ∧ find_reaction model' "communityBiomass" = Some (with_bounds cb 0.4%float 1%float).
Proof.
  intros cb model.
  assert (H : ∃ model',
            _configure_physiological_bounds model (0.4%float, 1%float) HUMAN_METS []
            = Ok model').
  { eexists. vm_compute. reflexivity. }
  destruct H as [model' H]. exists model'. split; [exact H |].
  by apply (community_biomass_bounds model model' _ _ _ cb H).
Defined.

Lemma diet_id_inj (a b : string) :
  "Diet_EX_" ++ a ++ "[d]" = "Diet_EX_" ++ b ++ "[d]" -> a = b.
Proof. intros H%app_inj_l. by apply app_inj_r in H. Qed.

Lemma host_supply_other (diet : list diet_row) (m m' : Model) (e : string * float)
    (id : string) :
  host_supply diet m e = Ok m' -> id ≠ "Diet_EX_" ++ e.1 ++ "[d]" ->
  find_reaction m' id = find_reaction m id.
Proof.
  unfold host_supply. destruct (negb _ && _); [| by intros [= <-]].
  intros H Hne. by rewrite (update_reaction_frame _ _ _ id _ (set_bounds_id _) H).
Qed.

Lemma host_loop_other (diet : list diet_row) (l : list (string * float)) (m m' : Model)
    (met : string) :
  foldlM (host_supply diet) m l = Ok m' -> met ∉ l.*1 ->
  find_reaction m' ("Diet_EX_" ++ met ++ "[d]") = find_reaction m ("Diet_EX_" ++ met ++ "[d]").
Proof.
  revert m. induction l as [|e l IH]; intros m; cbn [foldlM]; [by intros [= <-] |].
  destruct (host_supply diet m e) as [m1|] eqn:H1; cbn [mbind result_bind]; [| done].
  rewrite fmap_cons, not_elem_of_cons. intros Hloop [Hne Hnot].
  rewrite (IH m1 Hloop Hnot). apply (host_supply_other _ _ _ _ _ H1).
  intros Heq%diet_id_inj. done.
Qed.

Lemma host_loop_supplies (diet : list diet_row) (l : list (string * float)) (m m' : Model)
    (met : string) (bound : float) (r : Reaction) :
  foldlM (host_supply diet) m l = Ok m' ->
  NoDup l.*1 -> (met, bound) ∈ l ->
  existsb (fun row => String.eqb (row_rxn_id row) ("Diet_EX_" ++ met ++ "[d]")) diet = false ->
  find_reaction m ("Diet_EX_" ++ met ++ "[d]") = Some r ->
  find_reaction m' ("Diet_EX_" ++ met ++ "[d]") = Some (with_bounds r bound 10000%float).
Proof.
  revert m. induction l as [|e l IH]; intros m; cbn [foldlM].
  - intros _ _ Hin. by apply elem_of_nil in Hin.
  - destruct (host_supply diet m e) as [m1|] eqn:H1; cbn [mbind result_bind]; [| done].
    rewrite fmap_cons, NoDup_cons. intros Hloop [Hfirst Hnd] Hin Hdiet Hfind.
    apply elem_of_cons in Hin as [<- | Hin].
    + cbn [fst] in Hfirst. rewrite (host_loop_other _ _ _ _ _ Hloop Hfirst).
      revert H1. unfold host_supply. cbn [fst snd]. rewrite Hdiet. cbn [negb andb].
      assert (has_reaction m ("Diet_EX_" ++ met ++ "[d]") = true) as ->.
      { apply not_false_iff_true. by rewrite has_reaction_none, Hfind. }
      unfold update_reaction, get_reaction. rewrite Hfind. cbn [mbind result_bind].
      destruct (set_bounds r _) as [r1|] eqn:Hb; cbn [mbind result_bind]; [| done].
      apply set_bounds_spec in Hb as ->. intros [= <-]. unfold find_reaction. cbn.
      apply (find_put _ _ r); [done |]. cbn. by apply (find_id _ _ _ Hfind).
    + apply (IH m1 Hloop Hnd Hin Hdiet).
      rewrite (host_supply_other _ _ _ _ _ H1); [done |].
      intros Heq%diet_id_inj. apply Hfirst. rewrite <- Heq.
      apply list_elem_of_fmap. by exists (met, bound).
Qed.

(** X13. Host supply: for a host metabolite [met] with bound [b] of the
    dictionary (whose keys are distinct), when the diet table has no row for
    [Diet_EX_{met}[d]] and the network has that reaction (its id mentioning
    neither [_DM_] nor [_sink_]), the reaction ends with the bounds
    [(b, 10000)] and is otherwise as it was. *)
Theorem host_metabolite_supplied (model model' : Model) (biomass_bounds : float * float)
    (humanMets : list (string * float)) (diet_constraints : list diet_row)
    (met : string) (bound : float) (r : Reaction) :
  _configure_physiological_bounds model biomass_bounds humanMets diet_constraints = Ok model' ->
  NoDup humanMets.*1 -> (met, bound) ∈ humanMets ->
  existsb (fun row => String.eqb (row_rxn_id row) ("Diet_EX_" ++ met ++ "[d]"))
    diet_constraints = false ->
  Str.contains ("Diet_EX_" ++ met ++ "[d]") "_DM_" = false ->
  Str.contains ("Diet_EX_" ++ met ++ "[d]") "_sink_" = false ->
  find_reaction model ("Diet_EX_" ++ met ++ "[d]") = Some r ->
  find_reaction model' ("Diet_EX_" ++ met ++ "[d]") = Some (with_bounds r bound 10000%float).
Proof.
  intros (m1 & m2 & m3 & H1 & H2 & H3 & H4)%physiological_split Hnd Hin Hdiet Hdm Hsink Hfind.
  set (id := "Diet_EX_" ++ met ++ "[d]") in *.
  assert (Hid : rxn_id r = id) by (by apply (find_id _ _ _ Hfind)).
  assert (Hf1 : find_reaction m1 id = Some r).
  { destruct (has_reaction model "communityBiomass"); [| by injection H1 as <-].
    by rewrite (update_reaction_frame _ _ _ id _ (set_bounds_id _) H1). }
  destruct (at_reaction_find _ _ _ _ _ open_transport_id H2 Hf1) as (r2 & Hf2 & Hopen).
  apply open_transport_other in Hopen as ->;
    [| rewrite Hid; subst id; apply diet_id_not_opened].
  pose proof (host_loop_supplies _ _ _ _ _ _ _ H3 Hnd Hin Hdiet Hf2) as Hf3.
  destruct (at_reaction_find _ _ _ _ _ demand_sink_id H4 Hf3) as (r4 & Hf4 & Hds).
  by apply demand_sink_other in Hds as ->; [| cbn [rxn_id with_bounds]; by rewrite Hid ..].
Qed.

Lemma host_metabolite_supplied_witness :
  let ex := mk_Reaction "Diet_EX_gchola[d]" "" "" 0%float 1000%float
              [("gchola[d]", (-1)%float)] in
  let model := mk_Model [ex] [mk_Metabolite "gchola[d]" (Some "d") "" ""] in
  ∃ model',
    _configure_physiological_bounds model (0.4%float, 1%float) HUMAN_METS [] = Ok model'
    ∧ find_reaction model' ("Diet_EX_" ++ "gchola" ++ "[d]")
      = Some (with_bounds ex (-10)%float 10000%float).
Proof.
  intros ex model.
  assert (H : ∃ model',
            _configure_physiological_bounds model (0.4%float, 1%float) HUMAN_METS []
            = Ok model').
  { eexists. vm_compute. reflexivity. }
  destruct H as [model' H]. exists model'. split; [exact H |].
  apply (host_metabolite_supplied model model' _ _ _ "gchola" (-10)%float ex H).
  - apply (bool_decide_unpack _). vm_compute. exact I.
  - by left.
  - reflexivity.
  - reflexivity.
  - reflexivity.
  - reflexivity.
Defined.

(** X14. The diet has priority over the host supply: a [Diet_EX_] reaction
    that a row of the diet table names (and whose id mentions neither [_DM_]
    nor [_sink_]) leaves [_configure_physiological_bounds] exactly as it
    entered it, at the same position. *)
Theorem diet_rows_outlive_host_supply (model model' : Model) (biomass_bounds : float * float)
    (humanMets : list (string * float)) (diet_constraints : list diet_row)
    (i : nat) (r : Reaction) :
  _configure_physiological_bounds model biomass_bounds humanMets diet_constraints = Ok model' ->
  reactions model !! i = Some r ->
  Str.startswith (rxn_id r) "Diet_EX_" = true ->
  existsb (fun row => String.eqb (row_rxn_id row) (rxn_id r)) diet_constraints = true ->
  Str.contains (rxn_id r) "_DM_" = false -> Str.contains (rxn_id r) "_sink_" = false ->
  reactions model' !! i = Some r.
Proof.
  intros [_ Hall]%physiological_stages Hi Hdiet Hrow Hdm Hsink.
  destruct (Forall2_lookup_l _ _ _ _ _ Hall Hi) as (r' & Hi' & r1 & r2 & r3 & H1 & H2 & H3 & H4).
  pose proof Hdiet as [t Ht]%prefix_inv.
  assert (r1 = r) as ->.
  { destruct H1 as [-> | [Hcb _]]; [done |]. rewrite Hcb in Ht. discriminate Ht. }
  apply open_transport_other in H2 as ->; [| rewrite Ht; apply diet_id_not_opened].
  assert (r3 = r) as ->.
  { destruct H3 as [-> | (e & _ & _ & Hno & _)]; [done | congruence]. }
  by apply demand_sink_other in H4 as ->.
Qed.

Lemma diet_rows_outlive_host_supply_witness :
  let ex := mk_Reaction "Diet_EX_gchola[d]" "" "" (-2.5)%float 1000%float
              [("gchola[d]", (-1)%float)] in
  let model := mk_Model [ex] [mk_Metabolite "gchola[d]" (Some "d") "" ""] in
  let diet := [mk_diet_row "Diet_EX_gchola[d]" (-2.5)%float 1000%float] in
  ∃ model',
    _configure_physiological_bounds model (0.4%float, 1%float) HUMAN_METS diet = Ok model'
    ∧ reactions model' !! 0 = Some ex.
Proof.
  intros ex model diet.
  assert (H : ∃ model',
            _configure_physiological_bounds model (0.4%float, 1%float) HUMAN_METS diet
            = Ok model').
  { eexists. vm_compute. reflexivity. }
  destruct H as [model' H]. exists model'. split; [exact H |].
  by apply (diet_rows_outlive_host_supply model model' _ _ _ 0 ex H).
Defined.

(** ** The names of the exchanges *)

Lemma replace_absent (s old new : string) :
  Str.contains s old = false -> Str.replace s old new = s.
Proof.
  induction s as [|c s IH]; [done |]. cbn [Str.contains].
  intros [Hp Hs]%orb_false_iff. rewrite replace_other by done. by rewrite IH.
Qed.

(** A pattern cannot end inside [x ++ s] when the first character of [s]
    does not occur in it. *)
Lemma prefix_app_other (p x : string) (s0 : ascii) (s : string) :
  Forall (fun c => c ≠ s0) (list_ascii_of_string p) ->
  String.prefix p (x ++ String s0 s) = String.prefix p x.
Proof.
  revert x. induction p as [|a p IH]; intros x Hp.
  - by rewrite !prefix_nil.
  - cbn [list_ascii_of_string] in Hp. apply Forall_cons in Hp as [Ha Hp].
    destruct x as [|c x].
    + rewrite str_app_nil, prefix_cons. by destruct (ascii_dec a s0).
    + rewrite str_app_cons, !prefix_cons. destruct (ascii_dec a c); [by apply IH | done].
Qed.

Lemma contains_app_other (b : string) (p0 s0 : ascii) (p s : string) :
  Forall (fun c => c ≠ s0) (list_ascii_of_string p) ->
  Str.contains (b ++ String s0 s) (String p0 p)
  = Str.contains b (String p0 p) || Str.contains (String s0 s) (String p0 p).
Proof.
  intros Hp. induction b as [|c b IH]; [by rewrite str_app_nil |].
  rewrite str_app_cons. cbn [Str.contains]. rewrite IH, <- orb_assoc. f_equal.
  rewrite !prefix_cons.
  destruct (ascii_dec p0 c); [| done]. by apply prefix_app_other.
Qed.

Lemma str_app_empty (s : string) : s ++ "" = s.
Proof. induction s as [|c s IH]; [done |]. by rewrite str_app_cons, IH. Qed.

Lemma replace_suffix (b : string) (p0 : ascii) (p new : string) :
  Forall (fun c => c ≠ p0) (list_ascii_of_string p) ->
  Str.contains b (String p0 p) = false ->
  Str.replace (b ++ String p0 p) (String p0 p) new = b ++ new.
Proof.
  intros Hp. induction b as [|c b IH]; intros Hb.
  - rewrite !str_app_nil. rewrite <- (str_app_empty (String p0 p)) at 1.
    rewrite replace_match. apply str_app_empty.
  - cbn [Str.contains] in Hb. apply orb_false_iff in Hb as [Hpre Hb].
    rewrite !str_app_cons, replace_other; [by rewrite IH |].
    rewrite prefix_cons. rewrite prefix_cons in Hpre.
    destruct (ascii_dec p0 c); [| done]. by rewrite prefix_app_other.
Qed.

(** X15. The three places that name an exchange agree: for a metabolite
    base name free of [EX_], [[e]] and [[fe]] (and other than [biomass]),
    the universe of [simulate_microbiota_models] turns [{base}[e]] into
    [EX_{base}[fe]], the diet variable that the flux aggregation looks up for
    that exchange is [Diet_EX_{base}[d]], and that is the id which
    [_apply_dietary_constraints] gives the reaction [EX_{base}[d]]. *)
Theorem exchange_names_agree (base : string) :
  Str.contains base "EX_" = false -> Str.contains base "[e]" = false ->
  Str.contains base "[fe]" = false -> base ≠ "biomass" ->
  exchange_universe [base ++ "[e]"] = ["EX_" ++ base ++ "[fe]"]
  ∧ diet_var_of ("EX_" ++ base ++ "[fe]") = "Diet_EX_" ++ base ++ "[d]"
  ∧ Str.replace ("EX_" ++ base ++ "[d]") "EX_" "Diet_EX_" = "Diet_EX_" ++ base ++ "[d]".
Proof.
  intros Hex He Hfe Hbio.
  split_and!.
  - unfold exchange_universe. rewrite filter_cons_True.
    + cbn [fmap list_fmap filter list_filter]. f_equal. f_equal.
      apply (replace_suffix base "[" "e]" "[fe]"); [| done].
      repeat constructor; done.
    + intros Heq. apply Hbio. by apply (app_inj_r _ _ "[e]").
  - unfold diet_var_of.
    change ("EX_" ++ base ++ "[fe]") with (String "E" "X_" ++ (base ++ "[fe]")).
    rewrite replace_match, (replace_absent (base ++ "[fe]") "EX_").
    + rewrite !str_app_cons, str_app_nil.
      rewrite !replace_other by reflexivity.
      rewrite (replace_suffix base "[" "fe]" "[d]"); [done | by repeat constructor | done].
    + rewrite (contains_app_other base "E" "[" "X_" "fe]") by (repeat constructor; done).
      by rewrite Hex.
  - change ("EX_" ++ base ++ "[d]") with (String "E" "X_" ++ (base ++ "[d]")).
    rewrite replace_match, replace_absent; [done |].
    rewrite (contains_app_other base "E" "[" "X_" "d]") by (repeat constructor; done).
    by rewrite Hex.
Qed.

Lemma exchange_names_agree_witness :
  exchange_universe ["ac" ++ "[e]"] = ["EX_" ++ "ac" ++ "[fe]"]
  ∧ diet_var_of ("EX_" ++ "ac" ++ "[fe]") = "Diet_EX_" ++ "ac" ++ "[d]"
  ∧ Str.replace ("EX_" ++ "ac" ++ "[d]") "EX_" "Diet_EX_" = "Diet_EX_" ++ "ac" ++ "[d]".
Proof. by apply exchange_names_agree. Defined.

(** ** The four result dictionaries *)

Section AggregationKeys.

Variables min_flux_fecal max_flux_fecal min_flux_diet max_flux_diet : gmap string float.

Let step := flux_step min_flux_fecal max_flux_fecal min_flux_diet max_flux_diet.

Lemma fold_min_net (l : list string) (acc : net_fluxes) (k : string) :
  min_net_fecal_excretion (foldl step acc l) !! k =
    if bool_decide (k ∈ l)
    then Some (PrimFloat.add (dict_get min_flux_fecal k)
                             (dict_get min_flux_diet (diet_var_of k)))
    else min_net_fecal_excretion acc !! k.
Proof.
  revert acc. induction l as [|x l IH]; intros acc.
  - case_bool_decide as Hin; [by apply elem_of_nil in Hin | done].
  - cbn [foldl]. rewrite IH. subst step. unfold flux_step. cbn.
    destruct (bool_decide_reflect (k ∈ l)) as [Hl|Hl];
      destruct (bool_decide_reflect (k ∈ x :: l)) as [Hxl|Hxl]; try done.
    + exfalso. apply Hxl. by right.
    + apply elem_of_cons in Hxl as [->|Hxl]; [| done]. by rewrite lookup_insert_eq.
    + rewrite lookup_insert_ne; [done |]. intros ->. apply Hxl. by left.
Qed.

Lemma fold_raw (l : list string) (acc : net_fluxes) (k : string) :
  raw_fva_results (foldl step acc l) !! k =
    if bool_decide (k ∈ l)
    then Some {| raw_min_flux_diet := dict_get min_flux_diet (diet_var_of k);
                 raw_max_flux_diet := dict_get max_flux_diet (diet_var_of k);
                 raw_min_flux_fecal := dict_get min_flux_fecal k;
                 raw_max_flux_fecal := dict_get max_flux_fecal k |}
    else raw_fva_results acc !! k.
Proof.
  revert acc. induction l as [|x l IH]; intros acc.
  - case_bool_decide as Hin; [by apply elem_of_nil in Hin | done].
  - cbn [foldl]. rewrite IH. subst step. unfold flux_step. cbn.
    destruct (bool_decide_reflect (k ∈ l)) as [Hl|Hl];
      destruct (bool_decide_reflect (k ∈ x :: l)) as [Hxl|Hxl]; try done.
    + exfalso. apply Hxl. by right.
    + apply elem_of_cons in Hxl as [->|Hxl]; [| done]. by rewrite lookup_insert_eq.
    + rewrite lookup_insert_ne; [done |]. intros ->. apply Hxl. by left.
Qed.

End AggregationKeys.

(** X16. The four dictionaries that [_analyze_metabolite_fluxes] returns
    have the same keys, the exchanges of the model that lie in the requested
    universe (none when the two do not meet); for such a key the minimal net
    fecal excretion is the signed sum [min_flux_fecal + min_flux_diet], with
    0 for a missing entry, and the raw record holds the four looked-up
    values. *)
Theorem flux_dictionaries_agree
    (min_flux_fecal max_flux_fecal min_flux_diet max_flux_diet : gmap string float)
    (fecal_rxns exchanges : list string) :
  let r := aggregate_net_fluxes min_flux_fecal max_flux_fecal min_flux_diet max_flux_diet
             fecal_rxns exchanges in
  let keys : gset string := list_to_set fecal_rxns ∩ list_to_set exchanges in
  dom (net_production_samp r) = keys ∧ dom (net_uptake_samp r) = keys
  ∧ dom (min_net_fecal_excretion r) = keys ∧ dom (raw_fva_results r) = keys
  ∧ ∀ k, k ∈ keys ->
      min_net_fecal_excretion r !! k
      = Some (PrimFloat.add (dict_get min_flux_fecal k)
                            (dict_get min_flux_diet (diet_var_of k)))
      ∧ raw_fva_results r !! k
        = Some {| raw_min_flux_diet := dict_get min_flux_diet (diet_var_of k);
                  raw_max_flux_diet := dict_get max_flux_diet (diet_var_of k);
                  raw_min_flux_fecal := dict_get min_flux_fecal k;
                  raw_max_flux_fecal := dict_get max_flux_fecal k |}.
Proof.
  intros r keys. subst r. unfold aggregate_net_fluxes. fold keys.
  assert (Hkeys : ∀ k, bool_decide (k ∈ elements keys) = bool_decide (k ∈ keys)).
  { intros k. apply bool_decide_ext, elem_of_elements. }
  split_and!.
  - apply set_eq. intros k. rewrite elem_of_dom, fold_production, Hkeys.
    case_bool_decide; [by split |]. cbn. rewrite lookup_empty. by split; [intros [? ?] |].
  - apply set_eq. intros k. rewrite elem_of_dom, fold_uptake, Hkeys.
    case_bool_decide; [by split |]. cbn. rewrite lookup_empty. by split; [intros [? ?] |].
  - apply set_eq. intros k. rewrite elem_of_dom, fold_min_net, Hkeys.
    case_bool_decide; [by split |]. cbn. rewrite lookup_empty. by split; [intros [? ?] |].
  - apply set_eq. intros k. rewrite elem_of_dom, fold_raw, Hkeys.
    case_bool_decide; [by split |]. cbn. rewrite lookup_empty. by split; [intros [? ?] |].
  - intros k Hk. rewrite fold_min_net, fold_raw, Hkeys.
    by rewrite bool_decide_eq_true_2.
Qed.

(** ** The collecting loop *)

Lemma unpack5_ok (o : result (list pyobj)) (n a b c d : pyobj) :
  o ≫= unpack5 = Ok (n, a, b, c, d) -> o = Ok [n; a; b; c; d].
Proof.
  destruct o as [t|e]; [| done]. cbn [mbind result_bind].
  destruct t as [|x0 [|x1 [|x2 [|x3 [|x4 [|x5 t]]]]]]; cbn [unpack5]; try done.
  by intros [= -> -> -> -> ->].
Qed.

(** X17. Once one result has been stored (so that [sample_name] is bound),
    the collecting loop of [simulate_microbiota_models] never raises: a
    failed task, a tuple of the wrong length or a name that is not a string
    is skipped, and at the end the net-production dictionary has, besides the
    keys it had, exactly the names of the outcomes that were five-value
    tuples led by a string. *)
Theorem collecting_after_first_result (outcomes : list (result (list pyobj)))
    (st : collected) :
  is_Some (sample_name st) ->
  ∃ st', foldlM collect_step st outcomes = Ok st'
         ∧ is_Some (sample_name st')
         ∧ ∀ s, s ∈ dom (net_production st')
                ↔ s ∈ dom (net_production st)
                  ∨ ∃ a b c d, Ok [PyStr s; a; b; c; d] ∈ outcomes.
Proof.
  revert st. induction outcomes as [|o outcomes IH]; intros st Hbound.
  - exists st. split_and!; [done | done |]. intros s. split; [by left |].
    intros [? | (a & b & c & d & Hin)]; [done | by apply elem_of_nil in Hin].
  - cbn [foldlM].
    assert (∃ st1, collect_step st o = Ok st1 ∧ is_Some (sample_name st1)
                   ∧ ∀ s, s ∈ dom (net_production st1)
                          ↔ s ∈ dom (net_production st)
                            ∨ ∃ a b c d, o = Ok [PyStr s; a; b; c; d])
      as (st1 & -> & Hb1 & Hdom1).
    { destruct Hbound as [v Hv].
      destruct (o ≫= unpack5) as [[[[[n a] b] c] d]|e] eqn:Ho.
      - apply unpack5_ok in Ho as ->. unfold collect_step, store_result.
        cbn [mbind result_bind unpack5].
        destruct n as [s0|f|f]; (eexists; split_and!; [done | done |]);
          intros s; cbn [net_production].
        + rewrite dom_insert, elem_of_union, elem_of_singleton. split.
          * intros [-> | ?]; [right | by left]. by exists a, b, c, d.
          * intros [? | (? & ? & ? & ? & [= ->])]; [by right | by left].
        + split; [by left | by intros [? | (? & ? & ? & ? & [=])]].
        + split; [by left | by intros [? | (? & ? & ? & ? & [=])]].
      - exists st. unfold collect_step, store_result. rewrite Ho. cbn iota. rewrite Hv.
        split_and!; [done | by eexists |].
        intros s. split; [by left |]. intros [? | (? & ? & ? & ? & ->)]; [done |].
        discriminate Ho. }
    cbn [mbind result_bind].
    destruct (IH st1 Hb1) as (st' & Hloop & Hb' & Hdom').
    exists st'. split_and!; [done | done |]. intros s.
    rewrite Hdom', Hdom1. split.
    + intros [[? | (a & b & c & d & ->)] | (a & b & c & d & Hin)].
      * by left.
      * right. exists a, b, c, d. by left.
      * right. exists a, b, c, d. by right.
    + intros [? | (a & b & c & d & [<- | Hin]%elem_of_cons)].
      * by left; left.
      * left. right. by exists a, b, c, d.
      * right. by exists a, b, c, d.
Qed.

Lemma collecting_after_first_result_witness :
  let st := mk_collected (Some (PyStr "s1")) {["s1" := PyFluxes ∅]} ∅ ∅ ∅ in
  let outcomes :=
    [Raise (ValueError "too many values to unpack (expected 2)");
     Ok [PyStr "s2"; PyFluxes ∅; PyFluxes ∅; PyFluxes ∅; PyRawFva ∅];
     Ok [PyStr "s3"; PyFluxes ∅; PyFluxes ∅]] in
  ∃ st', foldlM collect_step st outcomes = Ok st'
         ∧ "s2" ∈ dom (net_production st') ∧ "s3" ∉ dom (net_production st').
Proof.
  intros st outcomes.
  destruct (collecting_after_first_result outcomes st) as (st' & Hloop & _ & Hdom).
  { by eexists. }
  exists st'. split_and!; [done | |].
  - apply Hdom. right. exists (PyFluxes ∅), (PyFluxes ∅), (PyFluxes ∅), (PyRawFva ∅).
    right. left.
  - intros [Hin | (a & b & c & d & Hin)]%Hdom.
    + cbn [net_production st] in Hin. by rewrite dom_singleton, elem_of_singleton in Hin.
    + repeat (apply elem_of_cons in Hin as [Hin | Hin]; [discriminate Hin |]).
      by apply elem_of_nil in Hin.
Defined.

(** ** The diet and fecal compartments: what is left alone, and a failure *)

Lemma add_reactions_ids (m : Model) (r : Reaction) :
  (rxn_id <$> reactions m) `prefix_of` (rxn_id <$> reactions (add_reactions m r)).
Proof.
  unfold add_reactions. destruct (has_reaction m (rxn_id r)); [done |].
  cbn. rewrite fmap_app. by apply prefix_app_r.
Qed.

Lemma has_reaction_elem (m : Model) (id : string) :
  has_reaction m id = true ↔ id ∈ rxn_id <$> reactions m.
Proof. by rewrite <- snapshot_reactions, elem_of_list_to_set. Qed.

Lemma has_reaction_prefix (m m' : Model) (id : string) :
  (rxn_id <$> reactions m) `prefix_of` (rxn_id <$> reactions m') ->
  has_reaction m id = true -> has_reaction m' id = true.
Proof.
  intros [k Hk]. rewrite !has_reaction_elem, Hk, elem_of_app. by left.
Qed.

Lemma add_exchange_grows (b : string) (em : gset string) (m m' : Model)
    (bounds : float * float) (comp label : string) :
  _add_exchange_reaction b em m bounds comp label = Ok m' ->
  (rxn_id <$> reactions m) `prefix_of` (rxn_id <$> reactions m')
  ∧ metabolites m `prefix_of` metabolites m'.
Proof.
  unfold _add_exchange_reaction. case_bool_decide as Hem; [by intros [= <-] |].
  destruct (create_rxn _ _ _ _) as [r|]; cbn [mbind result_bind]; [| done].
  destruct (get_metabolite _ _) as [met|]; cbn [mbind result_bind]; [| done].
  intros H. split.
  - rewrite (reaction_add_metabolites_ids _ _ _ _ H). apply add_reactions_ids.
  - apply reaction_add_metabolites_prefix in H. etrans; [| exact H].
    cbn [metabolites add_metabolites with_model_metabolites].
    rewrite add_reactions_metabolites. by apply prefix_app_r.
Qed.

Lemma add_transport_grows (rid : string) (er : gset string) (m m' : Model)
    (a p : string) (bounds : float * float) (label : string) :
  _add_transport_reaction rid er m a p bounds label = Ok m' ->
  (rxn_id <$> reactions m) `prefix_of` (rxn_id <$> reactions m')
  ∧ metabolites m `prefix_of` metabolites m'
  ∧ (rid ∉ er -> has_reaction m rid = false ∧ has_reaction m' rid = true).
Proof.
  unfold _add_transport_reaction. case_bool_decide as Her; [by intros [= <-] |].
  destruct (create_rxn _ _ _ _) as [r|] eqn:Hr; cbn [mbind result_bind]; [| done].
  apply create_rxn_spec in Hr as ->.
  destruct (has_reaction m rid) eqn:Hfresh; [done |].
  destruct (build_reaction_from_string _ _ _ _ _) as [m1|] eqn:H1;
    cbn [mbind result_bind]; [| done].
  intros H.
  assert (Hids : rxn_id <$> reactions m'
                 = rxn_id <$> reactions (add_reactions m (mk_Reaction rid
                     (rid ++ " " ++ label ++ " transport") " "
                     (if PrimFloat.ltb bounds.2 bounds.1 then bounds.2 else bounds.1)
                     bounds.2 []))).
  { rewrite (update_reaction_ids _ _ _ _ (set_bounds_id _) H).
    by rewrite (build_reaction_ids _ _ _ _ _ _ H1). }
  split_and!.
  - rewrite Hids. apply add_reactions_ids.
  - apply update_reaction_metabolites in H. rewrite H.
    apply build_reaction_prefix in H1. by rewrite add_reactions_metabolites in H1.
  - intros _. split; [done |]. apply has_reaction_elem. rewrite Hids.
    apply has_reaction_false in Hfresh. rewrite add_reactions_fresh by done.
    cbn. rewrite fmap_app, elem_of_app. right. by left.
Qed.

Lemma diet_fecal_step_grows (em er : gset string) (m m' : Model) (l : string) :
  diet_fecal_step em er m l = Ok m' ->
  (rxn_id <$> reactions m) `prefix_of` (rxn_id <$> reactions m')
  ∧ metabolites m `prefix_of` metabolites m'
  ∧ ("DUt_" ++ Str.split_head l "[" ∉ er ->
     has_reaction m ("DUt_" ++ Str.split_head l "[") = false
     ∧ has_reaction m' ("DUt_" ++ Str.split_head l "[") = true).
Proof.
  unfold diet_fecal_step. set (b := Str.split_head l "[").
  destruct (_add_exchange_reaction b em m _ "d" _) as [m1|] eqn:H1;
    cbn [mbind result_bind]; [| done].
  destruct (_add_transport_reaction (_ ++ b) er m1 _ _ _ _) as [m2|] eqn:H2;
    cbn [mbind result_bind]; [| done].
  destruct (_add_exchange_reaction b em m2 _ "fe" _) as [m3|] eqn:H3;
    cbn [mbind result_bind]; [| done].
  intros H4.
  apply add_exchange_grows in H1 as [Hr1 Hm1].
  apply add_transport_grows in H2 as (Hr2 & Hm2 & Hnew).
  apply add_exchange_grows in H3 as [Hr3 Hm3].
  apply add_transport_grows in H4 as (Hr4 & Hm4 & _).
  split_and!.
  - by repeat (etrans; [eassumption |]).
  - by repeat (etrans; [eassumption |]).
  - intros Her. destruct (Hnew Her) as [Hfresh Hhas]. split.
    + destruct (has_reaction m ("DUt_" ++ b)) eqn:Hm; [| done].
      by rewrite (has_reaction_prefix _ _ _ Hr1 Hm) in Hfresh.
    + apply (has_reaction_prefix m2); [| done]. by etrans.
Qed.

Lemma diet_fecal_loop_grows (em er : gset string) (l : list string) (m m' : Model) :
  foldlM (diet_fecal_step em er) m l = Ok m' ->
  (rxn_id <$> reactions m) `prefix_of` (rxn_id <$> reactions m')
  ∧ metabolites m `prefix_of` metabolites m'.
Proof.
  revert m. induction l as [|x l IH]; intros m; cbn [foldlM]; [by intros [= <-] |].
  destruct (diet_fecal_step em er m x) as [m1|] eqn:H1; cbn [mbind result_bind]; [| done].
  intros [Hr Hm]%IH. apply diet_fecal_step_grows in H1 as (Hr1 & Hm1 & _).
  split; by etrans.
Qed.

(** X18. [add_diet_fecal_compartments] only removes the exchange artifacts
    and only adds: a reaction whose id is none of the four ids of a general
    lumen metabolite is found as in the input, unless its id holds [_EX_] or
    [(e)], in which case it is gone; the metabolites of the input all remain,
    in place, and the reactions that remain keep their place. *)
Theorem diet_fecal_leaves_others (model model' : Model) :
  add_diet_fecal_compartments model = Ok model' ->
  let cleaned := remove_reactions model exchange_artifact in
  (∀ id, (∀ l, l ∈ general_mets cleaned -> id ∉ diet_fecal_ids (Str.split_head l "[")) ->
         find_reaction model' id
         = if Str.contains id "_EX_" || Str.contains id "(e)" then None
           else find_reaction model id)
  ∧ metabolites model `prefix_of` metabolites model'
  ∧ (rxn_id <$> reactions cleaned) `prefix_of` (rxn_id <$> reactions model').
Proof.
  intros H cleaned. unfold add_diet_fecal_compartments in H. fold cleaned in H.
  split_and!.
  - intros id Hid. rewrite (diet_fecal_loop_frame _ _ _ _ _ id H).
    + destruct (Str.contains id "_EX_" || Str.contains id "(e)") eqn:Hart.
      * apply find_fresh, removed_fresh. intros r Hr. unfold exchange_artifact.
        by rewrite Hr.
      * apply find_removed_other. intros r Hr. unfold exchange_artifact. by rewrite Hr.
    + intros other Hother. apply Hid. by apply elem_of_elements.
  - by apply diet_fecal_loop_grows in H as [_ ?].
  - by apply diet_fecal_loop_grows in H as [? _].
Qed.

Lemma diet_fecal_leaves_others_witness :
  let model :=
    mk_Model
      [mk_Reaction "Org1_R1" "" "" 0%float 1000%float
         [("Org1_a[c]", (-1)%float); ("Org1_b[u]", 1%float)];
       mk_Reaction "Org1_EX_biomass(e)" "" "" 0%float 1000%float
         [("Org1_biomass[c]", (-1)%float)];
       mk_Reaction "Org1_IEX_b[u]tr" "Org1_IEX" " " (-1000)%float 1000%float
         [("b[u]", (-1)%float); ("Org1_b[u]", 1%float)]]
      [mk_Metabolite "Org1_a[c]" (Some "c") "" ""; mk_Metabolite "Org1_b[u]" (Some "u") "" "";
       mk_Metabolite "Org1_biomass[c]" (Some "c") "" "";
       mk_Metabolite "b[u]" (Some "u") "b" ""] in
  ∃ model',
    add_diet_fecal_compartments model = Ok model'
    ∧ rxn_id <$> reactions model'
      = ["Org1_R1"; "Org1_IEX_b[u]tr"; "EX_b[d]"; "DUt_b"; "EX_b[fe]"; "UFEt_b"]
    ∧ metabolites model `prefix_of` metabolites model'.
Proof.
  intros model.
  assert (H : ∃ model',
            add_diet_fecal_compartments model = Ok model'
            ∧ rxn_id <$> reactions model'
              = ["Org1_R1"; "Org1_IEX_b[u]tr"; "EX_b[d]"; "DUt_b"; "EX_b[fe]"; "UFEt_b"]).
  { eexists. vm_compute. done. }
  destruct H as (model' & H & Hids). exists model'. split_and!; [done | done |].
  exact (proj1 (proj2 (diet_fecal_leaves_others model model' H))).
Defined.

(** X19. Two general lumen metabolites with the same base name make
    [add_diet_fecal_compartments] raise: when the network has no reaction
    [DUt_{base}] to begin with, the second of them finds the reaction that
    the first one made, [add_reactions] leaves the new reaction object out
    of the model, and assigning its equation fails. *)
Theorem diet_fecal_shared_base_raises (model : Model) (l1 l2 : string) :
  let cleaned := remove_reactions model exchange_artifact in
  l1 ∈ general_mets cleaned -> l2 ∈ general_mets cleaned -> l1 ≠ l2 ->
  Str.split_head l1 "[" = Str.split_head l2 "[" ->
  has_reaction cleaned ("DUt_" ++ Str.split_head l1 "[") = false ->
  ∃ e, add_diet_fecal_compartments model = Raise e.
Proof.
  intros cleaned Hl1 Hl2 Hne Hbase Hfresh.
  destruct (add_diet_fecal_compartments model) as [model'|e] eqn:H; [| by exists e].
  exfalso. unfold add_diet_fecal_compartments in H. fold cleaned in H.
  set (em := list_to_set (met_id <$> metabolites cleaned) : gset string) in H.
  set (er := list_to_set (rxn_id <$> reactions cleaned) : gset string) in H.
  assert (Her : "DUt_" ++ Str.split_head l1 "[" ∉ er).
  { subst er. rewrite snapshot_reactions. by rewrite Hfresh. }
  (* the loop cannot pass two metabolites of that base *)
  assert (Hloop : ∀ l m m' x y,
            foldlM (diet_fecal_step em er) m l = Ok m' ->
            x ∈ l -> y ∈ l -> x ≠ y ->
            Str.split_head x "[" = Str.split_head l1 "[" ->
            Str.split_head y "[" = Str.split_head l1 "[" -> False).
  { assert (Hafter : ∀ l m m' y,
              foldlM (diet_fecal_step em er) m l = Ok m' -> y ∈ l ->
              Str.split_head y "[" = Str.split_head l1 "[" ->
              has_reaction m ("DUt_" ++ Str.split_head l1 "[") = true -> False).
    { induction l as [|z l IH]; intros m m' y; cbn [foldlM].
      - intros _ Hy. by apply elem_of_nil in Hy.
      - destruct (diet_fecal_step em er m z) as [m1|] eqn:H1;
          cbn [mbind result_bind]; [| done].
        intros Hrest Hy Hby Hhas.
        pose proof (diet_fecal_step_grows _ _ _ _ _ H1) as (Hr1 & _ & Hnew).
        apply elem_of_cons in Hy as [<- | Hy].
        + rewrite Hby in Hnew. destruct (Hnew Her) as [Hno _]. congruence.
        + apply (IH m1 m' y Hrest Hy Hby). by apply (has_reaction_prefix m). }
    induction l as [|z l IH]; intros m m' x y; cbn [foldlM].
    - intros _ Hx. by apply elem_of_nil in Hx.
    - destruct (diet_fecal_step em er m z) as [m1|] eqn:H1;
        cbn [mbind result_bind]; [| done].
      intros Hrest Hx Hy Hxy Hbx Hby.
      pose proof (diet_fecal_step_grows _ _ _ _ _ H1) as (_ & _ & Hnew).
      apply elem_of_cons in Hx as [-> | Hx]; apply elem_of_cons in Hy as [-> | Hy].
      + done.
      + rewrite Hbx in Hnew. destruct (Hnew Her) as [_ Hhas].
        by apply (Hafter l m1 m' y).
      + rewrite Hby in Hnew. destruct (Hnew Her) as [_ Hhas].
        by apply (Hafter l m1 m' x).
      + by apply (IH m1 m' x y). }
  apply (Hloop _ _ _ l1 l2 H); [by apply elem_of_elements | by apply elem_of_elements
                                | done | done | done].
Qed.

Lemma diet_fecal_shared_base_raises_witness :
  let model :=
    mk_Model
      [mk_Reaction "Org1_IEX_b[u]tr" "Org1_IEX" " " (-1000)%float 1000%float
         [("b[u]", (-1)%float); ("Org1_b[u]", 1%float)];
       mk_Reaction "Org1_IEX_b[x][u]tr" "Org1_IEX" " " (-1000)%float 1000%float
         [("b[x][u]", (-1)%float); ("Org1_b[x][u]", 1%float)]]
      [mk_Metabolite "Org1_b[u]" (Some "u") "" ""; mk_Metabolite "b[u]" (Some "u") "b" "";
       mk_Metabolite "Org1_b[x][u]" (Some "u") "" "";
       mk_Metabolite "b[x][u]" (Some "u") "b" ""] in
  ∃ e, add_diet_fecal_compartments model = Raise e.
Proof.
  intros model.
  apply (diet_fecal_shared_base_raises model "b[u]" "b[x][u]").
  - apply (bool_decide_unpack _). vm_compute. exact I.
  - apply (bool_decide_unpack _). vm_compute. exact I.
  - done.
  - reflexivity.
  - reflexivity.
Defined.

(** ** Bound assignments on ordered bounds *)

Lemma ordered_with_id (r : Reaction) (id : string) : ordered r -> ordered (with_id r id).
Proof. done. Qed.

Lemma set_reaction_id_ordered (m m' : Model) (i : nat) (new : string) :
  set_reaction_id m i new = Ok m' ->
  Forall ordered (reactions m) -> Forall ordered (reactions m').
Proof.
  unfold set_reaction_id. destruct (reactions m !! i) as [r|] eqn:Hi; [| by intros [= <-]].
  destruct (String.eqb new (rxn_id r)); [by intros [= <-] |].
  destruct (has_reaction m new); [done |]. intros [= <-] Hall. cbn.
  apply Forall_insert; [done |]. apply ordered_with_id.
  by apply (Forall_lookup_1 _ _ _ _ Hall Hi).
Qed.

Lemma rename_loop_ordered (l : list string) (m m' : Model) :
  foldlM rename_diet_exchange m l = Ok m' ->
  Forall ordered (reactions m) -> Forall ordered (reactions m').
Proof.
  revert m. induction l as [|id l IH]; intros m; cbn [foldlM]; [by intros [= <-] |].
  destruct (rename_diet_exchange m id) as [m1|] eqn:H1; cbn [mbind result_bind]; [| done].
  intros Hloop Hall. apply (IH m1 Hloop). revert H1. unfold rename_diet_exchange.
  destruct (has_reaction m _); [by intros [= <-] |].
  destruct (index_of _ _) as [i|]; [| done].
  intros H1. by apply (set_reaction_id_ordered _ _ _ _ H1).
Qed.

Lemma at_reaction_returns (P : Reaction -> Prop) (g : Reaction -> result Reaction)
    (rest pre : list Reaction) (ms : list Metabolite) :
  (∀ r, P r -> ∃ r', g r = Ok r' ∧ P r') ->
  Forall P pre -> Forall P rest ->
  ∃ m', foldlM (at_reaction g) (mk_Model (pre ++ rest)%list ms)
          (seq (List.length pre) (List.length rest)) = Ok m'
        ∧ Forall P (reactions m').
Proof.
  intros Hg. revert pre. induction rest as [|r rest IH]; intros pre Hpre Hrest.
  - cbn. eexists. split; [done |]. cbn. by rewrite app_nil_r.
  - cbn [List.length seq foldlM]. rewrite at_reaction_middle.
    apply Forall_cons in Hrest as [Hr Hrest].
    destruct (Hg r Hr) as (r' & -> & Hr'). cbn [mbind result_bind].
    replace (S (List.length pre)) with (List.length (pre ++ [r'])%list)
      by (rewrite length_app; cbn; lia).
    apply IH; [| done]. apply Forall_app. split; [done | by constructor].
Qed.

Lemma close_diet_exchange_returns (r : Reaction) :
  ordered r -> ∃ r', close_diet_exchange r = Ok r' ∧ ordered r'.
Proof.
  intros Hr. unfold close_diet_exchange. destruct (Str.startswith _ _); [| by exists r; split].
  rewrite (set_lower_bound_ordered r _ Hr). eexists. split; [done |].
  apply lower_moved_ordered.
Qed.

Lemma put_Forall (P : Reaction -> Prop) (rs : list Reaction) (id : string) (r' : Reaction) :
  Forall P rs -> P r' -> Forall P (put_reaction rs id r').
Proof.
  intros Hall Hr'. induction Hall as [|x rs Hx Hrs IH]; [done |]. cbn.
  destruct (String.eqb (rxn_id x) id); by constructor.
Qed.

Lemma find_Forall (P : Reaction -> Prop) (m : Model) (id : string) (r : Reaction) :
  Forall P (reactions m) -> find_reaction m id = Some r -> P r.
Proof.
  intros Hall Hfind. rewrite Forall_forall in Hall. apply Hall.
  apply find_some in Hfind as [Hin _]. by apply list_elem_of_In.
Qed.

Lemma apply_diet_row_returns (m : Model) (row : diet_row) :
  Forall ordered (reactions m) ->
  ∃ m', apply_diet_row m row = Ok m' ∧ Forall ordered (reactions m').
Proof.
  intros Hall. unfold apply_diet_row.
  destruct (has_reaction m (row_rxn_id row)) eqn:Hhas; [| by exists m; split].
  destruct (has_reaction_find _ _ Hhas) as [r0 Hfind].
  pose proof (find_id _ _ _ Hfind) as Hid.
  pose proof (find_Forall _ _ _ _ Hall Hfind) as Hr0.
  unfold update_reaction at 2, get_reaction. rewrite Hfind. cbn [mbind result_bind].
  rewrite set_lower_bound_ordered by done. cbn [mbind result_bind].
  set (r1 := with_bounds r0 _ _).
  assert (Hr1 : ordered r1) by apply lower_moved_ordered.
  assert (Hall1 : Forall ordered (put_reaction (reactions m) (row_rxn_id row) r1))
    by (by apply put_Forall).
  destruct (PrimFloat.is_nan _); cbn [negb].
  - eexists. by split.
  - unfold update_reaction, get_reaction, find_reaction. cbn [reactions with_reactions].
    erewrite find_put by done. cbn [mbind result_bind].
    rewrite set_upper_bound_ordered by done. cbn [mbind result_bind].
    eexists. split; [done |]. cbn [reactions with_reactions].
    apply put_Forall; [done |]. apply upper_moved_ordered.
Qed.

Lemma diet_rows_return (diet : list diet_row) (m : Model) :
  Forall ordered (reactions m) ->
  ∃ m', foldlM apply_diet_row m diet = Ok m' ∧ Forall ordered (reactions m').
Proof.
  revert m. induction diet as [|row diet IH]; intros m Hall; cbn [foldlM]; [by exists m; split |].
  destruct (apply_diet_row_returns m row Hall) as (m1 & -> & Hall1). cbn [mbind result_bind].
  by apply IH.
Qed.

(** X21. No assignment of a bound fails in the diet adaptation: on a network
    whose reactions all have a lower bound that is not above the upper
    bound, once the diet exchanges are renamed, the zeroing and every row of
    the table go through, whatever the rows hold, and the reactions of the
    network that is returned again have ordered bounds. *)
Theorem diet_adaptation_returns (model renamed : Model) (diet_constraints : list diet_row) :
  Forall ordered (reactions model) ->
  foldlM rename_diet_exchange model
    (List.filter (fun id => Str.contains id "[d]" && Str.startswith id "EX_")
       (rxn_id <$> reactions model)) = Ok renamed ->
  ∃ model',
    _apply_dietary_constraints model diet_constraints = Ok model'
    ∧ Forall ordered (reactions model').
Proof.
  intros Hall Hren. unfold _apply_dietary_constraints. rewrite Hren. cbn [mbind result_bind].
  apply (rename_loop_ordered _ _ _ Hren) in Hall.
  destruct renamed as [rs ms]. cbn [reactions] in *.
  destruct (at_reaction_returns ordered close_diet_exchange rs [] ms
              close_diet_exchange_returns (Forall_nil_2 _) Hall) as (zeroed & Hz & Hallz).
  cbn [app List.length] in Hz. rewrite Hz. cbn [mbind result_bind].
  by apply diet_rows_return.
Qed.

Lemma diet_adaptation_returns_witness :
  let model :=
    mk_Model
      [mk_Reaction "EX_glc[d]" "" "" (-1000)%float 10000%float [("glc[d]", (-1)%float)];
       mk_Reaction "EX_ac[d]" "" "" (-10)%float (-8)%float [("ac[d]", (-1)%float)]]
      [mk_Metabolite "glc[d]" (Some "d") "" ""; mk_Metabolite "ac[d]" (Some "d") "" ""] in
  let diet := [mk_diet_row "Diet_EX_glc[d]" (-1)%float (-5)%float;
               mk_diet_row "Diet_EX_ac[d]" 20000%float nan] in
  ∃ model',
    _apply_dietary_constraints model diet = Ok model'
    ∧ Forall ordered (reactions model').
Proof.
  intros model diet.
  apply (diet_adaptation_returns model
           (mk_Model
              [mk_Reaction "Diet_EX_glc[d]" "" "" (-1000)%float 10000%float
                 [("glc[d]", (-1)%float)];
               mk_Reaction "Diet_EX_ac[d]" "" "" (-10)%float (-8)%float
                 [("ac[d]", (-1)%float)]]
              [mk_Metabolite "glc[d]" (Some "d") "" ""; mk_Metabolite "ac[d]" (Some "d") "" ""])
           diet).
  - repeat constructor.
  - vm_compute. reflexivity.
Defined.

Lemma update_reaction_returns (P : Reaction -> Prop) (m : Model) (id : string)
    (f : Reaction -> result Reaction) :
  (∀ r, P r -> ∃ r', f r = Ok r' ∧ P r') ->
  has_reaction m id = true -> Forall P (reactions m) ->
  ∃ m', update_reaction m id f = Ok m' ∧ Forall P (reactions m').
Proof.
  intros Hf Hhas Hall. destruct (has_reaction_find _ _ Hhas) as [r Hfind].
  unfold update_reaction, get_reaction. rewrite Hfind. cbn [mbind result_bind].
  destruct (Hf r (find_Forall _ _ _ _ Hall Hfind)) as (r' & -> & Hr').
  cbn [mbind result_bind]. eexists. split; [done |]. cbn. by apply put_Forall.
Qed.

Lemma set_bounds_returns (b : float * float) (r : Reaction) :
  PrimFloat.ltb b.2 b.1 = false -> ∃ r', set_bounds r b = Ok r' ∧ ordered r'.
Proof.
  intros Hb. unfold set_bounds, check_bounds. rewrite Hb. cbn [mbind result_bind].
  eexists. by split.
Qed.

Lemma open_transport_returns (r : Reaction) :
  ordered r -> ∃ r', open_transport r = Ok r' ∧ ordered r'.
Proof.
  intros Hr. unfold open_transport. destruct (_ || _); [| by exists r; split].
  rewrite (set_upper_bound_ordered r _ Hr). eexists. split; [done |].
  apply upper_moved_ordered.
Qed.

Lemma demand_sink_returns (r : Reaction) :
  ordered r -> ∃ r', demand_sink r = Ok r' ∧ ordered r'.
Proof.
  intros Hr. unfold demand_sink.
  destruct (Str.contains _ "_DM_"); [| destruct (Str.contains _ "_sink_")].
  - rewrite (set_lower_bound_ordered r _ Hr). eexists. split; [done |].
    apply lower_moved_ordered.
  - rewrite (set_lower_bound_ordered r _ Hr). eexists. split; [done |].
    apply lower_moved_ordered.
  - by exists r; split.
Qed.

Lemma host_loop_returns (diet : list diet_row) (l : list (string * float)) (m : Model) :
  Forall (fun e => PrimFloat.ltb 10000%float e.2 = false) l ->
  Forall ordered (reactions m) ->
  ∃ m', foldlM (host_supply diet) m l = Ok m' ∧ Forall ordered (reactions m').
Proof.
  intros Hl. revert m. induction Hl as [|e l He _ IH]; intros m Hall; cbn [foldlM].
  - by exists m; split.
  - assert (∃ m1, host_supply diet m e = Ok m1 ∧ Forall ordered (reactions m1))
      as (m1 & -> & Hall1).
    { unfold host_supply. destruct (negb _) ; cbn [andb]; [| by exists m; split].
      destruct (has_reaction m _) eqn:Hhas; [| by exists m; split].
      apply update_reaction_returns; [| done | done].
      intros r _. by apply set_bounds_returns. }
    cbn [mbind result_bind]. by apply IH.
Qed.

Lemma loop_returns (g : Reaction -> result Reaction) (m : Model) :
  (∀ r, ordered r -> ∃ r', g r = Ok r' ∧ ordered r') ->
  Forall ordered (reactions m) ->
  ∃ m', foldlM (at_reaction g) m (seq 0 (List.length (reactions m))) = Ok m'
        ∧ Forall ordered (reactions m').
Proof.
  intros Hg Hall. destruct m as [rs ms].
  apply (at_reaction_returns ordered g rs [] ms Hg (Forall_nil_2 _) Hall).
Qed.

(** X22. [_configure_physiological_bounds] returns on every network with
    ordered bounds, provided the biomass bounds do not cross and no host
    metabolite asks for a lower bound above 10000: the only assignments that
    can fail are the two of [bounds], and the reactions of the network that
    is returned again have ordered bounds. *)
Theorem physiological_bounds_return (model : Model) (biomass_bounds : float * float)
    (humanMets : list (string * float)) (diet_constraints : list diet_row) :
  Forall ordered (reactions model) ->
  PrimFloat.ltb biomass_bounds.2 biomass_bounds.1 = false ->
  Forall (fun e => PrimFloat.ltb 10000%float e.2 = false) humanMets ->
  ∃ model',
    _configure_physiological_bounds model biomass_bounds humanMets diet_constraints = Ok model'
    ∧ Forall ordered (reactions model').
Proof.
  intros Hall Hbb Hhost. unfold _configure_physiological_bounds.
  assert (∃ m1, (if has_reaction model "communityBiomass"
                 then update_reaction model "communityBiomass"
                        (fun r => set_bounds r biomass_bounds)
                 else Ok model) = Ok m1 ∧ Forall ordered (reactions m1))
    as (m1 & -> & Hall1).
  { destruct (has_reaction model "communityBiomass") eqn:Hhas; [| by exists model; split].
    apply update_reaction_returns; [| done | done].
    intros r _. by apply set_bounds_returns. }
  cbn [mbind result_bind].
  destruct (loop_returns open_transport m1 open_transport_returns Hall1) as (m2 & -> & Hall2).
  cbn [mbind result_bind].
  destruct (host_loop_returns diet_constraints humanMets m2 Hhost Hall2) as (m3 & -> & Hall3).
  cbn [mbind result_bind].
  by apply loop_returns; [apply demand_sink_returns |].
Qed.

Lemma physiological_bounds_return_witness :
  let model :=
    mk_Model
      [mk_Reaction "communityBiomass" "" "" 0%float 10000%float
         [("microbeBiomass[u]", 1%float)];
       mk_Reaction "EX_a[fe]" "" "" 2e6%float 3e6%float [("a[fe]", (-1)%float)];
       mk_Reaction "A_DM_x" "" "" (-5)%float (-1)%float [("A_x[c]", (-1)%float)];
       mk_Reaction "Diet_EX_gchola[d]" "" "" 0%float 1000%float [("gchola[d]", (-1)%float)]]
      [mk_Metabolite "microbeBiomass[u]" (Some "u") "" "";
       mk_Metabolite "a[fe]" (Some "fe") "" ""; mk_Metabolite "A_x[c]" (Some "c") "" "";
       mk_Metabolite "gchola[d]" (Some "d") "" ""] in
  ∃ model',
    _configure_physiological_bounds model (0.4%float, 1%float) HUMAN_METS [] = Ok model'
    ∧ Forall ordered (reactions model').
Proof.
  intros model.
  apply (physiological_bounds_return model (0.4%float, 1%float) HUMAN_METS []).
  - repeat constructor.
  - reflexivity.
  - repeat constructor.
Defined.
